(** * Extraction and normalisation engine of the financial-statement importer

    A shallow embedding of [services/geminiService.ts]: the value normaliser
    [cleanNumber], the composition parser [parseBusinessComposition], the
    metric identifier [identifyMetric] with its rule table [METRIC_RULES], and
    [extractFinancialData] (orientation detection, the horizontal and vertical
    extractors, and finalisation).

    JavaScript strings are sequences of UTF-16 code units, numbers are IEEE-754
    binary64 values (the Standard Library's [spec_float] at precision 53 and
    maximal exponent 1024), and a spreadsheet cell is a tagged JavaScript
    value. *)

From Stdlib Require Import String Ascii.
From Stdlib Require Import ZArith NArith List Bool Lia.
From Stdlib Require Import QArith Qround Qabs.
From Stdlib Require Import Floats.
From Stdlib Require Import Sorting.Sorted Sorting.Permutation.
Import ListNotations.

(* ===================================================================== *)
(** ** JavaScript strings *)
(* ===================================================================== *)

Module JSString.

(** A string is its list of UTF-16 code units. *)
Definition char16 := N.
Definition jsstring := list char16.

Open Scope N_scope.

(** Source literals are written as Rocq strings (UTF-8 bytes) and decoded to
    code units; code points above the basic plane become surrogate pairs. *)
Fixpoint utf8_decode (bs : list N) : jsstring :=
  match bs with
  | [] => []
  | b0 :: r0 =>
    if b0 <? 128 then b0 :: utf8_decode r0
    else if b0 <? 224 then
      match r0 with
      | b1 :: r1 => ((b0 - 192) * 64 + (b1 - 128)) :: utf8_decode r1
      | _ => [65533]
      end
    else if b0 <? 240 then
      match r0 with
      | b1 :: b2 :: r2 =>
        ((b0 - 224) * 4096 + (b1 - 128) * 64 + (b2 - 128)) :: utf8_decode r2
      | _ => [65533]
      end
    else
      match r0 with
      | b1 :: b2 :: b3 :: r3 =>
        let cp := (b0 - 240) * 262144 + (b1 - 128) * 4096
                  + (b2 - 128) * 64 + (b3 - 128) in
        let v := cp - 65536 in
        (55296 + v / 1024) :: (56320 + v mod 1024) :: utf8_decode r3
      | _ => [65533]
      end
  end.

Definition js (s : string) : jsstring :=
  utf8_decode (map (fun b => N_of_ascii b) (list_ascii_of_string s)).

Definition str_eqb (a b : jsstring) : bool :=
  (length a =? length b)%nat && forallb (fun p => fst p =? snd p) (combine a b).

(** [String.prototype.startsWith], [endsWith] and [includes]. *)
Fixpoint startsWith (s k : jsstring) : bool :=
  match k, s with
  | [], _ => true
  | _ :: _, [] => false
  | c :: k', d :: s' => (c =? d) && startsWith s' k'
  end.

Definition endsWith (s k : jsstring) : bool := startsWith (rev s) (rev k).

Fixpoint includes (s k : jsstring) : bool :=
  startsWith s k ||
  match s with
  | [] => false
  | _ :: s' => includes s' k
  end.

(** WhiteSpace and LineTerminator code units: what [trim] removes and what
    the regular-expression class [\s] matches. *)
Definition isWhiteSpace (c : char16) : bool :=
  (c =? 9) || (c =? 10) || (c =? 11) || (c =? 12) || (c =? 13) || (c =? 32)
  || (c =? 160) || (c =? 5760) || ((8192 <=? c) && (c <=? 8202))
  || (c =? 8232) || (c =? 8233) || (c =? 8239) || (c =? 8287)
  || (c =? 12288) || (c =? 65279).

Fixpoint trimStart (s : jsstring) : jsstring :=
  match s with
  | [] => []
  | c :: s' => if isWhiteSpace c then trimStart s' else s
  end.

Definition trimEnd (s : jsstring) : jsstring := rev (trimStart (rev s)).

Definition trim (s : jsstring) : jsstring := trimEnd (trimStart s).

(** [s.slice(a, b)], negative indices counting from the end. *)
Definition slice (s : jsstring) (a b : Z) : jsstring :=
  let len := Z.of_nat (length s) in
  let from := if (a <? 0)%Z then Z.max (len + a) 0 else Z.min a len in
  let to := if (b <? 0)%Z then Z.max (len + b) 0 else Z.min b len in
  firstn (Z.to_nat (to - from)) (skipn (Z.to_nat from) s).

(** [s.split(sep)] for a separator given as a one-code-unit class: the
    pieces between the separators, in order (always at least one piece). *)
Fixpoint split (isSep : char16 -> bool) (s : jsstring) : list jsstring :=
  match s with
  | [] => [[]]
  | c :: s' =>
    if isSep c then [] :: split isSep s'
    else match split isSep s' with
         | [] => [[c]]
         | p :: ps => (c :: p) :: ps
         end
  end.

Definition isDigit (c : char16) : bool := (48 <=? c) && (c <=? 57).

Definition digitValue (c : char16) : Z := Z.of_N (c - 48).

(** The decimal value of a run of digits. *)
Definition digitsValue (ds : jsstring) : Z :=
  fold_left (fun acc c => (10 * acc + digitValue c)%Z) ds 0%Z.

(** The longest prefix of [s] whose code units satisfy [p], and the rest. *)
Fixpoint span (p : char16 -> bool) (s : jsstring) : jsstring * jsstring :=
  match s with
  | [] => ([], [])
  | c :: s' =>
    if p c then let '(a, b) := span p s' in (c :: a, b) else ([], s)
  end.

End JSString.
Export JSString.

(* ===================================================================== *)
(** ** JavaScript numbers *)
(* ===================================================================== *)

Module JSNumber.

Open Scope Z_scope.

(** A Number is a binary64 value; [SF64div], [SF64sub], [SFabs], [SFltb] of
    the Standard Library are its division, subtraction, absolute value and
    comparison. *)
Definition number := spec_float.

Definition NaN : number := S754_nan.
Definition pos_zero : number := S754_zero false.

Definition isNaN (x : number) : bool :=
  match x with S754_nan => true | _ => false end.

Definition Math_abs (x : number) : number := SFabs x.

(** The Number for a mathematical integer. *)
Definition numberOfZ (z : Z) : number := binary_normalize prec emax z 0 false.

(** Structural equality of two numbers. *)
Definition sameNumber (x y : number) : bool :=
  match x, y with
  | S754_zero a, S754_zero b => Bool.eqb a b
  | S754_infinity a, S754_infinity b => Bool.eqb a b
  | S754_nan, S754_nan => true
  | S754_finite a m e, S754_finite b m' e' =>
    Bool.eqb a b && Pos.eqb m m' && Z.eqb e e'
  | _, _ => false
  end.

(** The Number nearest to [d * 10^e] for [d >= 0] (round to nearest, ties to
    even), with the sign [neg]. Magnitudes far outside the binary64 range are
    cut off before any power of ten is computed. *)
Definition decimalToNumber (neg : bool) (d e : Z) : number :=
  match d with
  | Zpos p =>
    let L := Z.log2 d in
    if 310 <? L * 3 / 10 + e then S754_infinity neg
    else if (L + 1) * 31 / 100 + 1 + e <? -330 then S754_zero neg
    else if 0 <=? e then binary_round prec emax neg (Z.to_pos (d * 10 ^ e)) 0
    else SF64div (S754_finite neg p 0)
                 (S754_finite false (Z.to_pos (10 ^ (- e))) 0)
  | _ => S754_zero neg
  end.

(** An optional sign in front of a numeric literal. *)
Definition takeSign (s : jsstring) : bool * jsstring :=
  match s with
  | 45%N :: r => (true, r)
  | 43%N :: r => (false, r)
  | _ => (false, s)
  end.

(** [parseFloat]: leading white space is skipped, then the longest prefix
    that is a decimal literal is read and rounded to the nearest Number;
    [NaN] when there is no such prefix. *)
Definition parseFloat (s : jsstring) : number :=
  let '(neg, u) := takeSign (trimStart s) in
  if startsWith u (js "Infinity") then S754_infinity neg
  else
    let '(ip, r1) := span isDigit u in
    let '(fp, r2) :=
      match r1 with
      | 46%N :: r => span isDigit r
      | _ => ([], r1)
      end in
    match ip ++ fp with
    | [] => NaN
    | ds =>
      let ex :=
        match r2 with
        | c :: r =>
          if (c =? 101)%N || (c =? 69)%N then
            let '(eneg, r') := takeSign r in
            let ed := fst (span isDigit r') in
            if eneg then - digitsValue ed else digitsValue ed
          else 0
        | [] => 0
        end in
      decimalToNumber neg (digitsValue ds) (ex - Z.of_nat (length fp))
    end.

Definition isHexDigit (c : char16) : bool :=
  isDigit c || ((65 <=? c) && (c <=? 70))%N || ((97 <=? c) && (c <=? 102))%N.

Definition hexValue (c : char16) : Z :=
  if isDigit c then digitValue c
  else if (c <=? 70)%N then Z.of_N (c - 55) else Z.of_N (c - 87).

(** [parseInt] without a radix argument: decimal, or hexadecimal after a
    [0x] prefix. *)
Definition parseInt (s : jsstring) : number :=
  let '(neg, u) := takeSign (trimStart s) in
  let hex := startsWith u (js "0x") || startsWith u (js "0X") in
  let ds := if hex then fst (span isHexDigit (skipn 2 u))
            else fst (span isDigit u) in
  match ds with
  | [] => NaN
  | _ =>
    let v := if hex then fold_left (fun acc c => 16 * acc + hexValue c) ds 0
             else digitsValue ds in
    if v =? 0 then S754_zero neg
    else binary_normalize prec emax (if neg then - v else v) 0 false
  end.

(** *** Number-to-string conversion *)

Definition digitChar (d : Z) : char16 := Z.to_N (48 + d mod 10).

(** The last [k] decimal digits of [n], most significant first. *)
Fixpoint lastDigits (k : nat) (n : Z) (acc : jsstring) : jsstring :=
  match k with
  | O => acc
  | S k' => lastDigits k' (n / 10) (digitChar n :: acc)
  end.

(** How many decimal digits the positive integer [n] has. *)
Fixpoint countDigits (fuel : nat) (n : Z) : nat :=
  match fuel with
  | O => O
  | S f => if n <? 10 then 1%nat else S (countDigits f (n / 10))
  end.

Definition integerString (n : Z) : jsstring :=
  lastDigits (countDigits (S (Z.to_nat (Z.log2 n))) n) n [].

Definition pow10Q (n : Z) : Q :=
  if 0 <=? n then inject_Z (10 ^ n) else / inject_Z (10 ^ (- n)).

Definition pow2Q (n : Z) : Q :=
  if 0 <=? n then inject_Z (2 ^ n) else / inject_Z (2 ^ (- n)).

(** The least [n], searching upwards from [n], with [v < 10^n]. *)
Fixpoint decimalExponent (fuel : nat) (v : Q) (n : Z) : Z :=
  match fuel with
  | O => n
  | S f => if Qlt_le_dec v (pow10Q n) then n else decimalExponent f v (n + 1)
  end.

Definition Qabs_diff (a b : Q) : Q := Qabs (a - b).

(** The digits [s], their count [k] and the exponent [n] of the shortest
    decimal [s * 10^(n-k)] that converts back to the positive number of
    mantissa [m] and exponent [e]; among the decimals of that length the one
    nearest to the number. *)
Fixpoint shortestDecimal (fuel : nat) (x : number) (v : Q) (n0 k : Z)
  : Z * Z * Z :=
  let t := (v / pow10Q (n0 - k))%Q in
  let lo := Qfloor t in
  let hi := lo + 1 in
  let candLo := (lo, n0) in
  let candHi := if hi =? 10 ^ k then (10 ^ (k - 1), n0 + 1) else (hi, n0) in
  let ok c := sameNumber (decimalToNumber false (fst c) (snd c - k)) x in
  let dist c := Qabs_diff (inject_Z (fst c) * pow10Q (snd c - k)) v in
  let pick c := (fst c, k, snd c) in
  match fuel with
  | O => pick candLo
  | S f =>
    match ok candLo, ok candHi with
    | true, false => pick candLo
    | false, true => pick candHi
    | true, true =>
      match Qcompare (dist candLo) (dist candHi) with
      | Lt => pick candLo
      | Gt => pick candHi
      | Eq => if Z.even lo then pick candLo else pick candHi
      end
    | false, false => shortestDecimal f x v n0 (k + 1)
    end
  end.

Definition zeros (n : Z) : jsstring := repeat 48%N (Z.to_nat n).

(** The text of a positive finite number from its shortest digits. *)
Definition formatDecimal (s k n : Z) : jsstring :=
  let ds := lastDigits (Z.to_nat k) s [] in
  if (k <=? n) && (n <=? 21) then ds ++ zeros (n - k)
  else if (0 <? n) && (n <=? 21) then
    firstn (Z.to_nat n) ds ++ [46%N] ++ skipn (Z.to_nat n) ds
  else if (-6 <? n) && (n <=? 0) then [48%N; 46%N] ++ zeros (- n) ++ ds
  else
    let ex := n - 1 in
    let tail := [101%N] ++ [if ex <? 0 then 45%N else 43%N]
                ++ integerString (Z.abs ex) in
    if k =? 1 then ds ++ tail
    else firstn 1 ds ++ [46%N] ++ skipn 1 ds ++ tail.

(** [Number::toString] in radix 10. *)
Definition Number_toString (x : number) : jsstring :=
  match x with
  | S754_nan => js "NaN"
  | S754_zero _ => js "0"
  | S754_infinity s => (if s then [45%N] else []) ++ js "Infinity"
  | S754_finite s m e =>
    let x' := binary_round prec emax false m e in
    let v := (inject_Z (Zpos m) * pow2Q e)%Q in
    let L := Z.log2 (Zpos m) + e in
    let n0 := decimalExponent 6 v (L * 30103 / 100000 - 1) in
    let '(d, k, n) := shortestDecimal 17 x' v n0 1 in
    (if s then [45%N] else []) ++ formatDecimal d k n
  end.

End JSNumber.
Export JSNumber.

(* ===================================================================== *)
(** ** Cell values *)
(* ===================================================================== *)

(** What a cell read from a sheet can be ([val: any] in the source): the
    sheet reader yields numbers, strings, booleans and [null]; [undefined] is
    what indexing past the end of a row gives; [VObject] is a plain object. *)
Inductive jsvalue :=
  | VUndefined
  | VNull
  | VBoolean (b : bool)
  | VNumber (x : number)
  | VString (s : jsstring)
  | VObject.

(** [String(v)]. *)
Definition String_ (v : jsvalue) : jsstring :=
  match v with
  | VUndefined => js "undefined"
  | VNull => js "null"
  | VBoolean b => if b then js "true" else js "false"
  | VNumber x => Number_toString x
  | VString s => s
  | VObject => js "[object Object]"
  end.

(** Truthiness, as tested by [!v], [v && _] and [v || _]. *)
Definition truthy (v : jsvalue) : bool :=
  match v with
  | VUndefined | VNull => false
  | VBoolean b => b
  | VNumber (S754_zero _) | VNumber S754_nan => false
  | VNumber _ => true
  | VString [] => false
  | VString _ => true
  | VObject => true
  end.

(** [a || b]. *)
Definition or_else (a b : jsvalue) : jsvalue := if truthy a then a else b.

(** A row is an array of cells; [row[i]] is [undefined] out of range. The
    sheet reader is called with [header: 1], so every row it returns is an
    array and the [Array.isArray] guards of the source never skip one. *)
Definition Row := list jsvalue.

Definition cellAt (row : Row) (i : nat) : jsvalue := nth i row VUndefined.

(* ===================================================================== *)
(** ** The metric rule table *)
(* ===================================================================== *)

(** The keys of [METRIC_RULES], in the order the table lists them. *)
Module Key.
Inductive t :=
  | revenue | netProfitParent | totalAssets | equityParent
  | operatingCashFlow | capex | costOfRevenue | salesExpenses
  | managementExpenses | financialExpenses | researchExpenses | taxExpenses.

Definition eqb (a b : t) : bool :=
  match a, b with
  | revenue, revenue | netProfitParent, netProfitParent
  | totalAssets, totalAssets | equityParent, equityParent
  | operatingCashFlow, operatingCashFlow | capex, capex
  | costOfRevenue, costOfRevenue | salesExpenses, salesExpenses
  | managementExpenses, managementExpenses
  | financialExpenses, financialExpenses
  | researchExpenses, researchExpenses | taxExpenses, taxExpenses => true
  | _, _ => false
  end.
End Key.

Record MetricRule := { positive : list jsstring; negative : list jsstring }.

Definition RuleTable := list (Key.t * MetricRule).

Definition rule (pos neg : list string) : MetricRule :=
  {| positive := map js pos; negative := map js neg |}.

Open Scope string_scope.

Definition METRIC_RULES : RuleTable :=
  [ (Key.revenue, rule
      ["营业总收入"; "营业收入"; "Total Revenue"; "Operating Revenue"; "Revenue";
       "Main Business Income"; "营收"; "主营业务收入"]
      ["成本"; "Cost"; "Expense"; "费用"; "增长率"; "Growth"; "Cash"; "现金";
       "税"; "Tax"; "率"; "Ratio"]);
    (Key.netProfitParent, rule
      ["归属于母公司所有者的净利润"; "归属于母公司股东的净利润"; "归母净利润";
       "Net Profit Attributable to Owners"; "Net Income Attributable";
       "Net Profit Parent"; "归属于上市公司股东的净利润"]
      ["扣非"; "Non-recurring"; "税前"; "Before Tax"; "增长率"; "Growth";
       "Rate"; "率"]);
    (Key.totalAssets, rule
      ["资产总计"; "资产总额"; "Total Assets"; "总资产"]
      ["平均"; "Average"; "净资产"; "Net Assets"; "流动"; "Current"; "非流动";
       "Non-current"; "周转"; "Turnover"; "收益"; "Return"; "增长"; "Growth";
       "Depreciation"; "折旧"; "率"; "Ratio"]);
    (Key.equityParent, rule
      ["归属于母公司所有者权益"; "归属于母公司股东权益"; "归母权益";
       "归属于母公司股东的权益"; "Total Equity Attributable to Owners";
       "Equity Attributable to Parent"; "归属于上市公司股东的所有者权益";
       "股东权益合计"; "所有者权益合计"; "Total Equity"]
      ["少数"; "Minority"; "平均"; "Average"; "增长"; "Growth"; "率"; "Ratio";
       "负债"; "Liabilities"]);
    (Key.operatingCashFlow, rule
      ["经营活动产生的现金流量净额"; "经营活动现金流量净额"; "经营活动净现金流";
       "Net Cash Flow from Operating Activities"; "Net Cash from Operating";
       "Operating Cash Flow"; "OCF"; "经营现金流"; "经营性现金流"]
      ["投资"; "Investing"; "筹资"; "Financing"; "增长"; "Growth"; "率";
       "Ratio"]);
    (Key.capex, rule
      ["购建固定资产"; "购建固定资产、无形资产和其他长期资产支付的现金";
       "Capital Expenditure"; "Capex"; "Capital Spending";
       "Purchase of Property"; "资本开支"; "资本性支出"]
      ["Ratio"; "率"]);
    (Key.costOfRevenue, rule
      ["营业成本"; "营业总成本"; "Cost of Revenue"; "Operating Cost";
       "Cost of Sales"; "主营业务成本"]
      ["率"; "Ratio"; "Growth"; "增长"]);
    (Key.salesExpenses, rule
      ["销售费用"; "Selling Expenses"; "Distribution Costs";
       "Marketing Expenses"]
      ["率"; "Ratio"]);
    (Key.managementExpenses, rule
      ["管理费用"; "Management Expenses"; "Administrative Expenses";
       "General and Administrative"]
      ["率"; "Ratio"]);
    (Key.financialExpenses, rule
      ["财务费用"; "Financial Expenses"; "Finance Costs"; "Interest Expense"]
      ["率"; "Ratio"]);
    (Key.researchExpenses, rule
      ["研发费用"; "Research and Development"; "R&D"]
      ["率"; "Ratio"]);
    (Key.taxExpenses, rule
      ["所得税费用"; "所得税"; "Income Tax Expenses"; "Income Tax"]
      ["递延"; "Deferred"; "Payable"; "应交"; "率"; "Ratio"]) ].

(* ===================================================================== *)
(** ** Value normaliser and composition parser *)
(* ===================================================================== *)

(** The characters [cleanNumber] deletes: currency signs, the comma, white
    space, the byte-order mark and the no-break space. *)
Definition isStripped (c : char16) : bool :=
  ((c =? 165) || (c =? 36) || (c =? 163) || (c =? 8364) || (c =? 44)
   || isWhiteSpace c || (c =? 65279) || (c =? 160))%N.

Definition cleanNumber (val : jsvalue) : number :=
  match val with
  | VNumber x => x
  | VString s =>
    let v := trim (filter (fun c => negb (isStripped c)) s) in
    let v := if startsWith v (js "(") && endsWith v (js ")")
             then (js "-" ++ slice v 1 (-1))%list else v in
    if endsWith v (js "%") then SF64div (parseFloat v) (numberOfZ 100)
    else if str_eqb v (js "-") || str_eqb v (js "—") || str_eqb v []
    then pos_zero
    else
      let parsed := parseFloat v in
      if isNaN parsed then pos_zero else parsed
  | _ => pos_zero
  end.

Record BusinessCompositionItem := { name : jsstring; value : number }.

(** The separators [;] and [；], and [:] and [：]. *)
Definition isItemSep (c : char16) : bool := ((c =? 59) || (c =? 65307))%N.
Definition isPartSep (c : char16) : bool := ((c =? 58) || (c =? 65306))%N.

Definition parseItem (s : jsstring) : option BusinessCompositionItem :=
  match split isPartSep s with
  | p0 :: p1 :: _ =>
    let name := trim p0 in
    let value := cleanNumber (VString p1) in
    match name with
    | [] => None
    | _ => if isNaN value then None else Some {| name := name; value := value |}
    end
  | _ => None
  end.

Definition filterSome {A : Type} (l : list (option A)) : list A :=
  flat_map (fun o => match o with Some a => [a] | None => [] end) l.

Definition parseBusinessComposition (str : jsstring)
  : list BusinessCompositionItem :=
  match str with
  | [] => []
  | _ => filterSome (map parseItem (split isItemSep str))
  end.

(* ===================================================================== *)
(** ** Year records and the partial-record map *)
(* ===================================================================== *)

(** [Partial<FinancialYearData>]: a metric not yet written is [None]
    ([undefined] in the source). *)
Record FinancialYearData := {
  year : jsstring;
  businessComposition : list BusinessCompositionItem;
  revenue : option number;
  netProfitParent : option number;
  totalAssets : option number;
  equityParent : option number;
  operatingCashFlow : option number;
  capex : option number;
  costOfRevenue : option number;
  salesExpenses : option number;
  managementExpenses : option number;
  financialExpenses : option number;
  researchExpenses : option number;
  taxExpenses : option number
}.

(** The object literal [{ year, businessComposition: [] }]. *)
Definition newYear (y : jsstring) : FinancialYearData :=
  {| year := y; businessComposition := [];
     revenue := None; netProfitParent := None; totalAssets := None;
     equityParent := None; operatingCashFlow := None; capex := None;
     costOfRevenue := None; salesExpenses := None; managementExpenses := None;
     financialExpenses := None; researchExpenses := None;
     taxExpenses := None |}.

(** [d[key]]. *)
Definition getMetric (key : Key.t) (d : FinancialYearData) : option number :=
  match key with
  | Key.revenue => revenue d
  | Key.netProfitParent => netProfitParent d
  | Key.totalAssets => totalAssets d
  | Key.equityParent => equityParent d
  | Key.operatingCashFlow => operatingCashFlow d
  | Key.capex => capex d
  | Key.costOfRevenue => costOfRevenue d
  | Key.salesExpenses => salesExpenses d
  | Key.managementExpenses => managementExpenses d
  | Key.financialExpenses => financialExpenses d
  | Key.researchExpenses => researchExpenses d
  | Key.taxExpenses => taxExpenses d
  end.

(** [d[key] = v]. *)
Definition setMetric (key : Key.t) (v : number) (d : FinancialYearData)
  : FinancialYearData :=
  let f k := if Key.eqb k key then Some v else getMetric k d in
  {| year := year d; businessComposition := businessComposition d;
     revenue := f Key.revenue; netProfitParent := f Key.netProfitParent;
     totalAssets := f Key.totalAssets; equityParent := f Key.equityParent;
     operatingCashFlow := f Key.operatingCashFlow; capex := f Key.capex;
     costOfRevenue := f Key.costOfRevenue;
     salesExpenses := f Key.salesExpenses;
     managementExpenses := f Key.managementExpenses;
     financialExpenses := f Key.financialExpenses;
     researchExpenses := f Key.researchExpenses;
     taxExpenses := f Key.taxExpenses |}.

(** [d.businessComposition = items]. *)
Definition setComposition (items : list BusinessCompositionItem)
  (d : FinancialYearData) : FinancialYearData :=
  {| year := year d; businessComposition := items;
     revenue := revenue d; netProfitParent := netProfitParent d;
     totalAssets := totalAssets d; equityParent := equityParent d;
     operatingCashFlow := operatingCashFlow d; capex := capex d;
     costOfRevenue := costOfRevenue d; salesExpenses := salesExpenses d;
     managementExpenses := managementExpenses d;
     financialExpenses := financialExpenses d;
     researchExpenses := researchExpenses d; taxExpenses := taxExpenses d |}.

(** [yearDataMap]: the object's own properties in the order they were
    created, each year string bound to its record. *)
Definition YearDataMap := list (jsstring * FinancialYearData).

(** [yearDataMap[y]]. *)
Fixpoint lookupYear (y : jsstring) (m : YearDataMap)
  : option FinancialYearData :=
  match m with
  | [] => None
  | (k, d) :: m' => if str_eqb k y then Some d else lookupYear y m'
  end.

(** Mutation of the record bound to [y]. *)
Fixpoint updateYear (y : jsstring) (f : FinancialYearData -> FinancialYearData)
  (m : YearDataMap) : YearDataMap :=
  match m with
  | [] => []
  | (k, d) :: m' =>
    if str_eqb k y then (k, f d) :: m' else (k, d) :: updateYear y f m'
  end.

(** [if (!yearDataMap[y]) yearDataMap[y] = { year: y, businessComposition: [] }]. *)
Definition ensureYear (y : jsstring) (m : YearDataMap) : YearDataMap :=
  match lookupYear y m with
  | Some _ => m
  | None => (m ++ [(y, newYear y)])%list
  end.

(** The write of a metric value shared by both extractors: capital
    expenditure goes through [Math.abs]. *)
Definition writeMetric (y : jsstring) (key : Key.t) (val : number)
  (m : YearDataMap) : YearDataMap :=
  match key with
  | Key.capex => updateYear y (setMetric key (Math_abs val)) m
  | _ => updateYear y (setMetric key val) m
  end.

(* ===================================================================== *)
(** ** Metric identification and extraction *)
(* ===================================================================== *)

(** What [identifyMetric] returns when it is not [null]. *)
Inductive MetricId :=
  | Metric (key : Key.t)
  | BusinessComposition.

Inductive Strategy := HORIZONTAL | VERTICAL.

(** A sheet is the row array [sheet_to_json] returns for it, a workbook its
    sheets in [SheetNames] order. A file whose bytes cannot be read as a
    workbook has no workbook. *)
Definition Sheet := list Row.

Record File := { fileName : jsstring; workbook : option (list Sheet) }.

(** The error thrown for a file that cannot be parsed. *)
Inductive ExtractError := FailedToParseFile (name : jsstring).

Section Extraction.

(** The module-level rule table read by [identifyMetric]. *)
Variable RULES : RuleTable.

(** The loop over [Object.entries(METRIC_RULES)]. *)
Fixpoint matchRules (rules : RuleTable) (cleanStr : jsstring)
  : option MetricId :=
  match rules with
  | [] => None
  | (key, r) :: rest =>
    if existsb (fun n => includes cleanStr n) (negative r)
    then matchRules rest cleanStr
    else if existsb (fun p => includes cleanStr p) (positive r)
    then Some (Metric key)
    else matchRules rest cleanStr
  end.

Definition identifyMetric (str : jsstring) : option MetricId :=
  match str with
  | [] => None
  | _ =>
    let cleanStr := trim str in
    if includes cleanStr (js "主营业务构成")
       || includes cleanStr (js "Business Composition")
    then Some BusinessComposition
    else matchRules RULES cleanStr
  end.

(** [/^(20\d{2}|19\d{2})/.test(s)]. *)
Definition startsWithYear (s : jsstring) : bool :=
  match s with
  | a :: b :: c :: d :: _ =>
    ((((a =? 50) && (b =? 48)) || ((a =? 49) && (b =? 57)))
     && isDigit c && isDigit d)%N
  | _ => false
  end.

(** [s.match(/(\d{4})/)]: the first four consecutive digits. *)
Fixpoint matchFourDigits (s : jsstring) : option jsstring :=
  match s with
  | [] => None
  | a :: s' =>
    match s' with
    | b :: c :: d :: _ =>
      if isDigit a && isDigit b && isDigit c && isDigit d
      then Some [a; b; c; d]
      else matchFourDigits s'
    | _ => None
    end
  end.

(** [s.match(/^(\d{4})/)]. *)
Definition matchLeadingFourDigits (s : jsstring) : option jsstring :=
  match s with
  | a :: b :: c :: d :: _ =>
    if isDigit a && isDigit b && isDigit c && isDigit d
    then Some [a; b; c; d]
    else None
  | _ => None
  end.

Definition isSome {A : Type} (o : option A) : bool :=
  match o with Some _ => true | None => false end.

(** One iteration of the detection loop on a row. *)
Definition detectRow (row : Row) : option Strategy :=
  let yearCount :=
    length (filter (fun cell => startsWithYear (trim (String_ cell))) row) in
  if (2 <=? yearCount)%nat then Some HORIZONTAL
  else
    let rowStr := map (fun c => trim (String_ c)) row in
    let keywordMatchCount :=
      length (filter (fun cell => isSome (identifyMetric cell)) rowStr) in
    if (3 <=? keywordMatchCount)%nat then Some VERTICAL else None.

Fixpoint detectFrom (rows : list Row) (r : nat) : option (Strategy * nat) :=
  match rows with
  | [] => None
  | row :: rest =>
    match detectRow row with
    | Some s => Some (s, r)
    | None => detectFrom rest (S r)
    end
  end.

(** The strategy and the header row index found in the first 30 rows. *)
Definition detectStrategy (rows : Sheet) : option (Strategy * nat) :=
  detectFrom (firstn 30 rows) 0.

(** [yearColMap], as [Object.entries] lists it (ascending column index). *)
Fixpoint yearColumns (cells : Row) (idx : nat) : list (nat * jsstring) :=
  match cells with
  | [] => []
  | cell :: rest =>
    let cellStr := trim (String_ cell) in
    match matchFourDigits cellStr with
    | Some y =>
      if includes cellStr (js "20") || includes cellStr (js "19")
      then (idx, y) :: yearColumns rest (S idx)
      else yearColumns rest (S idx)
    | None => yearColumns rest (S idx)
    end
  end.

(** A data row of a horizontal sheet. *)
Definition horizontalRow (yearColMap : list (nat * jsstring))
  (yearDataMap : YearDataMap) (row : Row) : YearDataMap :=
  let label :=
    trim (String_ (or_else (or_else (cellAt row 0) (cellAt row 1))
                           (VString []))) in
  match identifyMetric label with
  | Some (Metric matchedKey) =>
    fold_left
      (fun m (entry : nat * jsstring) =>
         let '(colIdx, y) := entry in
         let val := cleanNumber (cellAt row colIdx) in
         writeMetric y matchedKey val (ensureYear y m))
      yearColMap yearDataMap
  | _ => yearDataMap
  end.

(** [metricColMap], as [Object.entries] lists it. *)
Fixpoint metricColumns (cells : Row) (idx : nat) : list (nat * MetricId) :=
  match cells with
  | [] => []
  | cell :: rest =>
    match identifyMetric (trim (String_ cell)) with
    | Some matchedKey => (idx, matchedKey) :: metricColumns rest (S idx)
    | None => metricColumns rest (S idx)
    end
  end.

(** The body of the loop over [metricColMap] for one column. *)
Definition verticalCell (row : Row) (y : jsstring) (m : YearDataMap)
  (entry : nat * MetricId) : YearDataMap :=
  let '(colIdx, metricKey) := entry in
  let rawVal := cellAt row colIdx in
  match metricKey with
  | BusinessComposition =>
    updateYear y
      (setComposition (parseBusinessComposition (String_ rawVal))) m
  | Metric key => writeMetric y key (cleanNumber rawVal) m
  end.

(** A data row of a vertical sheet. *)
Definition verticalRow (metricColMap : list (nat * MetricId))
  (yearDataMap : YearDataMap) (row : Row) : YearDataMap :=
  let yearStr := trim (String_ (cellAt row 0)) in
  match matchLeadingFourDigits yearStr with
  | Some y => fold_left (verticalCell row y) metricColMap (ensureYear y yearDataMap)
  | None => yearDataMap
  end.

(** The body of the loop over the sheets of a workbook. *)
Definition processSheet (yearDataMap : YearDataMap) (rows : Sheet)
  : YearDataMap :=
  match rows with
  | [] => yearDataMap
  | _ =>
    match detectStrategy rows with
    | None => yearDataMap
    | Some (HORIZONTAL, headerRowIndex) =>
      let headerRow := nth headerRowIndex rows [] in
      let yearColMap := yearColumns headerRow 0 in
      fold_left (horizontalRow yearColMap)
                (skipn (S headerRowIndex) rows) yearDataMap
    | Some (VERTICAL, headerRowIndex) =>
      let headerRow := nth headerRowIndex rows [] in
      let metricColMap := metricColumns headerRow 0 in
      fold_left (verticalRow metricColMap)
                (skipn (S headerRowIndex) rows) yearDataMap
    end
  end.

(** The loop over the files: the map after the last file, or the error of
    the first file that cannot be parsed. *)
Fixpoint processFiles (files : list File) (yearDataMap : YearDataMap)
  : ExtractError + YearDataMap :=
  match files with
  | [] => inr yearDataMap
  | file :: rest =>
    match workbook file with
    | None => inl (FailedToParseFile (fileName file))
    | Some sheets => processFiles rest (fold_left processSheet sheets yearDataMap)
    end
  end.

End Extraction.

(* ===================================================================== *)
(** ** Finalisation *)
(* ===================================================================== *)

(** A property key that is an array index: the canonical decimal text of an
    integer below [2^32 - 1]. *)
Definition isArrayIndex (k : jsstring) : bool :=
  match k with
  | [] => false
  | c :: r =>
    forallb isDigit k
    && (negb (c =? 48)%N || match r with [] => true | _ => false end)
    && (digitsValue k <=? 4294967294)%Z
  end.

Fixpoint insertIndexKey {A : Type} (e : jsstring * A) (l : list (jsstring * A))
  : list (jsstring * A) :=
  match l with
  | [] => [e]
  | e' :: l' =>
    if (digitsValue (fst e) <? digitsValue (fst e'))%Z then e :: l
    else e' :: insertIndexKey e l'
  end.

(** [Object.values(o)]: the values of the array-index keys in ascending
    numeric order, then those of the other keys in creation order. *)
Definition Object_values {A : Type} (o : list (jsstring * A)) : list A :=
  map snd
    (fold_right (@insertIndexKey A) [] (filter (fun e => isArrayIndex (fst e)) o)
     ++ filter (fun e => negb (isArrayIndex (fst e))) o).

(** [Array.prototype.sort] with a comparator: a stable sort; an element moves
    behind another exactly when the comparator is positive on them. *)
Fixpoint insertBy {A : Type} (cmp : A -> A -> number) (x : A) (l : list A)
  : list A :=
  match l with
  | [] => [x]
  | y :: l' => if SFltb pos_zero (cmp x y) then y :: insertBy cmp x l' else x :: l
  end.

Definition Array_sort {A : Type} (cmp : A -> A -> number) (l : list A)
  : list A :=
  fold_right (insertBy cmp) [] l.

(** The filter predicate of the finaliser. *)
Definition keepYear (d : FinancialYearData) : bool :=
  match year d with
  | [] => false
  | _ => isSome (revenue d) || isSome (netProfitParent d)
         || isSome (totalAssets d)
  end.

Definition orZero (o : option number) : option number :=
  match o with
  | Some v => Some v
  | None => Some pos_zero
  end.

(** The default-filling pass. *)
Definition fillDefaults (d : FinancialYearData) : FinancialYearData :=
  {| year := year d; businessComposition := businessComposition d;
     revenue := orZero (revenue d);
     netProfitParent := orZero (netProfitParent d);
     totalAssets := orZero (totalAssets d);
     equityParent := orZero (equityParent d);
     operatingCashFlow := operatingCashFlow d; capex := capex d;
     costOfRevenue := costOfRevenue d; salesExpenses := salesExpenses d;
     managementExpenses := managementExpenses d;
     financialExpenses := financialExpenses d;
     researchExpenses := researchExpenses d; taxExpenses := taxExpenses d |}.

(** The comparator [(a, b) => parseInt(a.year) - parseInt(b.year)]. *)
Definition byYear (a b : FinancialYearData) : number :=
  SF64sub (parseInt (year a)) (parseInt (year b)).

Definition finalize (yearDataMap : YearDataMap) : list FinancialYearData :=
  let result := map fillDefaults (filter keepYear (Object_values yearDataMap)) in
  match result with
  | [] => []
  | _ => Array_sort byYear result
  end.

(** The exported function read as a function of the rule table and the
    files: every file processed in order from the empty map, then
    finalisation; or the error thrown. *)
Definition extractFinancialData (RULES : RuleTable) (files : list File)
  : ExtractError + list FinancialYearData :=
  match processFiles RULES files [] with
  | inl e => inl e
  | inr yearDataMap => inr (finalize yearDataMap)
  end.

(* ===================================================================== *)
(** ** The module as a store *)
(* ===================================================================== *)

(** What outlives a call of the module: the binding [METRIC_RULES] and the
    objects allocated so far, each addressed by its position. The
    [yearDataMap] of a call is one of these objects. *)
Definition Ref := nat.

Record ModuleState := { moduleRules : RuleTable; objects : list YearDataMap }.

Definition loadedModule : ModuleState :=
  {| moduleRules := METRIC_RULES; objects := [] |}.

(** A computation of the module: it reads and writes the store, and returns
    a value or throws. *)
Definition Call (A : Type) : Type :=
  ModuleState -> (ExtractError + A) * ModuleState.

Definition ret {A : Type} (a : A) : Call A := fun st => (inr a, st).

Definition throw {A : Type} (e : ExtractError) : Call A :=
  fun st => (inl e, st).

Definition bind {A B : Type} (c : Call A) (k : A -> Call B) : Call B :=
  fun st =>
    match c st with
    | (inl e, st') => (inl e, st')
    | (inr a, st') => k a st'
    end.

Declare Scope call_scope.
Delimit Scope call_scope with call.
Notation "x <- c ;; k" := (bind c (fun x => k))
  (at level 61, c at next level, right associativity) : call_scope.
Notation "c ;; k" := (bind c (fun _ => k))
  (at level 61, right associativity) : call_scope.
Open Scope call_scope.

(** A read of the binding [METRIC_RULES]. *)
Definition readRules : Call RuleTable :=
  fun st => (inr (moduleRules st), st).

(** [{}]: a new object, with no property. *)
Definition newObject : Call Ref :=
  fun st =>
    (inr (length (objects st)),
     {| moduleRules := moduleRules st;
        objects := (objects st ++ [[]])%list |}).

Fixpoint setNth {A : Type} (n : nat) (v : A) (l : list A) : list A :=
  match l, n with
  | [], _ => []
  | _ :: r, O => v :: r
  | x :: r, S n' => x :: setNth n' v r
  end.

(** A read of the object at a reference. *)
Definition readObject (ref : Ref) : Call YearDataMap :=
  fun st => (inr (nth ref (objects st) []), st).

(** Writes to the object at a reference. *)
Definition updateObject (ref : Ref) (f : YearDataMap -> YearDataMap)
  : Call unit :=
  fun st =>
    (inr tt,
     {| moduleRules := moduleRules st;
        objects := setNth ref (f (nth ref (objects st) [])) (objects st) |}).

(** A [for ... of] loop; a throw in the body ends it. *)
Fixpoint forEach {A : Type} (xs : list A) (body : A -> Call unit)
  : Call unit :=
  match xs with
  | [] => ret tt
  | x :: rest => body x ;; forEach rest body
  end.

(** The body of the loop over the sheets, acting on the [yearDataMap] of the
    call: [identifyMetric] reads the rule table where it is called, and every
    data row writes to the map. *)
Definition sheetCall (yearDataMap : Ref) (rows : Sheet) : Call unit :=
  match rows with
  | [] => ret tt
  | _ =>
    rules <- readRules ;;
    match detectStrategy rules rows with
    | None => ret tt
    | Some (HORIZONTAL, headerRowIndex) =>
      let yearColMap := yearColumns (nth headerRowIndex rows []) 0 in
      forEach (skipn (S headerRowIndex) rows)
        (fun row =>
           rules <- readRules ;;
           updateObject yearDataMap
             (fun m => horizontalRow rules yearColMap m row))
    | Some (VERTICAL, headerRowIndex) =>
      rules <- readRules ;;
      let metricColMap := metricColumns rules (nth headerRowIndex rows []) 0 in
      forEach (skipn (S headerRowIndex) rows)
        (fun row =>
           updateObject yearDataMap (fun m => verticalRow metricColMap m row))
    end
  end.

(** The body of the loop over the files. *)
Definition fileCall (yearDataMap : Ref) (file : File) : Call unit :=
  match workbook file with
  | None => throw (FailedToParseFile (fileName file))
  | Some sheets => forEach sheets (sheetCall yearDataMap)
  end.

(** The default-filling pass as it acts on the map: the records it mutates
    are those the filter has kept. *)
Definition fillKept (m : YearDataMap) : YearDataMap :=
  map (fun e => (fst e, if keepYear (snd e) then fillDefaults (snd e)
                        else snd e)) m.

(** [extractFinancialData] as a computation of the module: the map is a new
    object, the loops write to it, and the result is read from it. *)
Definition extractFinancialDataCall (files : list File)
  : Call (list FinancialYearData) :=
  yearDataMap <- newObject ;;
  forEach files (fileCall yearDataMap) ;;
  m <- readObject yearDataMap ;;
  let result := filter keepYear (Object_values m) in
  updateObject yearDataMap fillKept ;;
  match result with
  | [] => ret []
  | _ => ret (Array_sort byYear (map fillDefaults result))
  end.

(** A call of the exported function on the module in a given state. *)
Definition callExtract (st : ModuleState) (files : list File)
  : (ExtractError + list FinancialYearData) * ModuleState :=
  extractFinancialDataCall files st.

Close Scope call_scope.

(* ===================================================================== *)
(** ** Example sheets *)
(* ===================================================================== *)

(** A row of text cells. *)
Definition textRow (cells : list string) : Row :=
  map (fun s => VString (js s)) cells.

(** A file holding a single sheet. *)
Definition singleSheetFile (fname : jsstring) (rows : Sheet) : File :=
  {| fileName := fname; workbook := Some [rows] |}.

(** A finalised record with the four defaulted metrics and nothing else. *)
Definition coreRecord (y : string) (rev np ta eq : number)
  : FinancialYearData :=
  {| year := js y; businessComposition := [];
     revenue := Some rev; netProfitParent := Some np;
     totalAssets := Some ta; equityParent := Some eq;
     operatingCashFlow := None; capex := None; costOfRevenue := None;
     salesExpenses := None; managementExpenses := None;
     financialExpenses := None; researchExpenses := None;
     taxExpenses := None |}.

Definition horizontalHeaderExample : Row :=
  textRow ["科目"; "2020"; "2021"; "2022"].

Definition verticalHeaderExample : Row :=
  textRow ["年份"; "营业收入"; "净利润"; "总资产"].

(** The same row with the net profit named as the rule table has it. *)
Definition verticalHeaderParentExample : Row :=
  textRow ["年份"; "营业收入"; "归母净利润"; "总资产"].

Definition scenarioA : Sheet :=
  [ textRow ["项目"; "2021"; "2022"];
    textRow ["营业收入"; "1000"; "1200"];
    textRow ["资产总计"; "5000"; "5500"] ].

Definition scenarioB : Sheet :=
  [ textRow ["年份"; "营业收入"; "归属于母公司所有者的净利润"];
    textRow ["2020"; "800"; "80"];
    textRow ["2021"; "900"; "95"] ].

(** Scenario B with a third metric column, so that its header row reaches
    the threshold of the vertical detection. *)
Definition scenarioB3 : Sheet :=
  [ textRow ["年份"; "营业收入"; "归属于母公司所有者的净利润"; "营业成本"];
    textRow ["2020"; "800"; "80"; "500"];
    textRow ["2021"; "900"; "95"; "600"] ].

(** A vertical sheet whose capital-expenditure cell is a lone percent sign. *)
Definition capexPercentSheet : Sheet :=
  [ textRow ["年份"; "营业收入"; "资产总计"; "资本开支"];
    textRow ["2020"; "100"; "200"; "%"] ].

(** How many cells of a row [identifyMetric] recognises. *)
Definition identifiedCount (RULES : RuleTable) (row : Row) : nat :=
  length (filter (fun cell => isSome (identifyMetric RULES cell))
                 (map (fun c => trim (String_ c)) row)).

(* ===================================================================== *)
(** ** Vocabulary of the statements *)
(* ===================================================================== *)

(** A key word whose first and last code units are no white space. *)
Definition solidEnds (k : jsstring) : bool :=
  match k, rev k with
  | c :: _, d :: _ => negb (isWhiteSpace c) && negb (isWhiteSpace d)
  | _, _ => false
  end.

(** The rule of a key in a table (the empty rule if the key is absent). *)
Fixpoint ruleOf (RULES : RuleTable) (key : Key.t) : MetricRule :=
  match RULES with
  | [] => {| positive := []; negative := [] |}
  | (k, r) :: rest => if Key.eqb k key then r else ruleOf rest key
  end.

(** Whether a label contains one of the key words of a list. *)
Definition containsAny (label : jsstring) (words : list jsstring) : bool :=
  existsb (fun w => includes label w) words.

(** A year key as both extractors produce it: four decimal digits. *)
Definition fourDigits (s : jsstring) : bool :=
  match s with
  | [a; b; c; d] => isDigit a && isDigit b && isDigit c && isDigit d
  | _ => false
  end.

(** The numeric value of a record's year. *)
Definition yearNumber (d : FinancialYearData) : Z := digitsValue (year d).

(** The Number of a year between 1 and 9999 is finite and positive, and its
    mantissa and exponent denote the year exactly. *)
Definition yearFloatOK (a : Z) : bool :=
  match numberOfZ a with
  | S754_finite false m e =>
    ((Zpos m =? a * 2 ^ (- e)) && (e <=? 0) && (-1074 <=? e))%Z
  | _ => false
  end.

(** A stored capital expenditure is its own absolute value. *)
Definition capexOK (d : FinancialYearData) : Prop :=
  match capex d with
  | Some v => Math_abs v = v
  | None => True
  end.

(** The shape of [yearDataMap] at every point of a call: distinct keys of
    four digits, each bound to the record of that year. *)
Definition wellKeyed (m : YearDataMap) : Prop :=
  NoDup (map fst m)
  /\ forall k d, In (k, d) m ->
       year d = k /\ fourDigits k = true /\ capexOK d.

(** At least one of revenue, net profit attributable to the parent and total
    assets is defined. *)
Definition hasCoreMetric (p : FinancialYearData) : Prop :=
  revenue p <> None \/ netProfitParent p <> None \/ totalAssets p <> None.

Definition valueOrZero (o : option number) : number :=
  match o with
  | Some v => v
  | None => pos_zero
  end.

(** [d] is [p] with the four core metrics defaulted to zero where absent and
    everything else as in [p]. *)
Definition defaultsFilled (p d : FinancialYearData) : Prop :=
  year d = year p
  /\ businessComposition d = businessComposition p
  /\ revenue d = Some (valueOrZero (revenue p))
  /\ netProfitParent d = Some (valueOrZero (netProfitParent p))
  /\ totalAssets d = Some (valueOrZero (totalAssets p))
  /\ equityParent d = Some (valueOrZero (equityParent p))
  /\ operatingCashFlow d = operatingCashFlow p
  /\ capex d = capex p
  /\ costOfRevenue d = costOfRevenue p
  /\ salesExpenses d = salesExpenses p
  /\ managementExpenses d = managementExpenses p
  /\ financialExpenses d = financialExpenses p
  /\ researchExpenses d = researchExpenses p
  /\ taxExpenses d = taxExpenses p.

(** Every file can be read as a workbook. *)
Definition readable (files : list File) : bool :=
  forallb (fun f => isSome (workbook f)) files.

(** A code unit that separates neither the items of a composition text nor
    the name of an item from its value. *)
Definition notSeparator (c : char16) : bool :=
  negb (isItemSep c || isPartSep c).

(** What the body of the loop over [metricColMap] does to the record of the
    row's year. *)
Definition cellUpdate (row : Row) (entry : nat * MetricId)
  (d : FinancialYearData) : FinancialYearData :=
  match snd entry with
  | BusinessComposition =>
    setComposition
      (parseBusinessComposition (String_ (cellAt row (fst entry)))) d
  | Metric Key.capex =>
    setMetric Key.capex (Math_abs (cleanNumber (cellAt row (fst entry)))) d
  | Metric key => setMetric key (cleanNumber (cellAt row (fst entry))) d
  end.

(** A cell that is the empty text or not a text at all. *)
Definition emptyOrNotText (cell : jsvalue) : bool :=
  match cell with
  | VString [] => true
  | VString _ => false
  | _ => true
  end.

(** A column entry that is not the composition marker. *)
Definition isMetricColumn (entry : nat * MetricId) : bool :=
  match snd entry with
  | Metric _ => true
  | BusinessComposition => false
  end.

(** A data row with an empty composition cell, and a record of its year
    that already has a composition. *)
Definition emptyCompositionRow : Row := textRow ["2020"; EmptyString].

Definition recordWithComposition : FinancialYearData :=
  setComposition [ {| name := js "A"; value := numberOfZ 1 |} ]
                 (newYear (js "2020")).

(** The text of an unsigned decimal literal: the digits [ip], and the digits
    [fp] after a decimal point when there are any. *)
Definition unsignedDecimal (ip fp : jsstring) : jsstring :=
  (ip ++ match fp with [] => [] | _ => 46%N :: fp end)%list.

(** The Number an unsigned decimal literal denotes. *)
Definition decimalValue (ip fp : jsstring) : number :=
  decimalToNumber false (digitsValue (ip ++ fp)%list)
                  (- Z.of_nat (length fp))%Z.

(** A code unit that [cleanNumber] keeps. *)
Definition kept (c : char16) : bool := negb (isStripped c).


(* ===================================================================== *)
(** ** The composition column of the CSV export *)
(* ===================================================================== *)

(** [parts.join(sep)] for an array of strings. *)
Fixpoint join (sep : jsstring) (parts : list jsstring) : jsstring :=
  match parts with
  | [] => []
  | [p] => p
  | p :: rest => (p ++ sep ++ join sep rest)%list
  end.

(** The template literal of one item, [name:value]. *)
Definition itemText (c : BusinessCompositionItem) : jsstring :=
  (name c ++ js ":" ++ Number_toString (value c))%list.

(** [compStr] of [handleExportCSV]: the items joined by a semicolon and a
    space. *)
Definition compositionText (items : list BusinessCompositionItem)
  : jsstring :=
  join (js "; ") (map itemText items).

(** An item that survives the export: a name as the parser produces it and a
    value that its own decimal text denotes. *)
Definition exportable (c : BusinessCompositionItem) : Prop :=
  name c <> [] /\ trim (name c) = name c
  /\ forallb notSeparator (name c) = true
  /\ isNaN (value c) = false
  /\ cleanNumber (VString (Number_toString (value c))) = value c.

(* ===================================================================== *)
(** ** Vocabulary of the further statements on [cleanNumber] *)
(* ===================================================================== *)

(** The text that [cleanNumber] hands to [parseFloat]: the kept code units,
    trimmed, with a pair of enclosing parentheses turned into a minus
    sign. *)
Definition cleanedText (s : jsstring) : jsstring :=
  let v := trim (filter (fun c => negb (isStripped c)) s) in
  if startsWith v (js "(") && endsWith v (js ")")
  then (js "-" ++ slice v 1 (-1))%list else v.

(** Whether a text begins, after white space and one optional sign, with
    something [parseFloat] can read: [Infinity], a digit, or a decimal point
    followed by a digit. *)
Definition readsNumber (s : jsstring) : bool :=
  let u := snd (takeSign (trimStart s)) in
  startsWith u (js "Infinity")
  || match u with
     | c :: r =>
       isDigit c
       || ((c =? 46)%N && match r with d :: _ => isDigit d | [] => false end)
     | [] => false
     end.

(** A text that may follow a decimal literal without being read as part of
    it: empty, or beginning with a code unit that is no digit, no decimal
    point and no exponent mark. *)
Definition literalEnd (t : jsstring) : bool :=
  match t with
  | [] => true
  | c :: _ => negb (isDigit c || (c =? 46) || (c =? 101) || (c =? 69))%N
  end.

(** The three ways a literal can be signed. *)
Definition isSignText (sgn : jsstring) : bool :=
  str_eqb sgn [] || str_eqb sgn (js "-") || str_eqb sgn (js "+").

(* ===================================================================== *)
(** ** Vocabulary of the further statements on identification *)
(* ===================================================================== *)

(** Whether a label contains one of the two business-composition phrases. *)
Definition isCompositionLabel (label : jsstring) : bool :=
  includes label (js "主营业务构成")
  || includes label (js "Business Composition").

(** A rule that the loop of [identifyMetric] passes over on a label: one of
    its negative key words occurs in the label, or none of its positive
    ones. *)
Definition rulePassed (label : jsstring) (kr : Key.t * MetricRule) : Prop :=
  containsAny label (negative (snd kr)) = true
  \/ containsAny label (positive (snd kr)) = false.

(** A rule that the loop accepts on a label. *)
Definition ruleAccepts (label : jsstring) (r : MetricRule) : Prop :=
  containsAny label (negative r) = false
  /\ containsAny label (positive r) = true.

(* ===================================================================== *)
(** ** Vocabulary of the further statements on extraction *)
(* ===================================================================== *)

(** [yearDataMap[y]?.[key]]: the value of a metric in the record of a year,
    undefined when the year or the metric is. *)
Definition metricAt (key : Key.t) (y : jsstring) (m : YearDataMap)
  : option number :=
  match lookupYear y m with
  | Some d => getMetric key d
  | None => None
  end.

(** What both extractors store for a cleaned cell value: its magnitude for
    capital expenditure, the value itself for every other key. *)
Definition stored (key : Key.t) (val : number) : number :=
  match key with
  | Key.capex => Math_abs val
  | _ => val
  end.

(** The label of a data row of a horizontal sheet: the first cell, or the
    second when the first is falsy. *)
Definition rowLabel (row : Row) : jsstring :=
  trim (String_ (or_else (or_else (cellAt row 0) (cellAt row 1))
                         (VString []))).

(** [m2] has every year of [m1], and in it every metric that is defined in
    [m1]. *)
Definition keepsFigures (m1 m2 : YearDataMap) : Prop :=
  forall y key v, metricAt key y m1 = Some v ->
                  exists v', metricAt key y m2 = Some v'.

(** The composition items of the record of a year, none when the year has no
    record. *)
Definition compositionAt (y : jsstring) (m : YearDataMap)
  : list BusinessCompositionItem :=
  match lookupYear y m with
  | Some d => businessComposition d
  | None => []
  end.

(** The write of one year column of a horizontal data row. *)
Definition horizontalCell (row : Row) (key : Key.t) (m : YearDataMap)
  (entry : nat * jsstring) : YearDataMap :=
  writeMetric (snd entry) key (cleanNumber (cellAt row (fst entry)))
              (ensureYear (snd entry) m).

(* ===================================================================== *)
(** ** The sheet of the CSV export *)
(* ===================================================================== *)

(** [historicalHeaders] of [handleExportCSV]. *)
Definition historicalHeaders : Row :=
  textRow ["年份"; "营业收入"; "营业成本"; "毛利润"; "销售费用"; "管理费用";
           "财务费用"; "研发费用"; "所得税费用"; "归母净利润"; "总资产";
           "归母权益"; "经营现金流(OCF)"; "资本开支(Capex)"; "ROE";
           "销售净利率"; "总资产周转率"; "权益乘数";
           "主营业务构成(Name:Value...)"].

(** Empty cells, as the sheet reader pads a short row with them
    ([defval: '']). *)
Definition blanks (n : nat) : Row := repeat (VString []) n.

(** [infoRows] of [handleExportCSV] as rows of a sheet. The export writes
    these rows unquoted ([r.join(',')]), so the project name and the date
    each fill as many cells as their text has fields between commas; the
    third row is an empty line. *)
Definition infoRows (nameCells dateCells : list jsvalue) (w0 w1 w2 : nat)
  : list Row :=
  [ (VString (js "项目名称") :: nameCells ++ blanks w0)%list;
    (VString (js "导出日期") :: dateCells ++ blanks w1)%list;
    VString [] :: blanks w2 ].

(** The first cells of [dcfRows] that are not empty. *)
Definition dcfLabels : list jsstring :=
  map js ["--- DCF 估值模型数据 ---"; "参数"; "预测期 (年)"; "未来增长率 (%)";
          "永续增长率 (%)"; "折现率 WACC (%)"; "总股本 (亿股)";
          "基准 OCF (亿)"; "基准 Capex (亿)"; "估值结果";
          "企业内在价值 (EV)"; "每股内在价值"; "初始自由现金流 (Base FCF)";
          "终值 (Terminal Value)"; "终值折现 (Terminal PV)";
          "--- 未来现金流预测 ---"; "年份"].

(** A row of the valuation block of the export: its first cell is empty, one
    of the labels, or the [Year i] of a projection. *)
Definition isDcfRow (row : Row) : bool :=
  match row with
  | VString s :: _ =>
    str_eqb s [] || existsb (str_eqb s) dcfLabels
    || startsWith s (js "Year ")
  | _ => false
  end.

(** The columns of the export that the importer reads, with the metric each
    is read as. *)
Definition exportColumns : list (nat * MetricId) :=
  [ (1, Metric Key.revenue); (2, Metric Key.costOfRevenue);
    (4, Metric Key.salesExpenses); (5, Metric Key.managementExpenses);
    (6, Metric Key.financialExpenses); (7, Metric Key.researchExpenses);
    (8, Metric Key.taxExpenses); (9, Metric Key.netProfitParent);
    (10, Metric Key.totalAssets); (11, Metric Key.equityParent);
    (12, Metric Key.operatingCashFlow); (13, Metric Key.capex);
    (18, BusinessComposition) ]%nat.

(* ===================================================================== *)
(** ** The application state and the upload handler *)
(* ===================================================================== *)

Module App.

Record Project := {
  id : jsstring;
  name : jsstring;
  createdAt : number;
  data : list FinancialYearData;
  report : option jsstring
}.

Inductive AppStatus := IDLE | ANALYZING | SUCCESS | ERROR.

Inductive ViewState := LIST | UPLOAD | DETAIL | COMPARE.

(** The message of the error caught by the handler: that of the extraction,
    or that of the handler itself when the extraction returns no record. *)
Inductive ErrorMessage :=
  | ExtractionFailed (e : ExtractError)
  | NoValidData.

(** The state variables of the [App] component. *)
Record State := {
  projects : list Project;
  view : ViewState;
  activeProjectId : option jsstring;
  editingProjectId : option jsstring;
  compareProjectIds : list jsstring;
  status : AppStatus;
  error : option ErrorMessage
}.

(** The state after the [catch] block: the error and the status are set,
    everything else is as it was. *)
Definition failed (st : State) (msg : ErrorMessage) : State :=
  {| projects := projects st; view := view st;
     activeProjectId := activeProjectId st;
     editingProjectId := editingProjectId st;
     compareProjectIds := compareProjectIds st;
     status := ERROR; error := Some msg |}.

(** [{ ...p, name: projectName, data: extractedData }]. *)
Definition refreshed (projectName : jsstring)
  (extractedData : list FinancialYearData) (p : Project) : Project :=
  {| id := id p; name := projectName; createdAt := createdAt p;
     data := extractedData; report := report p |}.

(** [handleAnalyzeComplete]: the state once the handler has run, given the
    identifier [generateId] returns and the time [Date.now] returns. *)
Definition handleAnalyzeComplete (st : State) (files : list File)
  (projectName : jsstring) (freshId : jsstring) (now : number) : State :=
  match extractFinancialData METRIC_RULES files with
  | inl e => failed st (ExtractionFailed e)
  | inr [] => failed st NoValidData
  | inr extractedData =>
    match editingProjectId st with
    | Some ((_ :: _) as editing) =>
      {| projects :=
           map (fun p => if str_eqb (id p) editing
                         then refreshed projectName extractedData p else p)
               (projects st);
         view := DETAIL;
         activeProjectId := Some editing;
         editingProjectId := None;
         compareProjectIds := compareProjectIds st;
         status := SUCCESS; error := None |}
    | _ =>
      {| projects :=
           {| id := freshId; name := projectName; createdAt := now;
              data := extractedData; report := None |} :: projects st;
         view := DETAIL;
         activeProjectId := Some freshId;
         editingProjectId := editingProjectId st;
         compareProjectIds := compareProjectIds st;
         status := SUCCESS; error := None |}
    end
  end.

End App.

(* ===================================================================== *)
(** ** The valuation inputs of the dashboard *)
(* ===================================================================== *)

Module Dashboard.

Record DCFParams := {
  growthPeriod : number;
  growthRate : number;
  terminalRate : number;
  discountRate : number;
  shareCountInBillions : number;
  ocfInBillions : number;
  capexInBillions : number
}.

(** The initial value of the [dcfParams] state. *)
Definition initialParams : DCFParams :=
  {| growthPeriod := numberOfZ 5; growthRate := numberOfZ 10;
     terminalRate := numberOfZ 2; discountRate := numberOfZ 8;
     shareCountInBillions := pos_zero; ocfInBillions := pos_zero;
     capexInBillions := pos_zero |}.

(** [x || 0] for a field that may be undefined. *)
Definition orNumber0 (o : option number) : number :=
  match o with
  | Some x => if truthy (VNumber x) then x else pos_zero
  | None => pos_zero
  end.

(** The effect that runs when the data of the dashboard load: the two cash
    inputs are taken from the latest year, in units of [1e8]. *)
Definition loadParams (data : list FinancialYearData) (prev : DCFParams)
  : DCFParams :=
  match rev data with
  | latest :: _ =>
    {| growthPeriod := growthPeriod prev; growthRate := growthRate prev;
       terminalRate := terminalRate prev; discountRate := discountRate prev;
       shareCountInBillions := shareCountInBillions prev;
       ocfInBillions :=
         SF64div (orNumber0 (operatingCashFlow latest)) (numberOfZ 100000000);
       capexInBillions :=
         SF64div (Math_abs (orNumber0 (capex latest)))
                 (numberOfZ 100000000) |}
  | [] => prev
  end.

End Dashboard.

(* ===================================================================== *)
(** ** Vocabulary of the statements on returned records *)
(* ===================================================================== *)

(** A composition item as the parser produces it: a name that is not empty,
    is trimmed and holds no separator, and a value that is not [NaN]. *)
Definition wellFormedItem (item : BusinessCompositionItem) : Prop :=
  name item <> [] /\ trim (name item) = name item
  /\ forallb notSeparator (name item) = true
  /\ isNaN (value item) = false.

(** A vertical sheet with a composition column. *)
Definition compositionSheet : Sheet :=
  [ textRow ["年份"; "营业收入"; "归母净利润"; "总资产"; "主营业务构成"];
    textRow ["2020"; "100"; "10"; "200"; "手机:60; 云服务:40; 其他"] ].

(** A horizontal sheet with a row of capital expenditure. *)
Definition capexSheet : Sheet :=
  [ textRow ["项目"; "2021"; "2022"];
    textRow ["营业收入"; "1000"; "1200"];
    textRow ["资本开支"; "(300)"; "-450"] ].

Open Scope Z_scope.

(* ===================================================================== *)
(** ** Facts about strings *)
(* ===================================================================== *)

Lemma str_eqb_eq (a b : jsstring) : str_eqb a b = true <-> a = b.
Proof.
  unfold str_eqb. revert b.
  induction a as [|c a IH]; intros [|d b]; simpl; split; intros H;
    try reflexivity; try discriminate.
  - apply andb_true_iff in H. destruct H as [Hl H].
    apply andb_true_iff in H. destruct H as [Hc H].
    apply N.eqb_eq in Hc. subst d. f_equal. apply IH.
    now rewrite Hl, H.
  - injection H as -> ->.
    assert (E : str_eqb b b = true).
    { clear. induction b as [|c b IHb]; [reflexivity|].
      unfold str_eqb in *. simpl.
      apply andb_true_iff in IHb. destruct IHb as [Hl H].
      now rewrite Hl, N.eqb_refl, H. }
    unfold str_eqb in E.
    apply andb_true_iff in E. destruct E as [Hl H].
    now rewrite Hl, N.eqb_refl, H.
Qed.

Lemma str_eqb_refl (a : jsstring) : str_eqb a a = true.
Proof. now apply str_eqb_eq. Qed.

Lemma str_eqb_neq (a b : jsstring) : str_eqb a b = false <-> a <> b.
Proof.
  split.
  - intros H E. apply str_eqb_eq in E. congruence.
  - intros H. destruct (str_eqb a b) eqn:E; [|reflexivity].
    apply str_eqb_eq in E. contradiction.
Qed.

Lemma startsWith_spec (s k : jsstring) :
  startsWith s k = true <-> exists post, s = (k ++ post)%list.
Proof.
  revert s. induction k as [|c k IH]; intros s.
  - split; [intros _; now exists s|intros _; now destruct s].
  - destruct s as [|d s]; simpl.
    + split; [discriminate|intros [post H]; discriminate].
    + rewrite andb_true_iff, N.eqb_eq, IH. split.
      * intros [-> [post ->]]. now exists post.
      * intros [post H]. injection H as -> ->. split; [reflexivity|now exists post].
Qed.

Lemma includes_unfold (c : char16) (s k : jsstring) :
  includes (c :: s) k = startsWith (c :: s) k || includes s k.
Proof. reflexivity. Qed.

Lemma includes_nil (k : jsstring) : includes [] k = startsWith [] k.
Proof. unfold includes. apply orb_false_r. Qed.

Lemma includes_spec (s k : jsstring) :
  includes s k = true <-> exists pre post, s = (pre ++ k ++ post)%list.
Proof.
  induction s as [|c s IH].
  - rewrite includes_nil, startsWith_spec. split.
    + intros [post H]. now exists [], post.
    + intros [pre [post H]]. destruct pre; [now exists post|discriminate].
  - rewrite includes_unfold, orb_true_iff, startsWith_spec, IH. split.
    + intros [[post H]|[pre [post H]]].
      * now exists [], post.
      * exists (c :: pre), post. now rewrite H.
    + intros [[|d pre] [post H]].
      * left. now exists post.
      * right. injection H as -> ->. now exists pre, post.
Qed.

(** Containment is transitive. *)
Lemma includes_trans (s k j : jsstring) :
  includes s k = true -> includes k j = true -> includes s j = true.
Proof.
  rewrite !includes_spec. intros [p1 [q1 ->]] [p2 [q2 ->]].
  exists (p1 ++ p2)%list, (q2 ++ q1)%list. now rewrite <- !app_assoc.
Qed.

Lemma includes_rev (s k : jsstring) :
  includes (rev s) (rev k) = includes s k.
Proof.
  apply eq_true_iff_eq. rewrite !includes_spec. split.
  - intros [pre [post H]]. exists (rev post), (rev pre).
    apply (f_equal (@rev _)) in H. rewrite rev_involutive in H.
    now rewrite H, !rev_app_distr, rev_involutive, <- app_assoc.
  - intros [pre [post ->]]. exists (rev post), (rev pre).
    now rewrite !rev_app_distr, <- app_assoc.
Qed.

(** What [trimStart] leaves is a suffix of the string. *)
Lemma trimStart_suffix (s : jsstring) :
  exists ws, s = (ws ++ trimStart s)%list.
Proof.
  induction s as [|c s [ws IH]]; simpl.
  - now exists [].
  - destruct (isWhiteSpace c).
    + exists (c :: ws). now rewrite IH at 1.
    + now exists [].
Qed.

Lemma includes_trimStart_sub (s k : jsstring) :
  includes (trimStart s) k = true -> includes s k = true.
Proof.
  destruct (trimStart_suffix s) as [ws E]. rewrite !includes_spec.
  intros [pre [post H]]. exists (ws ++ pre)%list, post.
  now rewrite <- app_assoc, <- H.
Qed.

Lemma includes_trim_sub (s k : jsstring) :
  includes (trim s) k = true -> includes s k = true.
Proof.
  unfold trim, trimEnd. intros H. apply includes_trimStart_sub.
  rewrite <- includes_rev in H. rewrite rev_involutive in H.
  apply includes_trimStart_sub in H.
  now rewrite includes_rev in H.
Qed.

(** A key word that starts with a code unit that is no white space survives
    [trimStart]. *)
Lemma includes_trimStart (s : jsstring) (c : char16) (k : jsstring) :
  isWhiteSpace c = false ->
  includes s (c :: k) = true -> includes (trimStart s) (c :: k) = true.
Proof.
  intros Hc. induction s as [|d s IH]; [easy|].
  rewrite includes_unfold. cbn [trimStart].
  destruct (isWhiteSpace d) eqn:Hd.
  - intros H. apply orb_true_iff in H. destruct H as [H|H].
    + cbn [startsWith] in H. apply andb_true_iff in H. destruct H as [H _].
      apply N.eqb_eq in H. congruence.
    + now apply IH.
  - intros H. now rewrite includes_unfold.
Qed.

(** A key word whose first and last code units are no white space is
    contained in a label exactly when it is contained in the trimmed
    label. *)
Lemma includes_trim (s k : jsstring) :
  solidEnds k = true -> includes (trim s) k = includes s k.
Proof.
  intros Hk. apply eq_true_iff_eq. split; [apply includes_trim_sub|].
  unfold solidEnds in Hk.
  destruct k as [|c k]; [discriminate|].
  destruct (rev (c :: k)) as [|d rk] eqn:Er; [discriminate|].
  apply andb_true_iff in Hk. destruct Hk as [Hc Hd].
  apply negb_true_iff in Hc, Hd.
  intros H. unfold trim, trimEnd.
  apply (@includes_trimStart _ _ _ Hc) in H.
  rewrite <- includes_rev in H. rewrite Er in H.
  apply (@includes_trimStart _ _ _ Hd) in H.
  rewrite <- Er in H. rewrite <- includes_rev.
  now rewrite rev_involutive.
Qed.

(* ===================================================================== *)
(** ** Facts about rounding and about the Numbers of years *)
(* ===================================================================== *)

Lemma digits2_pos_bounds (p : Pos.t) :
  2 ^ (Zpos (digits2_pos p) - 1) <= Zpos p < 2 ^ Zpos (digits2_pos p).
Proof.
  induction p as [p IH|p IH|]; cbn [digits2_pos].
  - rewrite Pos2Z.inj_succ.
    replace (Z.succ (Zpos (digits2_pos p)) - 1) with (Z.succ (Zpos (digits2_pos p) - 1)) by lia.
    rewrite !Z.pow_succ_r by lia. lia.
  - rewrite Pos2Z.inj_succ.
    replace (Z.succ (Zpos (digits2_pos p)) - 1) with (Z.succ (Zpos (digits2_pos p) - 1)) by lia.
    rewrite !Z.pow_succ_r by lia. lia.
  - simpl. lia.
Qed.

Lemma shr_1_m (mrs : shr_record) :
  0 <= shr_m mrs -> shr_m (shr_1 mrs) = shr_m mrs / 2.
Proof.
  destruct mrs as [m r s]. simpl. intros Hm.
  destruct m as [|p|p]; [reflexivity| |lia].
  destruct p as [p|p|]; simpl.
  - rewrite Pos2Z.inj_xI. apply Z.div_unique with (r := 1); lia.
  - rewrite Pos2Z.inj_xO. apply Z.div_unique with (r := 0); lia.
  - reflexivity.
Qed.

Lemma iter_shr_1_m (n : Pos.t) (mrs : shr_record) :
  0 <= shr_m mrs ->
  shr_m (iter_pos shr_1 n mrs) = shr_m mrs / 2 ^ Zpos n.
Proof.
  revert mrs. induction n as [n IH|n IH|]; intros mrs Hm; cbn [iter_pos].
  - assert (H1 : 0 <= shr_m (shr_1 mrs)) by (rewrite shr_1_m by lia; apply Z.div_pos; lia).
    assert (H2 : 0 <= shr_m (iter_pos shr_1 n (shr_1 mrs)))
      by (rewrite IH by lia; apply Z.div_pos; [lia|apply Z.pow_pos_nonneg; lia]).
    rewrite IH, IH, shr_1_m by lia.
    rewrite !Z.div_div by (pose proof (Z.pow_pos_nonneg 2 (Zpos n) ltac:(lia) ltac:(lia)); lia).
    f_equal.
    assert (E : Zpos n~1 = 1 + Zpos n + Zpos n) by lia.
    rewrite E, !Z.pow_add_r by lia. change (2 ^ 1) with 2. lia.
  - assert (H2 : 0 <= shr_m (iter_pos shr_1 n mrs))
      by (rewrite IH by lia; apply Z.div_pos; [lia|apply Z.pow_pos_nonneg; lia]).
    rewrite IH, IH by lia.
    rewrite !Z.div_div by (pose proof (Z.pow_pos_nonneg 2 (Zpos n) ltac:(lia) ltac:(lia)); lia).
    f_equal.
    assert (E : Zpos n~0 = Zpos n + Zpos n) by lia.
    rewrite E, Z.pow_add_r by lia. reflexivity.
  - rewrite shr_1_m by lia. reflexivity.
Qed.

Lemma shr_record_of_loc_m (m : Z) (l : location) :
  shr_m (shr_record_of_loc m l) = m.
Proof. destruct l as [|[]]; reflexivity. Qed.

(** Shifting a positive mantissa down to the format keeps it positive. *)
Lemma shr_fexp_pos (m : Pos.t) (e : Z) (l : location) :
  -1074 <= e ->
  0 < shr_m (fst (shr_fexp prec emax (Zpos m) e l))
  /\ -1074 <= snd (shr_fexp prec emax (Zpos m) e l).
Proof.
  intros He. unfold shr_fexp, shr.
  pose proof (digits2_pos_bounds m) as Hd.
  cbn [Zdigits2].
  set (d := Zpos (digits2_pos m)) in *.
  destruct (fexp prec emax (d + e) - e) as [|n|n] eqn:En; cbn [fst snd];
    rewrite ?shr_record_of_loc_m; try (split; lia).
  unfold fexp, SpecFloat.emin, prec, emax in En.
  assert (Hn : Zpos n = d - 53) by lia.
  rewrite iter_shr_1_m by (rewrite shr_record_of_loc_m; lia).
  rewrite shr_record_of_loc_m. split; [|lia].
  apply Z.div_str_pos. split; [apply Z.pow_pos_nonneg; lia|].
  apply Z.le_trans with (2 ^ (d - 1)); [|lia].
  apply Z.pow_le_mono_r; lia.
Qed.

Lemma round_nearest_even_pos (m : Z) (l : location) :
  0 < m -> 0 < round_nearest_even m l.
Proof.
  intros H. destruct l as [|[]]; simpl; try lia.
  destruct (Z.even m); lia.
Qed.

(** Rounding a positive mantissa whose exponent is not below the least one
    gives a finite number or an infinity of the given sign. *)
Lemma binary_round_aux_sign (s : bool) (m : Pos.t) (e : Z) (l : location) :
  -1074 <= e ->
  (exists m' e', binary_round_aux prec emax s (Zpos m) e l = S754_finite s m' e')
  \/ binary_round_aux prec emax s (Zpos m) e l = S754_infinity s.
Proof.
  intros He. unfold binary_round_aux.
  pose proof (shr_fexp_pos m e l He) as [H1 H2].
  destruct (shr_fexp prec emax (Zpos m) e l) as [mrs' e1]. cbn [fst snd] in *.
  pose proof (round_nearest_even_pos (shr_m mrs') (loc_of_shr_record mrs') H1) as Hr.
  destruct (round_nearest_even (shr_m mrs') (loc_of_shr_record mrs')) as [|q|q]; try lia.
  pose proof (shr_fexp_pos q e1 loc_Exact H2) as [H3 H4].
  destruct (shr_fexp prec emax (Zpos q) e1 loc_Exact) as [mrs2 e2]. cbn [fst snd] in *.
  destruct (shr_m mrs2) as [|q2|q2]; try lia.
  destruct (e2 <=? emax - prec).
  - left. now exists q2, e2.
  - now right.
Qed.

Lemma binary_round_sign (s : bool) (m : Pos.t) (e : Z) :
  -1074 <= e ->
  (exists m' e', binary_round prec emax s m e = S754_finite s m' e')
  \/ binary_round prec emax s m e = S754_infinity s.
Proof.
  intros He. unfold binary_round.
  destruct (shl_align m e (fexp prec emax (Zpos (digits2_pos m) + e))) as [mz ez] eqn:E.
  apply binary_round_aux_sign.
  unfold shl_align in E.
  destruct (fexp prec emax (Zpos (digits2_pos m) + e) - e) eqn:En;
    injection E as <- <-; try lia.
  unfold fexp, SpecFloat.emin, prec, emax. lia.
Qed.

Lemma year_floats_table :
  forallb yearFloatOK (map Z.of_nat (seq 1 (Z.to_nat 9999))) = true.
Proof. vm_compute; reflexivity. Qed.

Lemma year_float (a : Z) :
  1 <= a <= 9999 ->
  exists m e, numberOfZ a = S754_finite false m e
              /\ Zpos m = a * 2 ^ (- e) /\ -1074 <= e <= 0.
Proof.
  intros Ha.
  assert (Hin : In a (map Z.of_nat (seq 1 (Z.to_nat 9999)))).
  { replace a with (Z.of_nat (Z.to_nat a)) by lia.
    apply in_map, in_seq. lia. }
  pose proof (proj1 (forallb_forall _ _) year_floats_table a Hin) as H.
  unfold yearFloatOK in H.
  destruct (numberOfZ a) as [| | |[] m e]; try discriminate.
  apply andb_true_iff in H. destruct H as [H H3].
  apply andb_true_iff in H. destruct H as [H1 H2].
  exists m, e. split; [reflexivity|]. lia.
Qed.

Lemma iter_xO_value (m d : Pos.t) :
  Zpos (Pos.iter xO m d) = Zpos m * 2 ^ Zpos d.
Proof.
  induction d as [|d IH] using Pos.peano_ind.
  - simpl. lia.
  - rewrite Pos.iter_succ, Pos2Z.inj_xO, IH, Pos2Z.inj_succ, Z.pow_succ_r by lia.
    lia.
Qed.

Lemma shl_align_value (m : Pos.t) (e ez : Z) :
  ez <= e -> Zpos (fst (shl_align m e ez)) = Zpos m * 2 ^ (e - ez).
Proof.
  intros H. unfold shl_align.
  destruct (ez - e) as [|d|d] eqn:E; cbn [fst].
  - replace (e - ez) with 0 by lia. lia.
  - lia.
  - rewrite iter_xO_value. f_equal. f_equal. lia.
Qed.

Lemma binary_normalize_sign (z e : Z) :
  -1074 <= e ->
  SFltb pos_zero (binary_normalize prec emax z e false) = (0 <? z).
Proof.
  intros He. destruct z as [|p|p]; cbn [binary_normalize].
  - reflexivity.
  - destruct (binary_round_sign false p e He) as [[m' [e' ->]]| ->]; reflexivity.
  - destruct (binary_round_sign true p e He) as [[m' [e' ->]]| ->]; reflexivity.
Qed.

(** The sign of the difference of two year numbers, computed on Numbers. *)
Lemma year_difference_sign (a b : Z) :
  0 <= a <= 9999 -> 0 <= b <= 9999 ->
  SFltb pos_zero (SF64sub (numberOfZ a) (numberOfZ b)) = (b <? a).
Proof.
  intros Ha Hb.
  destruct (Z.eq_dec a 0) as [->|Ha0]; destruct (Z.eq_dec b 0) as [->|Hb0].
  - reflexivity.
  - destruct (year_float b) as [mb [eb [-> _]]]; [lia|].
    cbn. symmetry. apply Z.ltb_ge. lia.
  - destruct (year_float a) as [ma [ea [-> _]]]; [lia|].
    cbn. symmetry. apply Z.ltb_lt. lia.
  - destruct (year_float a) as [ma [ea [-> [Hma Hea]]]]; [lia|].
    destruct (year_float b) as [mb [eb [-> [Hmb Heb]]]]; [lia|].
    unfold SF64sub, SFsub, cond_Zopp.
    rewrite binary_normalize_sign by lia.
    rewrite !shl_align_value by lia.
    rewrite Hma, Hmb, <- !Z.mul_assoc, <- !Z.pow_add_r by lia.
    replace (- ea + (ea - Z.min ea eb)) with (- Z.min ea eb) by lia.
    replace (- eb + (eb - Z.min ea eb)) with (- Z.min ea eb) by lia.
    rewrite <- Z.mul_sub_distr_r.
    assert (Hp : 0 < 2 ^ (- Z.min ea eb)) by (apply Z.pow_pos_nonneg; lia).
    destruct (Z.ltb_spec b a) as [Hlt|Hge].
    + apply Z.ltb_lt. apply Z.mul_pos_pos; lia.
    + apply Z.ltb_ge. apply Z.mul_nonpos_nonneg; lia.
Qed.

(** The two conversions between texts and Numbers, checked against binary64
    values written in hexadecimal. *)
Lemma number_conversion_examples :
  parseFloat (js "0.1") = Prim2SF 0x1.999999999999ap-4%float
  /\ parseFloat (js "1e23") = Prim2SF 0x1.52d02c7e14af6p+76%float
  /\ parseFloat (js "5e-324") = Prim2SF 0x0.0000000000001p-1022%float
  /\ parseFloat (js "1.7976931348623157e308")
     = Prim2SF 0x1.fffffffffffffp+1023%float
  /\ parseFloat (js "  -12.5abc") = Prim2SF (-12.5)%float
  /\ parseFloat (js "1e400") = S754_infinity false
  /\ parseFloat (js "abc") = NaN
  /\ parseInt (js "2020") = Prim2SF 2020%float
  /\ Number_toString (Prim2SF 2020%float) = js "2020"
  /\ Number_toString (Prim2SF 0x1.999999999999ap-4%float) = js "0.1"
  /\ Number_toString (Prim2SF 1234.5%float) = js "1234.5"
  /\ Number_toString (Prim2SF 0x1.52d02c7e14af6p+76%float) = js "1e+23"
  /\ Number_toString (Prim2SF 0x0.0000000000001p-1022%float) = js "5e-324"
  /\ Number_toString (Prim2SF (-0.125)%float) = js "-0.125".
Proof.
  repeat (split; [vm_compute; reflexivity|]). vm_compute; reflexivity.
Qed.

(* ===================================================================== *)
(** ** Digits, years and [parseInt] *)
(* ===================================================================== *)

Lemma isDigit_range (c : char16) :
  isDigit c = true <-> (48 <= c <= 57)%N.
Proof.
  unfold isDigit. rewrite andb_true_iff, !N.leb_le. reflexivity.
Qed.

Lemma isDigit_cases (c : char16) :
  isDigit c = true ->
  In c [48; 49; 50; 51; 52; 53; 54; 55; 56; 57]%N.
Proof.
  intros H. apply isDigit_range in H. simpl.
  assert (Hc : (c = 48 \/ c = 49 \/ c = 50 \/ c = 51 \/ c = 52 \/ c = 53
           \/ c = 54 \/ c = 55 \/ c = 56 \/ c = 57)%N) by lia.
  intuition auto.
Qed.

Ltac digit_cases H :=
  apply isDigit_cases in H; simpl in H;
  repeat (destruct H as [H|H]; [subst|]); [..|contradiction].

Lemma trimStart_digit (a : char16) (r : jsstring) :
  isDigit a = true -> trimStart (a :: r) = a :: r.
Proof. intros H. digit_cases H; reflexivity. Qed.

Lemma takeSign_digit (a : char16) (r : jsstring) :
  isDigit a = true -> takeSign (a :: r) = (false, a :: r).
Proof. intros H. digit_cases H; reflexivity. Qed.

Lemma no_hex_prefix (s : jsstring) :
  forallb isDigit s = true ->
  startsWith s (js "0x") || startsWith s (js "0X") = false.
Proof.
  destruct s as [|a [|b r]]; [reflexivity| |].
  - intros _. change (js "0x") with [48; 120]%N. change (js "0X") with [48; 88]%N.
    simpl. now rewrite !andb_false_r.
  - intros H. simpl in H. apply andb_true_iff in H. destruct H as [_ H].
    apply andb_true_iff in H. destruct H as [Hb _].
    change (js "0x") with [48; 120]%N. change (js "0X") with [48; 88]%N.
    cbn [startsWith].
    digit_cases Hb; simpl; now rewrite !andb_false_r.
Qed.

Lemma span_digits (s : jsstring) :
  forallb isDigit s = true -> span isDigit s = (s, []).
Proof.
  induction s as [|c s IH]; simpl; [reflexivity|].
  intros H. apply andb_true_iff in H. destruct H as [Hc Hs].
  now rewrite Hc, IH.
Qed.

(** On a run of digits [parseInt] is the Number of its decimal value. *)
Lemma parseInt_digits (s : jsstring) :
  s <> [] -> forallb isDigit s = true ->
  parseInt s = numberOfZ (digitsValue s).
Proof.
  intros Hne Hs. destruct s as [|a r]; [contradiction|].
  assert (Ha : isDigit a = true) by (simpl in Hs; now apply andb_true_iff in Hs).
  unfold parseInt.
  rewrite (trimStart_digit a r Ha), (takeSign_digit a r Ha).
  rewrite (no_hex_prefix _ Hs), (span_digits _ Hs). cbn [fst].
  destruct (Z.eqb_spec (digitsValue (a :: r)) 0) as [E|E].
  - rewrite E. reflexivity.
  - reflexivity.
Qed.

Lemma digitValue_range (c : char16) :
  isDigit c = true -> 0 <= digitValue c <= 9.
Proof.
  intros H. apply isDigit_range in H. unfold digitValue. lia.
Qed.

Lemma digitValue_inj (c d : char16) :
  isDigit c = true -> isDigit d = true ->
  digitValue c = digitValue d -> c = d.
Proof.
  intros Hc Hd. apply isDigit_range in Hc, Hd. unfold digitValue. lia.
Qed.

Lemma fourDigits_inv (s : jsstring) :
  fourDigits s = true ->
  exists a b c d, s = [a; b; c; d] /\ isDigit a = true /\ isDigit b = true
                  /\ isDigit c = true /\ isDigit d = true.
Proof.
  destruct s as [|a [|b [|c [|d [|x r]]]]]; try discriminate.
  simpl. rewrite !andb_true_iff. intros [[[Ha Hb] Hc] Hd].
  now exists a, b, c, d.
Qed.

Lemma fourDigits_value (s : jsstring) :
  fourDigits s = true -> 0 <= digitsValue s <= 9999.
Proof.
  intros H. destruct (fourDigits_inv s H) as [a [b [c [d [-> [Ha [Hb [Hc Hd]]]]]]]].
  apply digitValue_range in Ha, Hb, Hc, Hd.
  unfold digitsValue. cbn [fold_left]. lia.
Qed.

Lemma fourDigits_value_inj (s t : jsstring) :
  fourDigits s = true -> fourDigits t = true ->
  digitsValue s = digitsValue t -> s = t.
Proof.
  intros Hs Ht.
  destruct (fourDigits_inv s Hs) as [a [b [c [d [-> [Ha [Hb [Hc Hd]]]]]]]].
  destruct (fourDigits_inv t Ht) as [a' [b' [c' [d' [-> [Ha' [Hb' [Hc' Hd']]]]]]]].
  pose proof (digitValue_range _ Ha). pose proof (digitValue_range _ Hb).
  pose proof (digitValue_range _ Hc). pose proof (digitValue_range _ Hd).
  pose proof (digitValue_range _ Ha'). pose proof (digitValue_range _ Hb').
  pose proof (digitValue_range _ Hc'). pose proof (digitValue_range _ Hd').
  unfold digitsValue. cbn [fold_left]. intros E.
  assert (digitValue a = digitValue a') by lia.
  assert (digitValue b = digitValue b') by lia.
  assert (digitValue c = digitValue c') by lia.
  assert (digitValue d = digitValue d') by lia.
  f_equal; [|f_equal; [|f_equal; [|f_equal]]]; now apply digitValue_inj.
Qed.

Lemma fourDigits_parseInt (s : jsstring) :
  fourDigits s = true -> parseInt s = numberOfZ (digitsValue s).
Proof.
  intros H. destruct (fourDigits_inv s H) as [a [b [c [d [-> [Ha [Hb [Hc Hd]]]]]]]].
  apply parseInt_digits; [discriminate|].
  simpl. now rewrite Ha, Hb, Hc, Hd.
Qed.

(** The comparator of the final sort, on records whose year is four
    digits. *)
Lemma byYear_sign (a b : FinancialYearData) :
  fourDigits (year a) = true -> fourDigits (year b) = true ->
  SFltb pos_zero (byYear a b) = (yearNumber b <? yearNumber a).
Proof.
  intros Ha Hb. unfold byYear, yearNumber.
  rewrite !fourDigits_parseInt by assumption.
  apply year_difference_sign; now apply fourDigits_value.
Qed.

(* ===================================================================== *)
(** ** The value normaliser *)
(* ===================================================================== *)

Lemma shr_fexp_nonneg (m e : Z) (l : location) :
  0 <= m -> 0 <= shr_m (fst (shr_fexp prec emax m e l)).
Proof.
  intros Hm. unfold shr_fexp, shr.
  destruct (fexp prec emax (Zdigits2 m + e) - e) as [|n|n]; cbn [fst];
    rewrite ?iter_shr_1_m by (rewrite shr_record_of_loc_m; lia);
    rewrite shr_record_of_loc_m; try lia.
  apply Z.div_pos; [lia|apply Z.pow_pos_nonneg; lia].
Qed.

Lemma round_nearest_even_nonneg (m : Z) (l : location) :
  0 <= m -> 0 <= round_nearest_even m l.
Proof.
  intros H. destruct l as [|[]]; simpl; try lia.
  destruct (Z.even m); lia.
Qed.

(** Rounding a mantissa that is not negative never gives [NaN]. *)
Lemma binary_round_aux_not_NaN (s : bool) (m e : Z) (l : location) :
  0 <= m -> isNaN (binary_round_aux prec emax s m e l) = false.
Proof.
  intros Hm. unfold binary_round_aux.
  pose proof (shr_fexp_nonneg m e l Hm) as H1.
  destruct (shr_fexp prec emax m e l) as [mrs' e1]. cbn [fst] in H1.
  pose proof (round_nearest_even_nonneg _ (loc_of_shr_record mrs') H1) as Hr.
  pose proof (shr_fexp_nonneg _ e1 loc_Exact Hr) as H2.
  destruct (shr_fexp prec emax _ e1 loc_Exact) as [mrs2 e2]. cbn [fst] in H2.
  destruct (shr_m mrs2) as [|q|q]; [reflexivity| |lia].
  now destruct (e2 <=? emax - prec).
Qed.

(** The sign given to the rounding is the sign of its result. *)
Lemma binary_round_aux_opp (s : bool) (m e : Z) (l : location) :
  SFopp (binary_round_aux prec emax s m e l)
  = binary_round_aux prec emax (negb s) m e l.
Proof.
  unfold binary_round_aux.
  destruct (shr_fexp prec emax m e l) as [mrs' e1].
  destruct (shr_fexp prec emax _ e1 loc_Exact) as [mrs2 e2].
  destruct (shr_m mrs2) as [|q|q]; [reflexivity| |reflexivity].
  now destruct (e2 <=? emax - prec).
Qed.

Lemma binary_round_opp (s : bool) (m : Pos.t) (e : Z) :
  SFopp (binary_round prec emax s m e) = binary_round prec emax (negb s) m e.
Proof.
  unfold binary_round.
  destruct (shl_align m e _) as [mz ez]. apply binary_round_aux_opp.
Qed.

Lemma binary_round_not_NaN (s : bool) (m : Pos.t) (e : Z) :
  isNaN (binary_round prec emax s m e) = false.
Proof.
  unfold binary_round.
  destruct (shl_align m e _) as [mz ez]. now apply binary_round_aux_not_NaN.
Qed.

Lemma div_core_nonneg (m1 m2 : Pos.t) (e1 e2 : Z) :
  0 <= fst (fst (SFdiv_core_binary prec emax (Zpos m1) e1 (Zpos m2) e2)).
Proof.
  unfold SFdiv_core_binary.
  set (s := e1 - e2 - _).
  set (m' := match s with Z.pos _ => Z.shiftl (Zpos m1) s | 0 => Zpos m1
                          | Z.neg _ => 0 end).
  assert (Hm' : 0 <= m').
  { subst m'. destruct s; try lia. apply Z.shiftl_nonneg. lia. }
  pose proof (Z_div_mod m' (Zpos m2) ltac:(lia)) as Hd.
  destruct (Z.div_eucl m' (Zpos m2)) as [q r]. cbn [fst].
  destruct Hd as [Hq Hr]. nia.
Qed.

Lemma SF64div_finite_not_NaN (s : bool) (m1 m2 : Pos.t) :
  isNaN (SF64div (S754_finite s m1 0) (S754_finite false m2 0)) = false.
Proof.
  unfold SF64div, SFdiv.
  pose proof (div_core_nonneg m1 m2 0 0) as H.
  destruct (SFdiv_core_binary prec emax (Zpos m1) 0 (Zpos m2) 0) as [[mz ez] lz].
  now apply binary_round_aux_not_NaN.
Qed.

Lemma SF64div_finite_opp (m1 m2 : Pos.t) :
  SFopp (SF64div (S754_finite false m1 0) (S754_finite false m2 0))
  = SF64div (S754_finite true m1 0) (S754_finite false m2 0).
Proof.
  unfold SF64div, SFdiv.
  destruct (SFdiv_core_binary prec emax (Zpos m1) 0 (Zpos m2) 0) as [[mz ez] lz].
  apply binary_round_aux_opp.
Qed.

Lemma decimalToNumber_not_NaN (neg : bool) (d e : Z) :
  isNaN (decimalToNumber neg d e) = false.
Proof.
  unfold decimalToNumber. destruct d as [|p|p]; try reflexivity.
  destruct (310 <? _); [reflexivity|].
  destruct (_ <? -330); [reflexivity|].
  destruct (0 <=? e).
  - apply binary_round_not_NaN.
  - apply SF64div_finite_not_NaN.
Qed.

Lemma decimalToNumber_opp (d e : Z) :
  SFopp (decimalToNumber false d e) = decimalToNumber true d e.
Proof.
  unfold decimalToNumber. destruct d as [|p|p]; try reflexivity.
  destruct (310 <? _); [reflexivity|].
  destruct (_ <? -330); [reflexivity|].
  destruct (0 <=? e).
  - apply binary_round_opp.
  - apply SF64div_finite_opp.
Qed.

Lemma span_app_digits (x rest : jsstring) :
  forallb isDigit x = true ->
  match rest with [] => true | c :: _ => negb (isDigit c) end = true ->
  span isDigit (x ++ rest)%list = (x, rest).
Proof.
  intros Hx Hr. induction x as [|c x IH]; simpl.
  - destruct rest as [|c r]; [reflexivity|].
    simpl. apply negb_true_iff in Hr. now rewrite Hr.
  - simpl in Hx. apply andb_true_iff in Hx. destruct Hx as [Hc Hx].
    now rewrite Hc, IH.
Qed.

Lemma not_Infinity (a : char16) (r : jsstring) :
  isDigit a = true -> startsWith (a :: r) (js "Infinity") = false.
Proof. intros H. digit_cases H; reflexivity. Qed.

(** [parseFloat] on an unsigned decimal literal, with or without a minus
    sign in front and a percent sign behind. *)
Lemma parseFloat_decimal (neg pct : bool) (ip fp : jsstring) :
  ip <> [] -> forallb isDigit ip = true -> forallb isDigit fp = true ->
  parseFloat ((if neg then [45%N] else [])
              ++ unsignedDecimal ip fp
              ++ (if pct then [37%N] else []))%list
  = decimalToNumber neg (digitsValue (ip ++ fp)%list) (- Z.of_nat (length fp)).
Proof.
  intros Hne Hip Hfp. destruct ip as [|a ip']; [contradiction|]. clear Hne.
  assert (Ha : isDigit a = true)
    by (simpl in Hip; now apply andb_true_iff in Hip).
  set (tail := if pct then [37%N] else []).
  set (rest := (match fp with [] => [] | _ => 46%N :: fp end ++ tail)%list).
  unfold parseFloat.
  match goal with
  | |- context [takeSign ?x] =>
    assert (Hsign : takeSign x = (neg, ((a :: ip') ++ rest)%list))
  end.
  { unfold unsignedDecimal, rest. rewrite <- !app_assoc. destruct neg.
    - reflexivity.
    - cbn [app]. now rewrite (trimStart_digit _ _ Ha), (takeSign_digit _ _ Ha). }
  assert (Hrest : match rest with [] => true | c :: _ => negb (isDigit c) end
                  = true).
  { unfold rest, tail. destruct fp; [now destruct pct|reflexivity]. }
  rewrite Hsign.
  cbn [app]. rewrite (not_Infinity _ _ Ha).
  change (a :: (ip' ++ rest)%list) with ((a :: ip') ++ rest)%list.
  rewrite (span_app_digits _ _ Hip Hrest).
  cbv beta iota zeta.
  match goal with
  | |- context [let '(_, _) := ?x in _] =>
    assert (Hfrac : x = (fp, tail))
  end.
  { unfold rest. destruct fp as [|b fp'].
    - unfold tail. now destruct pct.
    - cbn [app]. apply (span_app_digits (b :: fp') tail); [exact Hfp|].
      unfold tail. now destruct pct. }
  rewrite Hfrac. cbv beta iota zeta. cbn [app].
  replace (0 - Z.of_nat (length fp)) with (- Z.of_nat (length fp)) by lia.
  unfold tail. now destruct pct.
Qed.

Lemma filter_kept_idem (s : jsstring) :
  filter (fun c => negb (isStripped c))
         (filter (fun c => negb (isStripped c)) s)
  = filter (fun c => negb (isStripped c)) s.
Proof.
  induction s as [|c s IH]; simpl; [reflexivity|].
  destruct (negb (isStripped c)) eqn:E; simpl; [|exact IH].
  now rewrite E, IH.
Qed.

Lemma filter_kept (s : jsstring) :
  forallb kept s = true -> filter (fun c => negb (isStripped c)) s = s.
Proof.
  induction s as [|c s IH]; simpl; [reflexivity|].
  intros H. apply andb_true_iff in H. destruct H as [Hc Hs].
  unfold kept in Hc. now rewrite Hc, IH.
Qed.

Lemma kept_not_space (c : char16) : kept c = true -> isWhiteSpace c = false.
Proof.
  unfold kept, isStripped. intros H. apply negb_true_iff in H.
  repeat (apply orb_false_iff in H; destruct H as [H ?]). assumption.
Qed.

Lemma trimStart_kept (s : jsstring) :
  forallb kept s = true -> trimStart s = s.
Proof.
  destruct s as [|c s]; simpl; [reflexivity|].
  intros H. apply andb_true_iff in H. destruct H as [Hc _].
  now rewrite (kept_not_space _ Hc).
Qed.

Lemma forallb_rev (p : char16 -> bool) (s : jsstring) :
  forallb p s = true -> forallb p (rev s) = true.
Proof.
  intros H. apply forallb_forall. intros c Hc. apply in_rev in Hc.
  exact (proj1 (forallb_forall _ _) H c Hc).
Qed.

Lemma trim_kept (s : jsstring) : forallb kept s = true -> trim s = s.
Proof.
  intros H. unfold trim, trimEnd. rewrite (trimStart_kept _ H).
  rewrite (trimStart_kept _ (forallb_rev _ _ H)). apply rev_involutive.
Qed.

Lemma digit_kept (c : char16) : isDigit c = true -> kept c = true.
Proof. intros H. digit_cases H; reflexivity. Qed.

Lemma digits_kept (s : jsstring) :
  forallb isDigit s = true -> forallb kept s = true.
Proof.
  intros H. apply forallb_forall. intros c Hc.
  apply digit_kept. exact (proj1 (forallb_forall _ _) H c Hc).
Qed.

Lemma decimal_kept (ip fp : jsstring) :
  forallb isDigit ip = true -> forallb isDigit fp = true ->
  forallb kept (unsignedDecimal ip fp) = true.
Proof.
  intros Hip Hfp. unfold unsignedDecimal. rewrite forallb_app.
  rewrite (digits_kept _ Hip). destruct fp as [|b fp']; [reflexivity|].
  cbn [forallb andb]. change (kept 46%N) with true.
  exact (digits_kept _ Hfp).
Qed.

Lemma decimal_first (ip fp : jsstring) :
  ip <> [] -> forallb isDigit ip = true ->
  exists a r, unsignedDecimal ip fp = a :: r /\ isDigit a = true.
Proof.
  intros Hne Hip. destruct ip as [|a ip']; [contradiction|].
  exists a, (ip' ++ match fp with [] => [] | _ => 46%N :: fp end)%list.
  split; [reflexivity|]. simpl in Hip. now apply andb_true_iff in Hip.
Qed.

Lemma digits_last (s : jsstring) :
  s <> [] -> forallb isDigit s = true ->
  exists x z, s = (x ++ [z])%list /\ isDigit z = true.
Proof.
  intros Hne Hs. destruct (exists_last Hne) as [x [z E]].
  exists x, z. split; [exact E|].
  apply (proj1 (forallb_forall _ _) Hs). rewrite E. apply in_or_app.
  right. now left.
Qed.

Lemma decimal_last (ip fp : jsstring) :
  ip <> [] -> forallb isDigit ip = true -> forallb isDigit fp = true ->
  exists x z, unsignedDecimal ip fp = (x ++ [z])%list /\ isDigit z = true.
Proof.
  intros Hne Hip Hfp. unfold unsignedDecimal.
  destruct fp as [|b fp'].
  - rewrite app_nil_r. now apply digits_last.
  - destruct (digits_last (b :: fp') ltac:(discriminate) Hfp) as [x [z [E Hz]]].
    exists (ip ++ 46%N :: x)%list, z. split; [|exact Hz].
    rewrite E, <- app_assoc. reflexivity.
Qed.

Lemma startsWith_nil (s : jsstring) : startsWith s [] = true.
Proof. now destruct s. Qed.

Lemma endsWith_last (x : jsstring) (z c : char16) :
  endsWith (x ++ [z])%list [c] = (c =? z)%N.
Proof.
  unfold endsWith. rewrite rev_app_distr. simpl.
  now rewrite startsWith_nil, andb_true_r.
Qed.

Lemma digit_not_sign (z : char16) :
  isDigit z = true ->
  (37 =? z)%N = false /\ (40 =? z)%N = false /\ (45 =? z)%N = false
  /\ (8212 =? z)%N = false.
Proof. intros H. digit_cases H; repeat split. Qed.

Lemma slice_inner (c z : char16) (s : jsstring) :
  slice (c :: s ++ [z])%list 1 (-1) = s.
Proof.
  unfold slice. cbn [length]. rewrite length_app. cbn [length].
  change (1 <? 0) with false. change (-1 <? 0) with true. cbv iota.
  replace (Z.min 1 (Z.of_nat (S (length s + 1)))) with 1 by lia.
  replace (Z.max (Z.of_nat (S (length s + 1)) + -1) 0 - 1)
    with (Z.of_nat (length s)) by lia.
  rewrite Nat2Z.id. change (Z.to_nat 1) with 1%nat. cbn [skipn].
  rewrite firstn_app, firstn_all, Nat.sub_diag. simpl. apply app_nil_r.
Qed.

(** The normaliser on a text made of kept code units only. *)
Lemma cleanNumber_kept (v : jsstring) :
  forallb kept v = true ->
  cleanNumber (VString v) =
  let v' := if startsWith v (js "(") && endsWith v (js ")")
            then (js "-" ++ slice v 1 (-1))%list else v in
  if endsWith v' (js "%") then SF64div (parseFloat v') (numberOfZ 100)
  else if str_eqb v' (js "-") || str_eqb v' (js "—") || str_eqb v' []
  then pos_zero
  else if isNaN (parseFloat v') then pos_zero else parseFloat v'.
Proof.
  intros H. unfold cleanNumber.
  rewrite (filter_kept _ H), (trim_kept _ H). reflexivity.
Qed.

Section DecimalTexts.

Variables ip fp : jsstring.
Hypothesis ip_nonempty : ip <> [].
Hypothesis ip_digits : forallb isDigit ip = true.
Hypothesis fp_digits : forallb isDigit fp = true.

Lemma cleanNumber_decimal :
  cleanNumber (VString (unsignedDecimal ip fp)) = decimalValue ip fp.
Proof.
  rewrite cleanNumber_kept by now apply decimal_kept.
  destruct (decimal_first ip fp ip_nonempty ip_digits) as [a [r [E Ha]]].
  destruct (decimal_last ip fp ip_nonempty ip_digits fp_digits)
    as [x [z [E' Hz]]].
  destruct (digit_not_sign _ Ha) as [_ [Ha40 [Ha45 Ha8212]]].
  destruct (digit_not_sign _ Hz) as [Hz37 _].
  assert (Hp : startsWith (unsignedDecimal ip fp) (js "(") = false).
  { rewrite E. change (js "(") with [40%N]. cbn [startsWith]. now rewrite Ha40. }
  cbv zeta. rewrite Hp. cbn [andb].
  assert (Hpct : endsWith (unsignedDecimal ip fp) (js "%") = false).
  { rewrite E'. change (js "%") with [37%N]. now rewrite endsWith_last. }
  rewrite Hpct.
  assert (H1 : str_eqb (unsignedDecimal ip fp) (js "-") = false).
  { apply str_eqb_neq. rewrite E. change (js "-") with [45%N]. intros H.
    injection H as -> _. discriminate. }
  assert (H2 : str_eqb (unsignedDecimal ip fp) (js "—") = false).
  { apply str_eqb_neq. rewrite E. change (js "—") with [8212%N]. intros H.
    injection H as -> _. discriminate. }
  assert (H3 : str_eqb (unsignedDecimal ip fp) [] = false).
  { apply str_eqb_neq. rewrite E. discriminate. }
  rewrite H1, H2, H3. cbn [orb].
  pose proof (parseFloat_decimal false false ip fp ip_nonempty ip_digits
                                 fp_digits) as Hpf.
  cbn [app] in Hpf. rewrite app_nil_r in Hpf. rewrite Hpf.
  now rewrite decimalToNumber_not_NaN.
Qed.

Lemma cleanNumber_parenthesised :
  cleanNumber (VString (js "(" ++ unsignedDecimal ip fp ++ js ")")%list)
  = SFopp (decimalValue ip fp).
Proof.
  destruct (decimal_first ip fp ip_nonempty ip_digits) as [a [r [E Ha]]].
  destruct (decimal_last ip fp ip_nonempty ip_digits fp_digits)
    as [x [z [E' Hz]]].
  destruct (digit_not_sign _ Hz) as [Hz37 _].
  change (js "(") with [40%N]. change (js ")") with [41%N].
  rewrite cleanNumber_kept
    by (cbn [app forallb]; rewrite forallb_app, decimal_kept by assumption;
        reflexivity).
  change (js "(") with [40%N]. change (js ")") with [41%N].
  change (js "-") with [45%N].
  cbn [app]. cbn [startsWith]. rewrite startsWith_nil.
  change ((40 =? 40)%N && true) with true.
  change (40%N :: (unsignedDecimal ip fp ++ [41%N])%list)
    with ((40%N :: unsignedDecimal ip fp) ++ [41%N])%list.
  rewrite endsWith_last. change ((41 =? 41)%N) with true. cbn [andb].
  cbn [app]. rewrite slice_inner. cbv zeta.
  match goal with
  | |- context [parseFloat ?t] => set (v := t)
  end.
  assert (Ev : v = (45%N :: unsignedDecimal ip fp)) by reflexivity.
  assert (Hpct : endsWith v (js "%") = false).
  { rewrite Ev, E'. change (js "%") with [37%N].
    change (45%N :: (x ++ [z])%list) with ((45%N :: x) ++ [z])%list.
    now rewrite endsWith_last. }
  rewrite Hpct.
  assert (H1 : str_eqb v [45%N] = false).
  { apply str_eqb_neq. rewrite Ev, E. discriminate. }
  assert (H2 : str_eqb v (js "—") = false).
  { apply str_eqb_neq. rewrite Ev. change (js "—") with [8212%N]. intros H.
    injection H as H _. discriminate. }
  assert (H3 : str_eqb v [] = false).
  { apply str_eqb_neq. rewrite Ev. discriminate. }
  rewrite H1, H2, H3. cbn [orb]. rewrite Ev.
  pose proof (parseFloat_decimal true false ip fp ip_nonempty ip_digits
                                 fp_digits) as Hpf.
  cbn [app] in Hpf. rewrite app_nil_r in Hpf. rewrite Hpf.
  rewrite decimalToNumber_not_NaN. unfold decimalValue.
  now rewrite decimalToNumber_opp.
Qed.

Lemma cleanNumber_percentage :
  cleanNumber (VString (unsignedDecimal ip fp ++ js "%")%list)
  = SF64div (decimalValue ip fp) (numberOfZ 100).
Proof.
  destruct (decimal_first ip fp ip_nonempty ip_digits) as [a [r [E Ha]]].
  destruct (digit_not_sign _ Ha) as [_ [Ha40 _]].
  change (js "%") with [37%N].
  rewrite cleanNumber_kept
    by (rewrite forallb_app, decimal_kept by assumption; reflexivity).
  assert (Hp : startsWith (unsignedDecimal ip fp ++ [37%N])%list (js "(")
               = false).
  { rewrite E. change (js "(") with [40%N]. cbn [app startsWith].
    now rewrite Ha40. }
  cbv zeta. rewrite Hp. cbn [andb].
  change (js "%") with [37%N]. rewrite endsWith_last.
  change ((37 =? 37)%N) with true. cbv iota.
  pose proof (parseFloat_decimal false true ip fp ip_nonempty ip_digits
                                 fp_digits) as Hpf.
  cbn [app] in Hpf. now rewrite Hpf.
Qed.

End DecimalTexts.

(** A text whose cleaned form does not end in a percent sign never
    normalises to [NaN]. *)
Lemma cleanNumber_NaN_needs_percent (s : jsstring) :
  isNaN (cleanNumber (VString s)) = true ->
  let v := trim (filter (fun c => negb (isStripped c)) s) in
  endsWith (if startsWith v (js "(") && endsWith v (js ")")
            then (js "-" ++ slice v 1 (-1))%list else v) (js "%") = true.
Proof.
  unfold cleanNumber. cbv zeta.
  destruct (endsWith _ (js "%")); [reflexivity|].
  destruct (_ || _); [discriminate|].
  destruct (isNaN (parseFloat _)) eqn:E; [discriminate|].
  now rewrite E.
Qed.

(** C9: the three vectors, and the rules behind them: the currency signs,
    commas and white space of a text do not change its value; for every
    unsigned decimal literal (digits, with or without a fraction) the
    normaliser returns the Number the literal denotes, the literal in
    parentheses gives the opposite Number, and the literal followed by a
    percent sign gives that Number divided by 100. *)
Theorem cleanNumber_vectors :
  cleanNumber (VString (js "¥1,234.50")) = Prim2SF 1234.5%float
  /\ cleanNumber (VString (js "(500)")) = Prim2SF (-500)%float
  /\ cleanNumber (VString (js "12.5%")) = Prim2SF 0.125%float
  /\ (forall s : jsstring,
        cleanNumber (VString s)
        = cleanNumber (VString (filter (fun c => negb (isStripped c)) s)))
  /\ (forall ip fp : jsstring,
        ip <> [] -> forallb isDigit ip = true -> forallb isDigit fp = true ->
        cleanNumber (VString (unsignedDecimal ip fp)) = decimalValue ip fp
        /\ cleanNumber (VString (js "(" ++ unsignedDecimal ip fp ++ js ")")%list)
           = SFopp (cleanNumber (VString (unsignedDecimal ip fp)))
        /\ cleanNumber (VString (unsignedDecimal ip fp ++ js "%")%list)
           = SF64div (cleanNumber (VString (unsignedDecimal ip fp)))
                     (numberOfZ 100)).
Proof.
  split; [vm_compute; reflexivity|].
  split; [vm_compute; reflexivity|].
  split; [vm_compute; reflexivity|].
  split.
  - intros s. unfold cleanNumber. now rewrite filter_kept_idem.
  - intros ip fp Hne Hip Hfp.
    rewrite (cleanNumber_decimal ip fp Hne Hip Hfp).
    split; [reflexivity|]. split.
    + now apply cleanNumber_parenthesised.
    + now apply cleanNumber_percentage.
Qed.

Lemma cleanNumber_vectors_witness :
  cleanNumber (VString (unsignedDecimal (js "1234") (js "50")))
  = decimalValue (js "1234") (js "50")
  /\ cleanNumber
       (VString (js "(" ++ unsignedDecimal (js "1234") (js "50") ++ js ")")%list)
     = SFopp (cleanNumber (VString (unsignedDecimal (js "1234") (js "50"))))
  /\ cleanNumber (VString (unsignedDecimal (js "1234") (js "50") ++ js "%")%list)
     = SF64div (cleanNumber (VString (unsignedDecimal (js "1234") (js "50"))))
               (numberOfZ 100).
Proof.
  apply (proj2 (proj2 (proj2 (proj2 cleanNumber_vectors)))
               (js "1234") (js "50")).
  - discriminate.
  - reflexivity.
  - reflexivity.
Defined.

(** C3: the normaliser does not return zero on every string that fails to
    parse. A cleaned text ending in a percent sign is divided by 100 without
    the [isNaN] test of the other branch: ["%"] and ["abc%"] give [NaN]. *)
Theorem cleanNumber_percent_is_NaN :
  cleanNumber (VString (js "%")) = NaN
  /\ cleanNumber (VString (js "abc%")) = NaN
  /\ cleanNumber (VString (js "abc")) = pos_zero.
Proof.
  split; [ | split ]; vm_compute; reflexivity.
Qed.

(** Cells that are neither numbers nor strings normalise to zero, and a
    number is returned as it is. *)
Lemma cleanNumber_other_cells (b : bool) (x : number) :
  cleanNumber VUndefined = pos_zero
  /\ cleanNumber VNull = pos_zero
  /\ cleanNumber (VBoolean b) = pos_zero
  /\ cleanNumber VObject = pos_zero
  /\ cleanNumber (VNumber x) = x.
Proof.
  split; [ | split; [ | split; [ | split ] ] ]; reflexivity.
Qed.

(* ===================================================================== *)
(** ** Metric identification *)
(* ===================================================================== *)

Lemma identifyMetric_nonempty (RULES : RuleTable) (label : jsstring) :
  label <> [] ->
  identifyMetric RULES label =
  if includes (trim label) (js "主营业务构成")
     || includes (trim label) (js "Business Composition")
  then Some BusinessComposition
  else matchRules RULES (trim label).
Proof.
  destruct label; [contradiction|reflexivity].
Qed.

Lemma includes_nonempty (s : jsstring) (c : char16) (k : jsstring) :
  includes s (c :: k) = true -> s <> [].
Proof.
  intros H ->. discriminate.
Qed.

Lemma containsAny_of (s w : jsstring) (words : list jsstring) :
  includes s w = true -> existsb (str_eqb w) words = true ->
  containsAny s words = true.
Proof.
  intros Hs Hw. apply existsb_exists in Hw. destruct Hw as [w' [Hin E]].
  apply str_eqb_eq in E. subst w'.
  apply existsb_exists. now exists w.
Qed.

Lemma containsAny_trim_sub (s : jsstring) (words : list jsstring) :
  containsAny s words = false -> containsAny (trim s) words = false.
Proof.
  intros H. destruct (containsAny (trim s) words) eqn:E; [|reflexivity].
  apply existsb_exists in E. destruct E as [w [Hin Hw]].
  apply includes_trim_sub in Hw.
  assert (containsAny s words = true) by (apply existsb_exists; now exists w).
  congruence.
Qed.

(** A label that carries a negative key word of every rule matches none. *)
Lemma matchRules_all_negative (rules : RuleTable) (s : jsstring) :
  forallb (fun kr => containsAny s (negative (snd kr))) rules = true ->
  matchRules rules s = None.
Proof.
  induction rules as [|[key r] rest IH]; simpl; [reflexivity|].
  intros H. apply andb_true_iff in H. destruct H as [Hn Hrest].
  unfold containsAny in Hn. rewrite Hn. now apply IH.
Qed.

(** The first rule wins when none of its negative key words and one of its
    positive key words is in the label. *)
Lemma matchRules_head (key : Key.t) (r : MetricRule) (rest : RuleTable)
  (s : jsstring) :
  containsAny s (negative r) = false ->
  containsAny s (positive r) = true ->
  matchRules ((key, r) :: rest) s = Some (Metric key).
Proof.
  unfold containsAny. intros Hn Hp. simpl. now rewrite Hn, Hp.
Qed.

(** The key word "率" is a negative key word of every rule of the table. *)
Lemma rate_is_negative_everywhere :
  forallb (fun kr => existsb (str_eqb (js "率")) (negative (snd kr)))
          METRIC_RULES = true.
Proof. vm_compute; reflexivity. Qed.

(** C4, as the claim states it, fails in its second half: the label
    "主营业务构成营业收入" contains "营业收入" and no negative key word of the
    revenue rule, and it resolves to the composition marker, not to
    revenue. *)
Lemma composition_label_is_not_revenue :
  includes (js "主营业务构成营业收入") (js "营业收入") = true
  /\ containsAny (js "主营业务构成营业收入")
                 (negative (ruleOf METRIC_RULES Key.revenue)) = false
  /\ identifyMetric METRIC_RULES (js "主营业务构成营业收入")
     = Some BusinessComposition
  /\ identifyMetric METRIC_RULES (js "主营业务构成营业收入")
     <> Some (Metric Key.revenue).
Proof.
  assert (H : identifyMetric METRIC_RULES (js "主营业务构成营业收入")
              = Some BusinessComposition) by (vm_compute; reflexivity).
  split; [vm_compute; reflexivity|].
  split; [vm_compute; reflexivity|].
  split; [exact H|rewrite H; discriminate].
Qed.

(** C4 (amended): among the labels that contain neither business-composition
    phrase, every label containing "营业收入" and "增长率" resolves to none
    (every rule of the table has a negative key word in it), and every label
    containing "营业收入" and no negative key word of the revenue rule
    resolves to revenue. *)
Theorem identify_revenue_labels (label : jsstring) :
  includes label (js "主营业务构成") = false ->
  includes label (js "Business Composition") = false ->
  includes label (js "营业收入") = true ->
  (includes label (js "增长率") = true ->
   identifyMetric METRIC_RULES label = None)
  /\ (containsAny label (negative (ruleOf METRIC_RULES Key.revenue)) = false ->
      identifyMetric METRIC_RULES label = Some (Metric Key.revenue)).
Proof.
  intros Hc1 Hc2 Hrev.
  assert (Hne : label <> []) by exact (includes_nonempty _ _ _ Hrev).
  assert (Hid : identifyMetric METRIC_RULES label
                = matchRules METRIC_RULES (trim label)).
  { rewrite (identifyMetric_nonempty _ _ Hne).
    rewrite !includes_trim by (vm_compute; reflexivity).
    now rewrite Hc1, Hc2. }
  rewrite Hid. split.
  - intros Hgrow. apply matchRules_all_negative.
    apply forallb_forall. intros kr Hin.
    apply containsAny_of with (w := js "率").
    + rewrite includes_trim by (vm_compute; reflexivity).
      apply includes_trans with (k := js "增长率"); [exact Hgrow|].
      vm_compute; reflexivity.
    + exact (proj1 (forallb_forall _ _) rate_is_negative_everywhere kr Hin).
  - intros Hneg.
    change METRIC_RULES
      with ((Key.revenue, ruleOf METRIC_RULES Key.revenue) :: tl METRIC_RULES)
      at 1.
    apply matchRules_head.
    + now apply containsAny_trim_sub.
    + apply containsAny_of with (w := js "营业收入").
      * rewrite includes_trim by (vm_compute; reflexivity). exact Hrev.
      * vm_compute; reflexivity.
Qed.

Lemma identify_revenue_labels_witness :
  identifyMetric METRIC_RULES (js "营业收入增长率") = None
  /\ identifyMetric METRIC_RULES (js "  营业收入（万元）") = Some (Metric Key.revenue).
Proof.
  split.
  - apply (identify_revenue_labels (js "营业收入增长率")); vm_compute; reflexivity.
  - apply (identify_revenue_labels (js "  营业收入（万元）")); vm_compute; reflexivity.
Defined.

(* ===================================================================== *)
(** ** Orientation detection *)
(* ===================================================================== *)

(** A row that the detection loop accepts at index [r] ends the scan there,
    whatever follows it. *)
Lemma detectFrom_head (RULES : RuleTable) (row : Row) (rest : list Row)
  (r : nat) (s : Strategy) :
  detectRow RULES row = Some s ->
  detectFrom RULES (row :: rest) r = Some (s, r).
Proof.
  intros H. simpl. rewrite H. reflexivity.
Qed.

(** A row that the loop rejects hands the scan over to the next row. *)
Lemma detectFrom_skip (RULES : RuleTable) (row : Row) (rest : list Row)
  (r : nat) :
  detectRow RULES row = None ->
  detectFrom RULES (row :: rest) r = detectFrom RULES rest (S r).
Proof.
  intros H. simpl. rewrite H. reflexivity.
Qed.

(** C1, as the claim states it, fails: the row
    ["年份","营业收入","净利润","总资产"] is not classified VERTICAL. Only two of
    its cells identify as metrics, so a sheet made of that row has no
    strategy at all. *)
Lemma vertical_example_not_detected :
  identifiedCount METRIC_RULES verticalHeaderExample = 2%nat
  /\ detectStrategy METRIC_RULES [verticalHeaderExample] = None
  /\ detectStrategy METRIC_RULES [verticalHeaderExample]
     <> Some (VERTICAL, 0%nat).
Proof.
  split; [ vm_compute; reflexivity | ].
  assert (H : detectStrategy METRIC_RULES [verticalHeaderExample] = None)
    by (vm_compute; reflexivity).
  split; [ exact H | rewrite H; discriminate ].
Qed.

(** C1 (amended): every sheet whose first row is
    ["科目","2020","2021","2022"] is HORIZONTAL with that row as header. The
    row ["年份","营业收入","净利润","总资产"] identifies in two cells only
    (revenue and total assets; "净利润" matches no rule), which is below the
    threshold of three: the scan passes over it to the rows that follow.
    With "归母净利润" in the place of "净利润" three cells identify and every
    sheet with that first row is VERTICAL with that row as header. *)
Theorem detect_examples :
  (forall rest : list Row,
     detectStrategy METRIC_RULES (horizontalHeaderExample :: rest)
     = Some (HORIZONTAL, 0%nat))
  /\ map (fun c => identifyMetric METRIC_RULES (trim (String_ c)))
         verticalHeaderExample
     = [None; Some (Metric Key.revenue); None; Some (Metric Key.totalAssets)]
  /\ detectRow METRIC_RULES verticalHeaderExample = None
  /\ (forall rest : list Row,
        detectStrategy METRIC_RULES (verticalHeaderExample :: rest)
        = detectFrom METRIC_RULES (firstn 29 rest) 1)
  /\ (forall rest : list Row,
        detectStrategy METRIC_RULES (verticalHeaderParentExample :: rest)
        = Some (VERTICAL, 0%nat)).
Proof.
  assert (Hh : detectRow METRIC_RULES horizontalHeaderExample = Some HORIZONTAL)
    by (vm_compute; reflexivity).
  assert (Hv : detectRow METRIC_RULES verticalHeaderExample = None)
    by (vm_compute; reflexivity).
  assert (Hp : detectRow METRIC_RULES verticalHeaderParentExample
               = Some VERTICAL)
    by (vm_compute; reflexivity).
  split; [ | split; [ | split; [ | split ] ] ].
  - intros rest. unfold detectStrategy.
    change (firstn 30 (horizontalHeaderExample :: rest))
      with (horizontalHeaderExample :: firstn 29 rest).
    now apply detectFrom_head.
  - vm_compute; reflexivity.
  - exact Hv.
  - intros rest. unfold detectStrategy.
    change (firstn 30 (verticalHeaderExample :: rest))
      with (verticalHeaderExample :: firstn 29 rest).
    now apply detectFrom_skip.
  - intros rest. unfold detectStrategy.
    change (firstn 30 (verticalHeaderParentExample :: rest))
      with (verticalHeaderParentExample :: firstn 29 rest).
    now apply detectFrom_head.
Qed.

(* ===================================================================== *)
(** ** The partial-record map *)
(* ===================================================================== *)

Lemma lookupYear_In (y : jsstring) (m : YearDataMap) (d : FinancialYearData) :
  lookupYear y m = Some d -> In (y, d) m.
Proof.
  induction m as [|[k p] m IH]; simpl; [discriminate|].
  destruct (str_eqb k y) eqn:E.
  - apply str_eqb_eq in E. intros H. injection H as ->. subst. now left.
  - intros H. right. now apply IH.
Qed.

Lemma lookupYear_None (y : jsstring) (m : YearDataMap) :
  lookupYear y m = None -> ~ In y (map fst m).
Proof.
  induction m as [|[k p] m IH]; simpl; [tauto|].
  destruct (str_eqb k y) eqn:E; [discriminate|].
  apply str_eqb_neq in E. intros H [Hk|Hin]; [contradiction|].
  now apply IH.
Qed.

Lemma lookupYear_unique (y : jsstring) (m : YearDataMap) (d : FinancialYearData) :
  NoDup (map fst m) -> In (y, d) m -> lookupYear y m = Some d.
Proof.
  induction m as [|[k p] m IH]; simpl; [tauto|].
  intros Hnd Hin. inversion Hnd as [|? ? Hnin Hnd']; subst.
  destruct Hin as [E|Hin].
  - injection E as -> ->. now rewrite str_eqb_refl.
  - destruct (str_eqb k y) eqn:E.
    + apply str_eqb_eq in E. subst k. exfalso. apply Hnin.
      change y with (fst (y, d)). now apply in_map.
    + now apply IH.
Qed.

Lemma updateYear_keys (y : jsstring)
  (f : FinancialYearData -> FinancialYearData) (m : YearDataMap) :
  map fst (updateYear y f m) = map fst m.
Proof.
  induction m as [|[k p] m IH]; simpl; [reflexivity|].
  destruct (str_eqb k y); simpl; [reflexivity|now rewrite IH].
Qed.

Lemma updateYear_In (y : jsstring)
  (f : FinancialYearData -> FinancialYearData) (m : YearDataMap)
  (k : jsstring) (d' : FinancialYearData) :
  In (k, d') (updateYear y f m) ->
  exists d, In (k, d) m /\ (d' = d \/ (k = y /\ d' = f d)).
Proof.
  induction m as [|[k0 p] m IH]; simpl; [tauto|].
  destruct (str_eqb k0 y) eqn:E.
  - apply str_eqb_eq in E. subst k0. intros [H|H].
    + injection H as <- <-. exists p. split; [now left|now right].
    + exists d'. split; [now right|now left].
  - intros [H|H].
    + injection H as <- <-. exists p. split; [now left|now left].
    + destruct (IH H) as [d [Hin Hd]]. exists d. split; [now right|exact Hd].
Qed.

(** The record bound to [y] after an update is the image of the one bound
    before; the other bindings are as before. *)
Lemma lookupYear_update (y : jsstring)
  (f : FinancialYearData -> FinancialYearData) (m : YearDataMap)
  (k : jsstring) :
  lookupYear k (updateYear y f m) =
  if str_eqb y k then option_map f (lookupYear k m) else lookupYear k m.
Proof.
  induction m as [|[k0 p] m IH]; simpl.
  - now destruct (str_eqb y k).
  - destruct (str_eqb k0 y) eqn:E; simpl.
    + apply str_eqb_eq in E. subst k0.
      destruct (str_eqb y k) eqn:E'; [reflexivity|reflexivity].
    + destruct (str_eqb k0 k) eqn:E'.
      * apply str_eqb_eq in E'. subst k0.
        destruct (str_eqb y k) eqn:E2; [|reflexivity].
        apply str_eqb_eq in E2. subst y. rewrite str_eqb_refl in E. discriminate.
      * exact IH.
Qed.

Lemma wellKeyed_nil : wellKeyed [].
Proof.
  split; [constructor|]. intros k d [].
Qed.

Lemma wellKeyed_update (y : jsstring)
  (f : FinancialYearData -> FinancialYearData) (m : YearDataMap) :
  (forall d, year (f d) = year d) ->
  (forall d, capexOK d -> capexOK (f d)) ->
  wellKeyed m -> wellKeyed (updateYear y f m).
Proof.
  intros Hy Hc [Hnd Hm]. split.
  - now rewrite updateYear_keys.
  - intros k d' Hin.
    destruct (updateYear_In _ _ _ _ _ Hin) as [d [Hd [->|[-> ->]]]].
    + now apply Hm.
    + destruct (Hm _ _ Hd) as [H1 [H2 H3]].
      split; [now rewrite Hy|]. split; [exact H2|now apply Hc].
Qed.

Lemma wellKeyed_ensure (y : jsstring) (m : YearDataMap) :
  fourDigits y = true -> wellKeyed m -> wellKeyed (ensureYear y m).
Proof.
  intros Hy [Hnd Hm]. unfold ensureYear.
  destruct (lookupYear y m) eqn:E; [now split|].
  apply lookupYear_None in E. split.
  - rewrite map_app. simpl.
    rewrite <- (rev_involutive (map fst m ++ [y])%list).
    apply NoDup_rev. rewrite rev_app_distr. simpl.
    constructor; [now rewrite <- in_rev|now apply NoDup_rev].
  - intros k d Hin. apply in_app_or in Hin. destruct Hin as [Hin|[Hin|[]]].
    + now apply Hm.
    + injection Hin as <- <-.
      split; [reflexivity|split; [exact Hy|exact I]].
Qed.

Lemma setMetric_year (key : Key.t) (v : number) (d : FinancialYearData) :
  year (setMetric key v d) = year d.
Proof. reflexivity. Qed.

Lemma setMetric_composition (key : Key.t) (v : number) (d : FinancialYearData) :
  businessComposition (setMetric key v d) = businessComposition d.
Proof. reflexivity. Qed.

Lemma getMetric_setMetric (key k : Key.t) (v : number) (d : FinancialYearData) :
  getMetric k (setMetric key v d) =
  if Key.eqb k key then Some v else getMetric k d.
Proof. destruct k; reflexivity. Qed.

Lemma Math_abs_idem (v : number) : Math_abs (Math_abs v) = Math_abs v.
Proof. now destruct v. Qed.

Lemma wellKeyed_write (y : jsstring) (key : Key.t) (v : number)
  (m : YearDataMap) :
  wellKeyed m -> wellKeyed (writeMetric y key v m).
Proof.
  intros Hm. unfold writeMetric.
  destruct key; apply wellKeyed_update; trivial;
    try (intros d Hd; exact Hd).
  intros d _. unfold capexOK. simpl. apply Math_abs_idem.
Qed.

Lemma matchFourDigits_four (s y : jsstring) :
  matchFourDigits s = Some y -> fourDigits y = true.
Proof.
  induction s as [|a s IH]; simpl; [discriminate|].
  destruct s as [|b [|c [|d r]]]; try discriminate.
  destruct (isDigit a && isDigit b && isDigit c && isDigit d) eqn:E.
  - intros H. injection H as <-. exact E.
  - exact IH.
Qed.

Lemma matchLeadingFourDigits_four (s y : jsstring) :
  matchLeadingFourDigits s = Some y -> fourDigits y = true.
Proof.
  destruct s as [|a [|b [|c [|d r]]]]; try discriminate. simpl.
  destruct (isDigit a && isDigit b && isDigit c && isDigit d) eqn:E;
    [|discriminate].
  intros H. injection H as <-. exact E.
Qed.

Lemma yearColumns_four (cells : Row) (idx : nat) :
  Forall (fun e => fourDigits (snd e) = true) (yearColumns cells idx).
Proof.
  revert idx. induction cells as [|cell rest IH]; intros idx; simpl;
    [constructor|].
  destruct (matchFourDigits (trim (String_ cell))) as [y|] eqn:E; [|apply IH].
  destruct (includes (trim (String_ cell)) (js "20")
            || includes (trim (String_ cell)) (js "19")); [|apply IH].
  constructor; [|apply IH]. simpl. exact (matchFourDigits_four _ _ E).
Qed.

(** A fold that keeps an invariant at every step keeps it overall. *)
Lemma fold_left_invariant (A B : Type) (P : A -> Prop) (f : A -> B -> A)
  (l : list B) (a : A) :
  (forall a b, In b l -> P a -> P (f a b)) -> P a -> P (fold_left f l a).
Proof.
  revert a. induction l as [|b l IH]; intros a Hf Ha; simpl; [exact Ha|].
  apply IH.
  - intros a' b' Hb'. apply Hf. now right.
  - apply Hf; [now left|exact Ha].
Qed.

Section MapInvariant.

Variable RULES : RuleTable.

Lemma wellKeyed_horizontalRow (yearColMap : list (nat * jsstring))
  (m : YearDataMap) (row : Row) :
  Forall (fun e => fourDigits (snd e) = true) yearColMap ->
  wellKeyed m -> wellKeyed (horizontalRow RULES yearColMap m row).
Proof.
  intros Hy Hm. unfold horizontalRow.
  destruct (identifyMetric RULES _) as [[key|]|]; trivial.
  apply fold_left_invariant; [|exact Hm].
  intros a [colIdx y] Hin Ha.
  apply wellKeyed_write, wellKeyed_ensure; [|exact Ha].
  exact (proj1 (Forall_forall _ _) Hy _ Hin).
Qed.

Lemma wellKeyed_verticalCell (row : Row) (y : jsstring) (m : YearDataMap)
  (entry : nat * MetricId) :
  wellKeyed m -> wellKeyed (verticalCell row y m entry).
Proof.
  intros Hm. destruct entry as [colIdx [key|]]; simpl.
  - now apply wellKeyed_write.
  - apply wellKeyed_update; trivial.
Qed.

Lemma wellKeyed_verticalRow (metricColMap : list (nat * MetricId))
  (m : YearDataMap) (row : Row) :
  wellKeyed m -> wellKeyed (verticalRow metricColMap m row).
Proof.
  intros Hm. unfold verticalRow.
  destruct (matchLeadingFourDigits _) as [y|] eqn:E; [|exact Hm].
  apply fold_left_invariant.
  - intros a b _. apply wellKeyed_verticalCell.
  - apply wellKeyed_ensure; [|exact Hm].
    exact (matchLeadingFourDigits_four _ _ E).
Qed.

Lemma wellKeyed_processSheet (m : YearDataMap) (rows : Sheet) :
  wellKeyed m -> wellKeyed (processSheet RULES m rows).
Proof.
  intros Hm. unfold processSheet.
  destruct rows as [|row0 rows']; [exact Hm|].
  destruct (detectStrategy RULES (row0 :: rows')) as [[[|] h]|]; [| |exact Hm].
  - apply fold_left_invariant; [|exact Hm].
    intros a b _. apply wellKeyed_horizontalRow. apply yearColumns_four.
  - apply fold_left_invariant; [|exact Hm].
    intros a b _. apply wellKeyed_verticalRow.
Qed.

Lemma wellKeyed_processFiles (files : list File) (m m' : YearDataMap) :
  wellKeyed m -> processFiles RULES files m = inr m' -> wellKeyed m'.
Proof.
  revert m. induction files as [|file rest IH]; intros m Hm; simpl.
  - intros H. injection H as <-. exact Hm.
  - destruct (workbook file) as [sheets|]; [|discriminate].
    apply IH. apply fold_left_invariant; [|exact Hm].
    intros a b _. apply wellKeyed_processSheet.
Qed.

(** When every file can be read the loop over the files ends with a map. *)
Lemma processFiles_total (files : list File) (m : YearDataMap) :
  readable files = true -> exists m', processFiles RULES files m = inr m'.
Proof.
  revert m. induction files as [|file rest IH]; intros m; simpl.
  - intros _. now exists m.
  - destruct (workbook file) as [sheets|]; simpl; [|discriminate].
    intros H. apply IH. exact H.
Qed.

End MapInvariant.

(* ===================================================================== *)
(** ** The composition column of a vertical sheet *)
(* ===================================================================== *)

Lemma split_no_separator (isSep : char16 -> bool) (s : jsstring) :
  forallb (fun c => negb (isSep c)) s = true -> JSString.split isSep s = [s].
Proof.
  induction s as [|c s IH]; simpl; [reflexivity|].
  intros H. apply andb_true_iff in H. destruct H as [Hc Hs].
  apply negb_true_iff in Hc. now rewrite Hc, IH.
Qed.

Lemma notSeparator_item (s : jsstring) :
  forallb notSeparator s = true ->
  forallb (fun c => negb (isItemSep c)) s = true.
Proof.
  intros H. apply forallb_forall. intros c Hc.
  pose proof (proj1 (forallb_forall _ _) H c Hc) as Hn.
  unfold notSeparator in Hn. now destruct (isItemSep c).
Qed.

Lemma notSeparator_part (s : jsstring) :
  forallb notSeparator s = true ->
  forallb (fun c => negb (isPartSep c)) s = true.
Proof.
  intros H. apply forallb_forall. intros c Hc.
  pose proof (proj1 (forallb_forall _ _) H c Hc) as Hn.
  unfold notSeparator in Hn. destruct (isPartSep c); [|reflexivity].
  now rewrite orb_true_r in Hn.
Qed.

(** A text without [;] and [:] (of either width) has no items. *)
Lemma parseBusinessComposition_plain (s : jsstring) :
  forallb notSeparator s = true -> parseBusinessComposition s = [].
Proof.
  intros H. unfold parseBusinessComposition.
  destruct s as [|c r] eqn:E; [reflexivity|]. rewrite <- E in *.
  rewrite (split_no_separator _ _ (notSeparator_item _ H)). simpl.
  unfold parseItem.
  now rewrite (split_no_separator _ _ (notSeparator_part _ H)).
Qed.

Lemma notSeparator_digitChar (d : Z) : notSeparator (digitChar d) = true.
Proof.
  unfold notSeparator, isItemSep, isPartSep, digitChar.
  pose proof (Z.mod_pos_bound d 10 ltac:(lia)) as Hd.
  apply negb_true_iff. rewrite !orb_false_iff, !N.eqb_neq. lia.
Qed.

Lemma notSeparator_lastDigits (k : nat) (n : Z) (acc : jsstring) :
  forallb notSeparator acc = true ->
  forallb notSeparator (lastDigits k n acc) = true.
Proof.
  revert n acc. induction k as [|k IH]; intros n acc H; simpl; [exact H|].
  apply IH. simpl. now rewrite notSeparator_digitChar.
Qed.

Lemma notSeparator_zeros (n : Z) : forallb notSeparator (zeros n) = true.
Proof.
  unfold zeros. induction (Z.to_nat n) as [|k IH]; simpl; [reflexivity|exact IH].
Qed.

Lemma forallb_firstn (p : char16 -> bool) (n : nat) (s : jsstring) :
  forallb p s = true -> forallb p (firstn n s) = true.
Proof.
  revert s. induction n as [|n IH]; intros [|c s]; simpl; trivial.
  intros H. apply andb_true_iff in H. destruct H as [Hc Hs].
  now rewrite Hc, IH.
Qed.

Lemma forallb_skipn (p : char16 -> bool) (n : nat) (s : jsstring) :
  forallb p s = true -> forallb p (skipn n s) = true.
Proof.
  revert s. induction n as [|n IH]; intros [|c s]; simpl; trivial.
  intros H. apply andb_true_iff in H. destruct H as [Hc Hs]. now apply IH.
Qed.

Lemma notSeparator_formatDecimal (s k n : Z) :
  forallb notSeparator (formatDecimal s k n) = true.
Proof.
  unfold formatDecimal.
  assert (Hds : forallb notSeparator (lastDigits (Z.to_nat k) s []) = true)
    by now apply notSeparator_lastDigits.
  assert (Hint : forall z, forallb notSeparator (integerString z) = true)
    by (intros z; now apply notSeparator_lastDigits).
  assert (Hsign : forall b : bool,
            notSeparator (if b then 45%N else 43%N) = true)
    by (now intros []).
  repeat match goal with
         | |- context [if ?b then _ else _] => destruct b
         end;
    rewrite ?forallb_app; cbn [forallb];
    rewrite ?Hds, ?Hint, ?notSeparator_zeros, ?forallb_firstn, ?forallb_skipn
      by assumption;
    reflexivity.
Qed.

(** The text of a number has no separator in it. *)
Lemma notSeparator_Number_toString (x : number) :
  forallb notSeparator (Number_toString x) = true.
Proof.
  destruct x as [s|s| |s m e]; try reflexivity.
  - now destruct s.
  - unfold Number_toString.
    destruct (shortestDecimal _ _ _ _ _) as [[d k] n].
    rewrite forallb_app, notSeparator_formatDecimal. now destruct s.
Qed.

(** An empty cell and a cell that is not a text parse to no items. *)
Lemma parseBusinessComposition_not_text (cell : jsvalue) :
  emptyOrNotText cell = true ->
  parseBusinessComposition (String_ cell) = [].
Proof.
  destruct cell as [| |b|x|s|]; simpl; intros H.
  - reflexivity.
  - reflexivity.
  - now destruct b.
  - apply parseBusinessComposition_plain, notSeparator_Number_toString.
  - destruct s; [reflexivity|discriminate].
  - reflexivity.
Qed.

Lemma verticalCell_update (row : Row) (y : jsstring) (m : YearDataMap)
  (entry : nat * MetricId) :
  verticalCell row y m entry = updateYear y (cellUpdate row entry) m.
Proof.
  destruct entry as [colIdx [key|]]; [|reflexivity].
  unfold verticalCell, cellUpdate, writeMetric. now destruct key.
Qed.

(** One column step rewrites the record of the row's year and no other. *)
Lemma verticalCell_lookup (row : Row) (y : jsstring) (m : YearDataMap)
  (entry : nat * MetricId) (k : jsstring) :
  lookupYear k (verticalCell row y m entry) =
  if str_eqb y k then option_map (cellUpdate row entry) (lookupYear k m)
  else lookupYear k m.
Proof.
  rewrite verticalCell_update. apply lookupYear_update.
Qed.

Lemma lookupYear_app (y : jsstring) (m1 m2 : YearDataMap) :
  lookupYear y (m1 ++ m2)%list =
  match lookupYear y m1 with
  | Some d => Some d
  | None => lookupYear y m2
  end.
Proof.
  induction m1 as [|[k p] m1 IH]; simpl; [reflexivity|].
  now destruct (str_eqb k y).
Qed.

Lemma lookupYear_ensure (y : jsstring) (m : YearDataMap) :
  lookupYear y (ensureYear y m) =
  match lookupYear y m with
  | Some d => Some d
  | None => Some (newYear y)
  end.
Proof.
  unfold ensureYear. destruct (lookupYear y m) eqn:E; [exact E|].
  rewrite lookupYear_app, E. simpl. now rewrite str_eqb_refl.
Qed.

(** Folding the column steps over the record of the row's year. *)
Lemma verticalCells_lookup (row : Row) (y : jsstring)
  (cols : list (nat * MetricId)) (m : YearDataMap) (d : FinancialYearData) :
  lookupYear y m = Some d ->
  lookupYear y (fold_left (verticalCell row y) cols m)
  = Some (fold_left (fun r e => cellUpdate row e r) cols d).
Proof.
  revert m d. induction cols as [|e cols IH]; intros m d H; simpl; [exact H|].
  apply IH. rewrite verticalCell_lookup, str_eqb_refl, H. reflexivity.
Qed.

Lemma metricColumns_keep_composition (row : Row)
  (cols : list (nat * MetricId)) (d : FinancialYearData) :
  forallb isMetricColumn cols = true ->
  businessComposition (fold_left (fun r e => cellUpdate row e r) cols d)
  = businessComposition d.
Proof.
  revert d. induction cols as [|[c [key|]] cols IH]; intros d H; simpl in *;
    [reflexivity| |discriminate].
  rewrite IH by exact H. unfold cellUpdate. simpl. now destruct key.
Qed.

(** C10: for a data row of a vertical sheet with a leading four-digit year,
    the step of a column mapped to the composition marker replaces the
    composition list of that year's record by the parse of the cell,
    whatever the list was, and touches no other year; after the row the list
    is the parse of the cell of the last such column. An empty cell and a
    cell that is not a text (number, boolean, null, missing, plain object)
    parse to the empty list, so that after the row the record of the year
    has no composition left, whatever earlier rows and sheets collected. *)
Theorem composition_replaced (row : Row) (y : jsstring) (m : YearDataMap) :
  matchLeadingFourDigits (trim (String_ (cellAt row 0))) = Some y ->
  (forall (colIdx : nat) (d : FinancialYearData),
     lookupYear y m = Some d ->
     lookupYear y (verticalCell row y m (colIdx, BusinessComposition))
     = Some (setComposition
               (parseBusinessComposition (String_ (cellAt row colIdx))) d)
     /\ forall k, k <> y ->
          lookupYear k (verticalCell row y m (colIdx, BusinessComposition))
          = lookupYear k m)
  /\ (forall (before after : list (nat * MetricId)) (colIdx : nat),
        forallb isMetricColumn after = true ->
        exists d,
          lookupYear y
            (verticalRow (before ++ (colIdx, BusinessComposition) :: after)%list
                         m row) = Some d
          /\ businessComposition d
             = parseBusinessComposition (String_ (cellAt row colIdx)))
  /\ (forall colIdx : nat,
        emptyOrNotText (cellAt row colIdx) = true ->
        parseBusinessComposition (String_ (cellAt row colIdx)) = [])
  /\ (forall (before after : list (nat * MetricId)) (colIdx : nat),
        forallb isMetricColumn after = true ->
        emptyOrNotText (cellAt row colIdx) = true ->
        exists d,
          lookupYear y
            (verticalRow (before ++ (colIdx, BusinessComposition) :: after)%list
                         m row) = Some d
          /\ businessComposition d = []).
Proof.
  intros Hy.
  assert (Hrow : forall (before after : list (nat * MetricId)) (colIdx : nat),
             forallb isMetricColumn after = true ->
             exists d,
               lookupYear y
                 (verticalRow
                    (before ++ (colIdx, BusinessComposition) :: after)%list
                    m row) = Some d
               /\ businessComposition d
                  = parseBusinessComposition (String_ (cellAt row colIdx))).
  { intros before after colIdx Hafter. unfold verticalRow. rewrite Hy.
    pose proof (lookupYear_ensure y m) as He.
    destruct (lookupYear y (ensureYear y m)) as [d0|] eqn:E0;
      [|destruct (lookupYear y m); discriminate].
    rewrite (verticalCells_lookup row y _ _ d0 E0).
    eexists. split; [reflexivity|].
    rewrite fold_left_app. cbn [fold_left].
    rewrite metricColumns_keep_composition by exact Hafter.
    reflexivity. }
  split; [|split; [exact Hrow|split]].
  - intros colIdx d Hd. split.
    + rewrite verticalCell_lookup, str_eqb_refl, Hd. reflexivity.
    + intros k Hk. rewrite verticalCell_lookup.
      destruct (str_eqb y k) eqn:E; [|reflexivity].
      apply str_eqb_eq in E. congruence.
  - intros colIdx. apply parseBusinessComposition_not_text.
  - intros before after colIdx Hafter Hcell.
    destruct (Hrow before after colIdx Hafter) as [d [Hd Hc]].
    exists d. split; [exact Hd|].
    rewrite Hc. now apply parseBusinessComposition_not_text.
Qed.

Lemma composition_replaced_witness :
  lookupYear (js "2020")
    (verticalCell emptyCompositionRow (js "2020")
       [(js "2020", recordWithComposition)] (1%nat, BusinessComposition))
  = Some (setComposition [] recordWithComposition).
Proof.
  exact (proj1 (proj1 (composition_replaced emptyCompositionRow (js "2020")
                         [(js "2020", recordWithComposition)] eq_refl)
                 1%nat recordWithComposition eq_refl)).
Defined.

(* ===================================================================== *)
(** ** The final sort *)
(* ===================================================================== *)

Section SortFacts.

Variable A : Type.
Variable cmp : A -> A -> number.
Variable key : A -> Z.
Variable dom : A -> Prop.
Hypothesis cmp_sign :
  forall x y, dom x -> dom y -> SFltb pos_zero (cmp x y) = (key y <? key x).

Let keyLe (x y : A) : Prop := key x <= key y.

Lemma insertBy_perm (x : A) (l : list A) :
  Permutation (insertBy cmp x l) (x :: l).
Proof.
  induction l as [|y l IH]; simpl; [reflexivity|].
  destruct (SFltb pos_zero (cmp x y)); [|reflexivity].
  rewrite IH. apply perm_swap.
Qed.

Lemma Array_sort_perm (l : list A) : Permutation (Array_sort cmp l) l.
Proof.
  induction l as [|x l IH]; simpl; [reflexivity|].
  rewrite insertBy_perm. now constructor.
Qed.

Lemma insertBy_sorted (x : A) (l : list A) :
  dom x -> Forall dom l ->
  StronglySorted keyLe l -> StronglySorted keyLe (insertBy cmp x l).
Proof.
  intros Hx Hl Hs. induction Hs as [|y l Hs IH Hy]; simpl.
  - constructor; constructor.
  - inversion Hl as [|? ? Hdy Hdl]; subst.
    rewrite (cmp_sign x y Hx Hdy).
    destruct (Z.ltb_spec (key y) (key x)) as [Hlt|Hge].
    + constructor; [now apply IH|].
      apply Forall_forall. intros z Hz.
      apply (Permutation_in _ (insertBy_perm x l)) in Hz.
      destruct Hz as [<-|Hz]; [unfold keyLe; lia|].
      exact (proj1 (Forall_forall _ _) Hy z Hz).
    + constructor; [now constructor|].
      constructor; [exact Hge|].
      apply Forall_forall. intros z Hz.
      pose proof (proj1 (Forall_forall _ _) Hy z Hz) as Hyz.
      unfold keyLe in *. lia.
Qed.

Lemma Array_sort_sorted (l : list A) :
  Forall dom l -> StronglySorted keyLe (Array_sort cmp l).
Proof.
  induction l as [|x l IH]; simpl; intros Hl; [constructor|].
  inversion Hl as [|? ? Hx Hl']; subst.
  apply insertBy_sorted; [exact Hx| |now apply IH].
  apply Forall_forall. intros z Hz.
  apply (Permutation_in _ (Array_sort_perm l)) in Hz.
  exact (proj1 (Forall_forall _ _) Hl' z Hz).
Qed.

(** A list sorted by its keys whose keys are pairwise distinct is strictly
    sorted. *)
Lemma sorted_distinct_strict (l : list A) :
  StronglySorted keyLe l -> NoDup (map key l) ->
  StronglySorted (fun x y => key x < key y) l.
Proof.
  induction 1 as [|x l Hs IH Hx]; intros Hnd; [constructor|].
  simpl in Hnd. inversion Hnd as [|? ? Hnin Hnd']; subst.
  constructor; [now apply IH|].
  apply Forall_forall. intros z Hz.
  pose proof (proj1 (Forall_forall _ _) Hx z Hz) as Hle. unfold keyLe in Hle.
  assert (key x <> key z).
  { intros E. apply Hnin. rewrite E. now apply in_map. }
  lia.
Qed.

End SortFacts.

(* ===================================================================== *)
(** ** Finalisation *)
(* ===================================================================== *)

Lemma insertIndexKey_perm {A : Type} (e : jsstring * A)
  (l : list (jsstring * A)) :
  Permutation (insertIndexKey e l) (e :: l).
Proof.
  induction l as [|e' l IH]; simpl; [reflexivity|].
  destruct (digitsValue (fst e) <? digitsValue (fst e')); [reflexivity|].
  rewrite IH. apply perm_swap.
Qed.

Lemma filter_split_perm {A : Type} (p : A -> bool) (l : list A) :
  Permutation (filter p l ++ filter (fun x => negb (p x)) l)%list l.
Proof.
  induction l as [|x l IH]; simpl; [reflexivity|].
  destruct (p x); simpl.
  - now constructor.
  - rewrite <- Permutation_middle. now constructor.
Qed.

(** [Object.values] lists every value of the map once. *)
Lemma Object_values_perm {A : Type} (o : list (jsstring * A)) :
  Permutation (Object_values o) (map snd o).
Proof.
  unfold Object_values. apply Permutation_map.
  rewrite <- (filter_split_perm (fun e => isArrayIndex (fst e)) o) at 3.
  apply Permutation_app_tail.
  induction (filter (fun e => isArrayIndex (fst e)) o) as [|e l IH]; simpl;
    [reflexivity|].
  rewrite insertIndexKey_perm. now constructor.
Qed.

Lemma finalize_sort (m : YearDataMap) :
  finalize m
  = Array_sort byYear (map fillDefaults (filter keepYear (Object_values m))).
Proof.
  unfold finalize.
  now destruct (map fillDefaults (filter keepYear (Object_values m))).
Qed.

Lemma finalize_perm (m : YearDataMap) :
  Permutation (finalize m)
              (map fillDefaults (filter keepYear (Object_values m))).
Proof.
  rewrite finalize_sort. apply Array_sort_perm.
Qed.

Lemma fillDefaults_filled (p : FinancialYearData) :
  defaultsFilled p (fillDefaults p).
Proof.
  unfold defaultsFilled, fillDefaults. simpl.
  destruct (revenue p), (netProfitParent p), (totalAssets p), (equityParent p);
    simpl; tauto.
Qed.

Lemma keepYear_core (p : FinancialYearData) :
  year p <> [] -> (keepYear p = true <-> hasCoreMetric p).
Proof.
  intros Hy. unfold keepYear, hasCoreMetric.
  destruct (year p) as [|c r]; [contradiction|].
  destruct (revenue p), (netProfitParent p), (totalAssets p); simpl;
    split; intros H; try reflexivity; try discriminate;
    try (left; discriminate); try (right; left; discriminate);
    try (right; right; discriminate).
  destruct H as [H|[H|H]]; contradiction.
Qed.

Lemma fourDigits_nonempty (s : jsstring) : fourDigits s = true -> s <> [].
Proof. intros H ->. discriminate. Qed.

(** The records of the result are the defaulted records of the map that
    pass the filter. *)
Lemma finalize_In (m : YearDataMap) (d : FinancialYearData) :
  wellKeyed m ->
  (In d (finalize m) <->
   exists k p, In (k, p) m /\ hasCoreMetric p /\ d = fillDefaults p).
Proof.
  intros [Hnd Hm]. split.
  - intros H. apply (Permutation_in _ (finalize_perm m)) in H.
    apply in_map_iff in H. destruct H as [p [<- Hp]].
    apply filter_In in Hp. destruct Hp as [Hp Hk].
    apply (Permutation_in _ (Object_values_perm m)) in Hp.
    apply in_map_iff in Hp. destruct Hp as [[k p'] [E Hin]]. simpl in E. subst p'.
    exists k, p. split; [exact Hin|]. split; [|reflexivity].
    destruct (Hm _ _ Hin) as [Hy [Hf _]].
    apply keepYear_core; [|exact Hk].
    rewrite Hy. now apply fourDigits_nonempty.
  - intros [k [p [Hin [Hc ->]]]].
    apply (Permutation_in _ (Permutation_sym (finalize_perm m))).
    apply in_map. apply filter_In. split.
    + apply (Permutation_in _ (Permutation_sym (Object_values_perm m))).
      change p with (snd (k, p)). now apply in_map.
    + destruct (Hm _ _ Hin) as [Hy [Hf _]].
      apply keepYear_core; [|exact Hc].
      rewrite Hy. now apply fourDigits_nonempty.
Qed.

Lemma binding_unique (m : YearDataMap) (k : jsstring)
  (p p' : FinancialYearData) :
  NoDup (map fst m) -> In (k, p) m -> In (k, p') m -> p = p'.
Proof.
  intros Hnd H1 H2.
  apply (lookupYear_unique _ _ _ Hnd) in H1.
  apply (lookupYear_unique _ _ _ Hnd) in H2. congruence.
Qed.

(** Filtering a list keeps its keys distinct. *)
Lemma distinct_keys_filter {A : Type} (key : A -> Z) (keep : A -> bool)
  (rows : list A) :
  NoDup (map key rows) -> NoDup (map key (filter keep rows)).
Proof.
  induction rows as [|x rows IH]; simpl; [trivial|].
  intros H. inversion H as [|? ? Hnin Hnd]; subst.
  destruct (keep x); simpl; [|now apply IH].
  constructor; [|now apply IH].
  intros Hin. apply Hnin. apply in_map_iff in Hin.
  destruct Hin as [y [E Hy]]. apply filter_In in Hy. destruct Hy as [Hy _].
  rewrite <- E. now apply in_map.
Qed.

(** Distinct keys of four digits have distinct numeric values. *)
Lemma yearNumbers_distinct (m : YearDataMap) :
  wellKeyed m -> NoDup (map yearNumber (map snd m)).
Proof.
  intros [Hnd Hm]. induction m as [|[k p] m IH]; simpl; [constructor|].
  simpl in Hnd. inversion Hnd as [|? ? Hnin Hnd']; subst.
  constructor.
  - intros Hin. apply in_map_iff in Hin. destruct Hin as [p' [E Hp']].
    apply in_map_iff in Hp'. destruct Hp' as [[k' p''] [E' Hin']].
    simpl in E'. subst p''.
    destruct (Hm k p (or_introl eq_refl)) as [Hy [Hf _]].
    destruct (Hm k' p' (or_intror Hin')) as [Hy' [Hf' _]].
    unfold yearNumber in E. rewrite Hy, Hy' in E.
    apply fourDigits_value_inj in E; [|assumption|assumption].
    subst k'. apply Hnin. change k with (fst (k, p')). now apply in_map.
  - apply IH; [exact Hnd'|].
    intros k' d Hin. apply Hm. now right.
Qed.

Lemma finalize_years (m : YearDataMap) :
  wellKeyed m -> NoDup (map yearNumber (finalize m)).
Proof.
  intros Hm.
  apply (Permutation_NoDup
           (Permutation_sym (Permutation_map yearNumber (finalize_perm m)))).
  rewrite map_map.
  change (fun x => yearNumber (fillDefaults x)) with yearNumber.
  apply distinct_keys_filter.
  apply (Permutation_NoDup
           (Permutation_sym (Permutation_map yearNumber (Object_values_perm m)))).
  now apply yearNumbers_distinct.
Qed.

(** The result is in strictly ascending order of the numeric year. *)
Lemma finalize_sorted (m : YearDataMap) :
  wellKeyed m ->
  StronglySorted (fun a b => yearNumber a < yearNumber b) (finalize m).
Proof.
  intros Hm. apply sorted_distinct_strict; [|now apply finalize_years].
  rewrite finalize_sort.
  apply Array_sort_sorted with (dom := fun d => fourDigits (year d) = true).
  - intros x y Hx Hy. now apply byYear_sign.
  - apply Forall_forall. intros d Hd.
    apply in_map_iff in Hd. destruct Hd as [p [<- Hp]].
    apply filter_In in Hp. destruct Hp as [Hp _].
    apply (Permutation_in _ (Object_values_perm m)) in Hp.
    apply in_map_iff in Hp. destruct Hp as [[k p'] [E Hin]]. simpl in E. subst p'.
    destruct Hm as [_ Hm]. destruct (Hm _ _ Hin) as [Hy [Hf _]].
    simpl. now rewrite Hy.
Qed.

(** C5: when every file can be read, the call returns the finalised map:
    a year without revenue, net profit attributable to the parent and total
    assets is absent from the result; every other year is present once, with
    the four core metrics defaulted to zero where absent and every other
    field as extracted; the result is in ascending order of the numeric
    year; no file, or no surviving year, gives the empty sequence. *)
Theorem finalizer_postcondition (RULES : RuleTable) (files : list File) :
  readable files = true ->
  exists m out,
    processFiles RULES files [] = inr m
    /\ extractFinancialData RULES files = inr out
    /\ (forall k p, In (k, p) m -> ~ hasCoreMetric p ->
          forall d, In d out -> year d <> k)
    /\ (forall k p, In (k, p) m -> hasCoreMetric p ->
          exists d, In d out /\ year d = k /\ defaultsFilled p d)
    /\ (forall d, In d out ->
          exists p, In (year d, p) m /\ hasCoreMetric p /\ defaultsFilled p d)
    /\ StronglySorted (fun a b => yearNumber a < yearNumber b) out
    /\ (forall d, In d out -> parseInt (year d) = numberOfZ (yearNumber d))
    /\ (files = [] -> out = [])
    /\ ((forall k p, In (k, p) m -> ~ hasCoreMetric p) -> out = []).
Proof.
  intros Hr.
  destruct (processFiles_total RULES files [] Hr) as [m Hp].
  pose proof (wellKeyed_processFiles RULES files [] m wellKeyed_nil Hp) as Hm.
  exists m, (finalize m).
  assert (Hin : forall d, In d (finalize m) ->
            exists p, In (year d, p) m /\ hasCoreMetric p /\ d = fillDefaults p).
  { intros d Hd. apply (finalize_In m d Hm) in Hd.
    destruct Hd as [k [p [Hin [Hc ->]]]]. exists p.
    destruct Hm as [_ Hk]. destruct (Hk _ _ Hin) as [Hy _].
    simpl. rewrite Hy. now repeat split. }
  split; [exact Hp|].
  split; [unfold extractFinancialData; now rewrite Hp|].
  split.
  { intros k p Hkp Hnc d Hd E.
    destruct (Hin d Hd) as [p' [Hin' [Hc' _]]]. rewrite E in Hin'.
    rewrite (binding_unique m k p p' (proj1 Hm) Hkp Hin') in Hnc.
    contradiction. }
  split.
  { intros k p Hkp Hc. exists (fillDefaults p). split.
    - apply (finalize_In m _ Hm). now exists k, p.
    - split; [|apply fillDefaults_filled].
      destruct Hm as [_ Hk]. now destruct (Hk _ _ Hkp) as [Hy _]. }
  split.
  { intros d Hd. destruct (Hin d Hd) as [p [Hin' [Hc ->]]].
    exists p. split; [exact Hin'|]. split; [exact Hc|apply fillDefaults_filled]. }
  split; [now apply finalize_sorted|].
  split.
  { intros d Hd. destruct (Hin d Hd) as [p [Hin' _]].
    destruct Hm as [_ Hk]. destruct (Hk _ _ Hin') as [_ [Hf _]].
    now apply fourDigits_parseInt. }
  split.
  { intros ->. simpl in Hp. injection Hp as <-. reflexivity. }
  intros Hnone. destruct (finalize m) as [|d out] eqn:E; [reflexivity|].
  destruct (Hin d (or_introl eq_refl)) as [p [Hin' [Hc _]]].
  exfalso. exact (Hnone _ _ Hin' Hc).
Qed.

Lemma finalizer_postcondition_witness :
  exists m out,
    processFiles METRIC_RULES [singleSheetFile (js "a.xlsx") scenarioA] []
    = inr m
    /\ extractFinancialData METRIC_RULES
         [singleSheetFile (js "a.xlsx") scenarioA] = inr out
    /\ StronglySorted (fun a b => yearNumber a < yearNumber b) out.
Proof.
  destruct (finalizer_postcondition METRIC_RULES
              [singleSheetFile (js "a.xlsx") scenarioA] eq_refl)
    as [m [out [H1 [H2 [_ [_ [_ [H6 _]]]]]]]].
  exists m, out. split; [exact H1|]. split; [exact H2|exact H6].
Defined.

(** X20: whatever the sheets hold, the capital expenditure of a returned
    record is its own absolute value: it is never below zero, and it is zero
    or above unless it is [NaN]. *)
Lemma capex_is_magnitude (RULES : RuleTable) (files : list File)
  (out : list FinancialYearData) (d : FinancialYearData) (v : number) :
  extractFinancialData RULES files = inr out ->
  In d out -> capex d = Some v ->
  Math_abs v = v /\ SFltb v pos_zero = false
  /\ (isNaN v = true \/ SFleb pos_zero v = true).
Proof.
  unfold extractFinancialData.
  destruct (processFiles RULES files []) as [e|m] eqn:Hp; [discriminate|].
  intros H Hd Hv. injection H as <-.
  pose proof (wellKeyed_processFiles RULES files [] m wellKeyed_nil Hp) as Hm.
  apply (finalize_In m d Hm) in Hd. destruct Hd as [k [p [Hin [_ ->]]]].
  destruct Hm as [_ Hk]. destruct (Hk _ _ Hin) as [_ [_ Hc]].
  unfold capexOK in Hc. simpl in Hv. rewrite Hv in Hc.
  split; [exact Hc|]. rewrite <- Hc. destruct v as [s|s| |s m0 e0]; simpl.
  - split; [reflexivity|now right].
  - split; [reflexivity|now right].
  - split; [reflexivity|now left].
  - split; [reflexivity|now right].
Qed.

(** C7: the capital expenditure of a final record is not always
    non-negative. On a vertical sheet whose capex cell is ["%"] the
    normaliser returns [NaN], [Math.abs] keeps it, and the record of 2020
    ends with the capex [NaN]. *)
Theorem capex_can_be_NaN (fname : jsstring) :
  extractFinancialData METRIC_RULES [singleSheetFile fname capexPercentSheet]
  = inr [ setMetric Key.capex NaN
            (coreRecord "2020" (numberOfZ 100) pos_zero (numberOfZ 200)
                        pos_zero) ]
  /\ SFleb pos_zero NaN = false.
Proof.
  split; vm_compute; reflexivity.
Qed.

(* ===================================================================== *)
(** ** The end-to-end scenarios *)
(* ===================================================================== *)

(** C2, as the claim states it, fails: on scenario B the extraction returns
    the empty sequence, not records for 2020 and 2021. *)
Lemma scenarioB_yields_nothing :
  extractFinancialData METRIC_RULES [singleSheetFile (js "b.csv") scenarioB]
  = inr [].
Proof.
  vm_compute; reflexivity.
Qed.

(** C2 (amended): scenario B yields the empty sequence, because its header
    row has two metric labels and the vertical detection needs three. With a
    third metric column (营业成本) the same rows yield the records of 2020 and
    2021 with revenue 800/900, net profit attributable to the parent 80/95,
    and totalAssets and equityParent defaulted to 0. *)
Theorem scenarioB_extraction (fname : jsstring) :
  extractFinancialData METRIC_RULES [singleSheetFile fname scenarioB] = inr []
  /\ identifiedCount METRIC_RULES (nth 0 scenarioB []) = 2%nat
  /\ extractFinancialData METRIC_RULES [singleSheetFile fname scenarioB3]
     = inr
         [ setMetric Key.costOfRevenue (numberOfZ 500)
             (coreRecord "2020" (numberOfZ 800) (numberOfZ 80)
                         pos_zero pos_zero);
           setMetric Key.costOfRevenue (numberOfZ 600)
             (coreRecord "2021" (numberOfZ 900) (numberOfZ 95)
                         pos_zero pos_zero) ].
Proof.
  split; [ | split ]; vm_compute; reflexivity.
Qed.

(** C6: scenario A yields exactly the records of 2021 and 2022, in that
    order, with revenue 1000/1200, totalAssets 5000/5500, and netProfitParent
    and equityParent defaulted to 0. *)
Theorem scenarioA_extraction (fname : jsstring) :
  extractFinancialData METRIC_RULES [singleSheetFile fname scenarioA]
  = inr [ coreRecord "2021" (numberOfZ 1000) pos_zero (numberOfZ 5000) pos_zero;
          coreRecord "2022" (numberOfZ 1200) pos_zero (numberOfZ 5500) pos_zero ].
Proof.
  vm_compute; reflexivity.
Qed.

(* ===================================================================== *)
(** ** Two calls in a row *)
(* ===================================================================== *)

Lemma setNth_length (A : Type) (n : nat) (v : A) (l : list A) :
  length (setNth n v l) = length l.
Proof.
  revert n. induction l as [|x l IH]; intros [|n]; simpl; auto.
Qed.

Lemma nth_setNth (A : Type) (n : nat) (v d : A) (l : list A) :
  (n < length l)%nat -> nth n (setNth n v l) d = v.
Proof.
  revert n. induction l as [|x l IH]; intros [|n] H; simpl in *; try lia.
  - reflexivity.
  - apply IH. lia.
Qed.

Lemma setNth_twice (A : Type) (n : nat) (v w : A) (l : list A) :
  setNth n w (setNth n v l) = setNth n w l.
Proof.
  revert n. induction l as [|x l IH]; intros [|n]; simpl; auto.
  now rewrite IH.
Qed.

Lemma setNth_same (A : Type) (n : nat) (d : A) (l : list A) :
  setNth n (nth n l d) l = l.
Proof.
  revert n. induction l as [|x l IH]; intros [|n]; simpl; auto.
  now rewrite IH.
Qed.

Lemma setNth_last (A : Type) (v w : A) (l : list A) :
  setNth (length l) w (l ++ [v])%list = (l ++ [w])%list.
Proof.
  induction l as [|x l IH]; simpl; [reflexivity|]. now rewrite IH.
Qed.

(** A loop whose body writes to one object leaves that object with the
    fold of the writes, and everything else as it was. *)
Lemma forEach_updates (A : Type) (ref : Ref)
  (step : RuleTable -> YearDataMap -> A -> YearDataMap)
  (body : A -> Call unit) (xs : list A) (st : ModuleState) :
  (forall x s, (ref < length (objects s))%nat ->
               body x s
               = (inr tt,
                  {| moduleRules := moduleRules s;
                     objects := setNth ref
                                  (step (moduleRules s)
                                        (nth ref (objects s) []) x)
                                  (objects s) |})) ->
  (ref < length (objects st))%nat ->
  forEach xs body st
  = (inr tt,
     {| moduleRules := moduleRules st;
        objects := setNth ref
                     (fold_left (step (moduleRules st)) xs
                                (nth ref (objects st) []))
                     (objects st) |}).
Proof.
  intros Hbody. revert st. induction xs as [|x xs IH]; intros st Href.
  - cbn [forEach fold_left]. unfold ret. rewrite setNth_same.
    now destruct st.
  - cbn [forEach fold_left]. unfold bind. rewrite Hbody by exact Href.
    rewrite IH by (cbn [objects]; now rewrite setNth_length).
    cbn [moduleRules objects].
    now rewrite nth_setNth, setNth_twice by exact Href.
Qed.

Lemma sheetCall_spec (ref : Ref) (rows : Sheet) (st : ModuleState) :
  (ref < length (objects st))%nat ->
  sheetCall ref rows st
  = (inr tt,
     {| moduleRules := moduleRules st;
        objects := setNth ref
                     (processSheet (moduleRules st)
                                   (nth ref (objects st) []) rows)
                     (objects st) |}).
Proof.
  intros Href. unfold sheetCall, processSheet.
  destruct rows as [|r0 rs].
  - unfold ret. rewrite setNth_same. now destruct st.
  - unfold bind at 1. unfold readRules at 1. cbv beta iota.
    destruct (detectStrategy (moduleRules st) (r0 :: rs)) as [[[|] h]|].
    + cbv zeta.
      apply (forEach_updates Row ref
               (fun rules m row =>
                  horizontalRow rules
                    (yearColumns (nth h (r0 :: rs) []) 0) m row));
        [|exact Href].
      intros row s _. reflexivity.
    + unfold bind at 1. unfold readRules at 1. cbv beta iota zeta.
      apply (forEach_updates Row ref
               (fun _ m row =>
                  verticalRow
                    (metricColumns (moduleRules st) (nth h (r0 :: rs) []) 0)
                    m row));
        [|exact Href].
      intros row s _. reflexivity.
    + unfold ret. rewrite setNth_same. now destruct st.
Qed.

(** The loop over the files writes to the object at [ref] only, and ends as
    the loop over the files of the functional reading does. *)
Lemma fileLoop_spec (ref : Ref) (files : list File) (st : ModuleState) :
  (ref < length (objects st))%nat ->
  exists m,
    forEach files (fileCall ref) st
    = (match processFiles (moduleRules st) files (nth ref (objects st) [])
       with
       | inl e => inl e
       | inr _ => inr tt
       end,
       {| moduleRules := moduleRules st;
          objects := setNth ref m (objects st) |})
    /\ (forall m', processFiles (moduleRules st) files
                                (nth ref (objects st) []) = inr m' ->
                   m = m').
Proof.
  revert st. induction files as [|f rest IH]; intros st Href.
  - exists (nth ref (objects st) []). split.
    + cbn [forEach processFiles]. unfold ret. rewrite setNth_same.
      now destruct st.
    + intros m' H. now injection H.
  - cbn [forEach processFiles]. unfold bind.
    assert (Hf : fileCall ref f st
                 = match workbook f with
                   | None => throw (FailedToParseFile (fileName f)) st
                   | Some sheets => forEach sheets (sheetCall ref) st
                   end)
      by (unfold fileCall; now destruct (workbook f)).
    rewrite Hf. clear Hf.
    destruct (workbook f) as [sheets|].
    + rewrite (forEach_updates Sheet ref
                 (fun rules m rows => processSheet rules m rows)
                 (sheetCall ref) sheets st
                 (fun rows s H => sheetCall_spec ref rows s H) Href).
      match goal with
      | |- context [forEach rest (fileCall ref) ?s1] =>
        destruct (IH s1) as [m [Hrun Hm]];
          [cbn [objects]; now rewrite setNth_length|]
      end.
      exists m. rewrite Hrun. cbn [moduleRules objects].
      rewrite nth_setNth, setNth_twice by exact Href.
      split; [reflexivity|].
      intros m' H. apply Hm. cbn [moduleRules objects].
      now rewrite nth_setNth by exact Href.
    + exists (nth ref (objects st) []). split.
      * unfold throw. rewrite setNth_same. now destruct st.
      * discriminate.
Qed.

(** A call of the exported function returns what the functional reading
    returns on the rule table of the module, whatever objects earlier calls
    have left; it leaves the rule table and those objects as they were and
    adds one object, its own map. *)
Lemma callExtract_spec (st : ModuleState) (files : list File) :
  exists m,
    callExtract st files
    = (extractFinancialData (moduleRules st) files,
       {| moduleRules := moduleRules st;
          objects := (objects st ++ [m])%list |}).
Proof.
  unfold callExtract, extractFinancialDataCall, extractFinancialData.
  unfold bind at 1. unfold newObject at 1. cbv beta iota.
  set (st0 := {| moduleRules := moduleRules st;
                 objects := (objects st ++ [[]])%list |}).
  assert (Href : (length (objects st) < length (objects st0))%nat)
    by (cbn [st0 objects]; rewrite length_app; simpl; lia).
  destruct (fileLoop_spec (length (objects st)) files st0 Href)
    as [m [Hrun Hm]].
  unfold bind at 1. rewrite Hrun.
  assert (H0 : nth (length (objects st)) (objects st0) [] = []).
  { cbn [st0 objects]. apply nth_middle. }
  rewrite H0 in *. cbn [st0 moduleRules objects] in *.
  rewrite setNth_last.
  destruct (processFiles (moduleRules st) files []) as [e|m'] eqn:Hp.
  - now exists m.
  - rewrite (Hm m' eq_refl). exists (fillKept m').
    unfold bind at 1. unfold readObject at 1. cbn [objects].
    rewrite nth_middle. cbv zeta.
    unfold bind at 1. unfold updateObject at 1. cbn [objects moduleRules].
    rewrite nth_middle, setNth_last.
    unfold finalize.
    destruct (filter keepYear (Object_values m')) as [|d ds]; reflexivity.
Qed.

(** C8: two calls on the same files return the same result, whatever files
    a call in between was given and whatever objects earlier calls have
    left: the result is that of the functional reading on the rule table.
    A call does not change the rule table, and it works on a map of its
    own: the objects that were there before it are as they were after it. *)
Theorem two_calls_agree (st : ModuleState) (files between : list File) :
  let '(r1, st1) := callExtract st files in
  let '(_, st2) := callExtract st1 between in
  let '(r3, st3) := callExtract st2 files in
  r1 = r3
  /\ r1 = extractFinancialData (moduleRules st) files
  /\ moduleRules st1 = moduleRules st
  /\ moduleRules st2 = moduleRules st
  /\ moduleRules st3 = moduleRules st
  /\ (exists m1, objects st1 = (objects st ++ [m1])%list)
  /\ (exists m2, objects st2 = (objects st1 ++ [m2])%list)
  /\ (exists m3, objects st3 = (objects st2 ++ [m3])%list).
Proof.
  destruct (callExtract_spec st files) as [m1 H1]. rewrite H1.
  match goal with
  | |- context [callExtract ?s between] =>
    destruct (callExtract_spec s between) as [m2 H2]
  end.
  rewrite H2. cbn [moduleRules objects].
  match goal with
  | |- context [callExtract ?s files] =>
    destruct (callExtract_spec s files) as [m3 H3]
  end.
  rewrite H3. cbn [moduleRules objects].
  split; [reflexivity|]. split; [reflexivity|].
  split; [reflexivity|]. split; [reflexivity|]. split; [reflexivity|].
  split; [now exists m1|]. split; [now exists m2|now exists m3].
Qed.

(* ===================================================================== *)
(** ** More about trimming *)
(* ===================================================================== *)

(** What [trimStart] keeps does not begin with white space. *)
Lemma trimStart_head (s : jsstring) (c : char16) (r : jsstring) :
  trimStart s = c :: r -> isWhiteSpace c = false.
Proof.
  induction s as [|d s IH]; simpl; [discriminate|].
  destruct (isWhiteSpace d) eqn:E; [exact IH|].
  intros H. injection H as <- _. exact E.
Qed.

Lemma trimStart_fixed (s : jsstring) :
  match s with [] => true | c :: _ => negb (isWhiteSpace c) end = true ->
  trimStart s = s.
Proof.
  destruct s as [|c r]; [reflexivity|]. simpl.
  intros H. apply negb_true_iff in H. now rewrite H.
Qed.

Lemma trimStart_idem (s : jsstring) : trimStart (trimStart s) = trimStart s.
Proof.
  apply trimStart_fixed.
  destruct (trimStart s) as [|c r] eqn:E; [reflexivity|].
  now rewrite (trimStart_head _ _ _ E).
Qed.

(** Leading white space is dropped as a whole. *)
Lemma trimStart_spaces (ws s : jsstring) :
  forallb isWhiteSpace ws = true -> trimStart (ws ++ s)%list = trimStart s.
Proof.
  induction ws as [|c ws IH]; simpl; [reflexivity|].
  intros H. apply andb_true_iff in H. destruct H as [Hc Hws].
  rewrite Hc. now apply IH.
Qed.

(** What [trimStart] removes is white space. *)
Lemma trimStart_split (s : jsstring) :
  exists ws, s = (ws ++ trimStart s)%list /\ forallb isWhiteSpace ws = true.
Proof.
  induction s as [|c s [ws [IH Hws]]]; simpl.
  - now exists [].
  - destruct (isWhiteSpace c) eqn:E.
    + exists (c :: ws). split; [now rewrite IH at 1|]. simpl. now rewrite E.
    + now exists [].
Qed.

Lemma trimEnd_split (s : jsstring) :
  exists ws, s = (trimEnd s ++ ws)%list /\ forallb isWhiteSpace ws = true.
Proof.
  unfold trimEnd. destruct (trimStart_split (rev s)) as [ws [E Hws]].
  exists (rev ws). split.
  - rewrite <- rev_app_distr, <- E. symmetry. apply rev_involutive.
  - apply forallb_forall. intros c Hc. apply in_rev in Hc.
    exact (proj1 (forallb_forall _ _) Hws c Hc).
Qed.

(** A text is its trimmed form between two runs of white space. *)
Lemma trim_split (s : jsstring) :
  exists w1 w2, s = (w1 ++ trim s ++ w2)%list
                /\ forallb isWhiteSpace w1 = true
                /\ forallb isWhiteSpace w2 = true.
Proof.
  destruct (trimStart_split s) as [w1 [E1 H1]].
  destruct (trimEnd_split (trimStart s)) as [w2 [E2 H2]].
  exists w1, w2. unfold trim. split; [|now split].
  now rewrite <- E2.
Qed.

Lemma trimEnd_head (s : jsstring) :
  match s with [] => true | c :: _ => negb (isWhiteSpace c) end = true ->
  match trimEnd s with [] => true | c :: _ => negb (isWhiteSpace c) end = true.
Proof.
  intros H. destruct (trimEnd_split s) as [ws [E _]].
  destruct (trimEnd s) as [|c r]; [reflexivity|].
  rewrite E in H. exact H.
Qed.

Lemma trimEnd_idem (s : jsstring) : trimEnd (trimEnd s) = trimEnd s.
Proof.
  unfold trimEnd. now rewrite rev_involutive, trimStart_idem.
Qed.

(** Trimming twice is trimming once. *)
Lemma trim_idem (s : jsstring) : trim (trim s) = trim s.
Proof.
  unfold trim at 1.
  assert (H : trimStart (trim s) = trim s).
  { apply trimStart_fixed. unfold trim. apply trimEnd_head.
    destruct (trimStart s) as [|c r] eqn:E; [reflexivity|].
    now rewrite (trimStart_head _ _ _ E). }
  rewrite H. unfold trim. apply trimEnd_idem.
Qed.

(** White space before a text that is already trimmed changes nothing. *)
Lemma trim_leading (ws s : jsstring) :
  forallb isWhiteSpace ws = true -> trim (ws ++ s)%list = trim s.
Proof.
  intros H. unfold trim. now rewrite trimStart_spaces.
Qed.

Lemma trim_In (s : jsstring) (c : char16) : In c (trim s) -> In c s.
Proof.
  destruct (trim_split s) as [w1 [w2 [E _]]]. intros H. rewrite E.
  apply in_or_app. right. apply in_or_app. now left.
Qed.

Lemma trim_forallb (p : char16 -> bool) (s : jsstring) :
  forallb p s = true -> forallb p (trim s) = true.
Proof.
  intros H. apply forallb_forall. intros c Hc.
  exact (proj1 (forallb_forall _ _) H c (trim_In _ _ Hc)).
Qed.

(* ===================================================================== *)
(** ** The composition parser *)
(* ===================================================================== *)

Lemma split_nonempty (isSep : char16 -> bool) (s : jsstring) :
  JSString.split isSep s <> [].
Proof.
  destruct s as [|c s]; simpl; [discriminate|].
  destruct (isSep c); [discriminate|].
  destruct (JSString.split isSep s); discriminate.
Qed.

(** Splitting a text at one of its separators. *)
Lemma split_at_separator (isSep : char16 -> bool) (a b : jsstring)
  (c : char16) :
  isSep c = true ->
  JSString.split isSep (a ++ c :: b)%list
  = (JSString.split isSep a ++ JSString.split isSep b)%list.
Proof.
  intros Hc. induction a as [|x a IH]; simpl.
  - now rewrite Hc.
  - destruct (isSep x); [now rewrite IH|].
    rewrite IH.
    pose proof (split_nonempty isSep a) as Hne.
    destruct (JSString.split isSep a) as [|p ps]; [contradiction|reflexivity].
Qed.

(** The pieces of a split hold no separator. *)
Lemma split_pieces (isSep : char16 -> bool) (s p : jsstring) :
  In p (JSString.split isSep s) -> forallb (fun c => negb (isSep c)) p = true.
Proof.
  revert p. induction s as [|x s IH]; simpl; intros p.
  - intros [<-|[]]. reflexivity.
  - destruct (isSep x) eqn:E.
    + intros [<-|H]; [reflexivity|now apply IH].
    + pose proof (split_nonempty isSep s) as Hne.
      destruct (JSString.split isSep s) as [|q qs]; [contradiction|].
      intros [<-|H].
      * simpl. rewrite E. simpl. apply IH. now left.
      * apply IH. now right.
Qed.

(** The first piece of a split is the beginning of the text. *)
Lemma split_first_piece (isSep : char16 -> bool) (s p : jsstring)
  (ps : list jsstring) :
  JSString.split isSep s = p :: ps -> forall c, In c p -> In c s.
Proof.
  revert p ps. induction s as [|x s IH]; simpl; intros p ps Hs c Hc.
  - injection Hs as <- _. destruct Hc.
  - destruct (isSep x).
    + injection Hs as <- _. destruct Hc.
    + destruct (JSString.split isSep s) as [|q qs] eqn:E.
      * injection Hs as <- _. destruct Hc as [<-|[]]. now left.
      * injection Hs as <- _. destruct Hc as [<-|Hc]; [now left|].
        right. exact (IH q qs eq_refl c Hc).
Qed.

(** The parser is the items of the fragments between the item separators,
    for the empty text too. *)
Lemma parseBusinessComposition_fragments (str : jsstring) :
  parseBusinessComposition str
  = filterSome (map parseItem (JSString.split isItemSep str)).
Proof.
  destruct str; reflexivity.
Qed.

Lemma filterSome_app {A : Type} (l1 l2 : list (option A)) :
  filterSome (l1 ++ l2)%list = (filterSome l1 ++ filterSome l2)%list.
Proof.
  unfold filterSome. apply flat_map_app.
Qed.

Lemma parse_at_separator (a b : jsstring) (c : char16) :
  isItemSep c = true ->
  parseBusinessComposition (a ++ c :: b)%list
  = (parseBusinessComposition a ++ parseBusinessComposition b)%list.
Proof.
  intros Hc. rewrite !parseBusinessComposition_fragments.
  now rewrite (split_at_separator _ _ _ _ Hc), map_app, filterSome_app.
Qed.

(** X1: the parse of two texts joined by an item separator is the items of
    the first followed by the items of the second: a fragment, malformed or
    not, has no effect on the items of the others. *)
Theorem parseBusinessComposition_join (a b : jsstring) (c : char16) :
  isItemSep c = true ->
  parseBusinessComposition (a ++ c :: b)%list
  = (parseBusinessComposition a ++ parseBusinessComposition b)%list.
Proof.
  intros Hc. rewrite !parseBusinessComposition_fragments.
  rewrite (split_at_separator isItemSep a b c Hc), map_app.
  apply filterSome_app.
Qed.

Lemma parseBusinessComposition_join_witness :
  parseBusinessComposition (js "A:1" ++ 59%N :: js "bad")%list
  = (parseBusinessComposition (js "A:1")
     ++ parseBusinessComposition (js "bad"))%list.
Proof.
  apply (parseBusinessComposition_join (js "A:1") (js "bad") 59%N).
  reflexivity.
Defined.

Lemma filterSome_In {A : Type} (l : list (option A)) (x : A) :
  In x (filterSome l) <-> In (Some x) l.
Proof.
  unfold filterSome. rewrite in_flat_map. split.
  - intros [[y|] [Hin Hx]]; [|destruct Hx].
    destruct Hx as [<-|[]]. exact Hin.
  - intros H. exists (Some x). split; [exact H|now left].
Qed.

Lemma parseItem_Some (s : jsstring) (item : BusinessCompositionItem) :
  parseItem s = Some item ->
  exists p0 p1 rest,
    JSString.split isPartSep s = p0 :: p1 :: rest
    /\ name item = trim p0 /\ trim p0 <> []
    /\ value item = cleanNumber (VString p1)
    /\ isNaN (cleanNumber (VString p1)) = false.
Proof.
  unfold parseItem.
  destruct (JSString.split isPartSep s) as [|p0 [|p1 rest]]; try discriminate.
  destruct (trim p0) as [|c r] eqn:E; [discriminate|].
  destruct (isNaN (cleanNumber (VString p1))) eqn:En; [discriminate|].
  intros H. injection H as <-. exists p0, p1, rest. simpl.
  rewrite E. repeat split; try reflexivity; try discriminate. exact En.
Qed.

(** The item of a fragment that holds no item separator is well formed. *)
Lemma wellFormed_parseItem (frag : jsstring) (item : BusinessCompositionItem) :
  parseItem frag = Some item ->
  forallb (fun c => negb (isItemSep c)) frag = true ->
  wellFormedItem item.
Proof.
  intros Hitem Hi. unfold wellFormedItem.
  destruct (parseItem_Some _ _ Hitem)
    as [p0 [p1 [rest [Hs [Hn [Hne [Hv Hnan]]]]]]].
  rewrite Hn, Hv. split; [exact Hne|]. split; [apply trim_idem|].
  split; [|exact Hnan].
  apply trim_forallb.
  assert (Hp : forallb (fun c => negb (isPartSep c)) p0 = true).
  { apply (split_pieces isPartSep frag). rewrite Hs. now left. }
  apply forallb_forall. intros c Hc. unfold notSeparator.
  pose proof (proj1 (forallb_forall _ _) Hp c Hc) as H1.
  pose proof (proj1 (forallb_forall _ _) Hi c
                    (split_first_piece _ _ _ _ Hs c Hc)) as H2.
  apply negb_true_iff in H1, H2. now rewrite H1, H2.
Qed.

Lemma wellFormed_items (s : jsstring) :
  Forall wellFormedItem (parseBusinessComposition s).
Proof.
  apply Forall_forall. intros item Hin.
  rewrite parseBusinessComposition_fragments, filterSome_In, in_map_iff in Hin.
  destruct Hin as [frag [Hitem Hfrag]].
  exact (wellFormed_parseItem frag item Hitem
           (split_pieces isItemSep s frag Hfrag)).
Qed.

(** X2: every item the parser returns has a name that is not empty, is
    trimmed and holds no separator, and a value that is not [NaN]. *)
Theorem parseBusinessComposition_items (str : jsstring)
  (item : BusinessCompositionItem) :
  In item (parseBusinessComposition str) ->
  name item <> [] /\ trim (name item) = name item
  /\ forallb notSeparator (name item) = true
  /\ isNaN (value item) = false.
Proof.
  rewrite parseBusinessComposition_fragments, filterSome_In, in_map_iff.
  intros [frag [Hitem Hfrag]].
  apply (wellFormed_parseItem frag item Hitem).
  exact (split_pieces isItemSep str frag Hfrag).
Qed.

Lemma parseBusinessComposition_items_witness :
  name {| name := js "A"; value := numberOfZ 1 |} <> []
  /\ trim (name {| name := js "A"; value := numberOfZ 1 |}) = js "A"
  /\ forallb notSeparator (name {| name := js "A"; value := numberOfZ 1 |})
     = true
  /\ isNaN (value {| name := js "A"; value := numberOfZ 1 |}) = false.
Proof.
  apply (parseBusinessComposition_items (js " A :1;B")).
  left. vm_compute. reflexivity.
Defined.

Lemma parseItem_itemText (ws : jsstring) (c : BusinessCompositionItem) :
  forallb isWhiteSpace ws = true -> forallb notSeparator ws = true ->
  exportable c -> parseItem (ws ++ itemText c)%list = Some c.
Proof.
  intros Hws Hsep [Hne [Htrim [Hname [Hnan Hval]]]].
  unfold parseItem, itemText. rewrite app_assoc.
  change (js ":") with [58%N]. cbn [app].
  rewrite (split_at_separator isPartSep _ _ 58%N eq_refl).
  rewrite (split_no_separator isPartSep (ws ++ name c)%list).
  2:{ apply notSeparator_part. rewrite forallb_app. now rewrite Hsep, Hname. }
  rewrite (split_no_separator isPartSep (Number_toString (value c))).
  2:{ apply notSeparator_part, notSeparator_Number_toString. }
  cbn [app]. rewrite (trim_leading _ _ Hws), Htrim, Hval, Hnan.
  destruct c as [n v]. simpl in *. destruct n; [contradiction|reflexivity].
Qed.

Lemma parse_compositionText (items : list BusinessCompositionItem)
  (ws : jsstring) :
  forallb isWhiteSpace ws = true -> forallb notSeparator ws = true ->
  Forall exportable items ->
  parseBusinessComposition (ws ++ compositionText items)%list = items.
Proof.
  intros Hws Hsep Hall. revert ws Hws Hsep.
  induction Hall as [|c rest Hc Hrest IH]; intros ws Hws Hsep.
  - unfold compositionText. simpl. rewrite app_nil_r.
    now apply parseBusinessComposition_plain.
  - assert (Hone : parseBusinessComposition (ws ++ itemText c)%list = [c]).
    { rewrite parseBusinessComposition_fragments.
      rewrite (split_no_separator isItemSep).
      - simpl. now rewrite (parseItem_itemText _ _ Hws Hsep Hc).
      - destruct Hc as [_ [_ [Hname _]]].
        unfold itemText. rewrite !forallb_app.
        rewrite (notSeparator_item _ Hsep), (notSeparator_item _ Hname).
        now rewrite (notSeparator_item _ (notSeparator_Number_toString _)). }
    destruct rest as [|c' rest'].
    + exact Hone.
    + change (compositionText (c :: c' :: rest'))
        with (itemText c ++ js "; " ++ compositionText (c' :: rest'))%list.
      assert (E : (ws ++ itemText c ++ js "; "
                   ++ compositionText (c' :: rest'))%list
                  = ((ws ++ itemText c)
                     ++ 59%N :: ([32%N] ++ compositionText (c' :: rest')))%list)
        by (rewrite <- app_assoc; reflexivity).
      rewrite E, (parse_at_separator _ _ 59%N eq_refl), Hone.
      cbn [app]. f_equal. exact (IH [32%N] eq_refl eq_refl).
Qed.

(** X3: parsing the composition text that the CSV export writes gives back
    the items it was written from, when every item has a name as the parser
    produces it and a value that its own decimal text denotes. *)
Theorem export_then_parse (items : list BusinessCompositionItem) :
  Forall exportable items ->
  parseBusinessComposition (compositionText items) = items.
Proof.
  intros H. exact (parse_compositionText items [] eq_refl eq_refl H).
Qed.

Lemma export_then_parse_witness :
  parseBusinessComposition
    (compositionText [ {| name := js "手机"; value := Prim2SF 60.5 |};
                       {| name := js "Cloud services"; value := numberOfZ 40 |} ])
  = [ {| name := js "手机"; value := Prim2SF 60.5 |};
      {| name := js "Cloud services"; value := numberOfZ 40 |} ].
Proof.
  apply export_then_parse.
  repeat constructor; try discriminate; vm_compute; reflexivity.
Defined.

(* ===================================================================== *)
(** ** More about the value normaliser *)
(* ===================================================================== *)

Lemma isSignText_cases (sgn : jsstring) :
  isSignText sgn = true -> sgn = [] \/ sgn = [45%N] \/ sgn = [43%N].
Proof.
  unfold isSignText. intros H.
  apply orb_true_iff in H. destruct H as [H|H].
  - apply orb_true_iff in H. destruct H as [H|H].
    + left. now apply str_eqb_eq.
    + right. left. now apply str_eqb_eq in H.
  - right. right. now apply str_eqb_eq in H.
Qed.

Lemma not_point (c : char16) (r : jsstring) :
  (c =? 46)%N = false ->
  match c :: r with
  | 46%N :: r' => span isDigit r'
  | _ => ([], c :: r)
  end = ([], c :: r).
Proof.
  intros H. destruct c as [|p]; [reflexivity|].
  do 6 (destruct p as [p|p|]; try reflexivity).
  discriminate H.
Qed.

(** [parseFloat] on a signed decimal literal followed by a text that is not
    read as part of it. *)
Lemma parseFloat_literal (sgn ip fp t : jsstring) :
  isSignText sgn = true ->
  ip <> [] -> forallb isDigit ip = true -> forallb isDigit fp = true ->
  literalEnd t = true ->
  parseFloat (sgn ++ unsignedDecimal ip fp ++ t)%list
  = decimalToNumber (str_eqb sgn (js "-")) (digitsValue (ip ++ fp)%list)
                    (- Z.of_nat (length fp)).
Proof.
  intros Hsgn Hne Hip Hfp Ht. destruct ip as [|a ip']; [contradiction|].
  clear Hne.
  assert (Ha : isDigit a = true)
    by (simpl in Hip; now apply andb_true_iff in Hip).
  set (rest := (match fp with [] => [] | _ => 46%N :: fp end ++ t)%list).
  unfold parseFloat.
  match goal with
  | |- context [takeSign ?x] =>
    assert (Hsign : takeSign x
                    = (str_eqb sgn (js "-"), ((a :: ip') ++ rest)%list))
  end.
  { unfold unsignedDecimal, rest. rewrite <- !app_assoc.
    destruct (isSignText_cases _ Hsgn) as [->|[->| ->]].
    - cbn [app]. now rewrite (trimStart_digit _ _ Ha), (takeSign_digit _ _ Ha).
    - reflexivity.
    - reflexivity. }
  assert (Hrest : match rest with [] => true | c :: _ => negb (isDigit c) end
                  = true).
  { unfold rest. destruct fp; [|reflexivity]. cbn [app].
    destruct t as [|c t']; [reflexivity|]. unfold literalEnd in Ht.
    apply negb_true_iff in Ht. apply negb_true_iff.
    now repeat (apply orb_false_iff in Ht; destruct Ht as [Ht ?]). }
  rewrite Hsign.
  cbn [app]. rewrite (not_Infinity _ _ Ha).
  change (a :: (ip' ++ rest)%list) with ((a :: ip') ++ rest)%list.
  rewrite (span_app_digits _ _ Hip Hrest).
  cbv beta iota zeta.
  match goal with
  | |- context [let '(_, _) := ?x in _] =>
    assert (Hfrac : x = (fp, t))
  end.
  { unfold rest. destruct fp as [|b fp'].
    - cbn [app]. destruct t as [|c t']; [reflexivity|].
      unfold literalEnd in Ht. apply negb_true_iff in Ht.
      repeat (apply orb_false_iff in Ht; destruct Ht as [Ht ?]).
      now apply not_point.
    - cbn [app]. apply (span_app_digits (b :: fp') t); [exact Hfp|].
      destruct t as [|c t']; [reflexivity|]. unfold literalEnd in Ht.
      apply negb_true_iff in Ht. apply negb_true_iff.
      now repeat (apply orb_false_iff in Ht; destruct Ht as [Ht ?]). }
  rewrite Hfrac. cbv beta iota zeta. cbn [app].
  replace (0 - Z.of_nat (length fp)) with (- Z.of_nat (length fp)) by lia.
  destruct t as [|c t']; [reflexivity|].
  unfold literalEnd in Ht. apply negb_true_iff in Ht.
  repeat (apply orb_false_iff in Ht; destruct Ht as [Ht ?]).
  match goal with
  | H1 : (c =? 101)%N = false, H2 : (c =? 69)%N = false |- _ =>
    rewrite H1, H2
  end.
  reflexivity.
Qed.

Lemma filter_all_kept (s : jsstring) :
  forallb kept (filter (fun c => negb (isStripped c)) s) = true.
Proof.
  apply forallb_forall. intros c Hc. apply filter_In in Hc. exact (proj2 Hc).
Qed.

(** [cleanNumber] on a text, in terms of the text it hands to
    [parseFloat]. *)
Lemma cleanNumber_cleanedText (s : jsstring) :
  cleanNumber (VString s)
  = if endsWith (cleanedText s) (js "%")
    then SF64div (parseFloat (cleanedText s)) (numberOfZ 100)
    else if str_eqb (cleanedText s) (js "-")
            || str_eqb (cleanedText s) (js "—")
            || str_eqb (cleanedText s) []
    then pos_zero
    else if isNaN (parseFloat (cleanedText s)) then pos_zero
         else parseFloat (cleanedText s).
Proof. reflexivity. Qed.

Lemma endsWith_app_char (x t : jsstring) (c : char16) :
  endsWith (x ++ t)%list [c]
  = match t with [] => endsWith x [c] | _ => endsWith t [c] end.
Proof.
  destruct t as [|d t']; [now rewrite app_nil_r|].
  destruct (exists_last (l := d :: t') ltac:(discriminate)) as [y [z E]].
  rewrite E, app_assoc, !endsWith_last. reflexivity.
Qed.

(** X4: what is left of a text after the stripped code units are removed
    decides the result. When that is a decimal literal, signed or not,
    followed by a text that is not read as part of it, the result is the
    Number of the literal: a unit after the figure is ignored, and a final
    percent sign divides by 100. *)
Theorem cleanNumber_reads_prefix (s sgn ip fp t : jsstring) :
  filter (fun c => negb (isStripped c)) s
  = (sgn ++ unsignedDecimal ip fp ++ t)%list ->
  isSignText sgn = true ->
  ip <> [] -> forallb isDigit ip = true -> forallb isDigit fp = true ->
  literalEnd t = true ->
  cleanNumber (VString s)
  = let x := decimalToNumber (str_eqb sgn (js "-"))
                             (digitsValue (ip ++ fp)%list)
                             (- Z.of_nat (length fp)) in
    if endsWith t (js "%") then SF64div x (numberOfZ 100) else x.
Proof.
  intros HF Hsgn Hne Hip Hfp Ht.
  pose proof (filter_all_kept s) as Hk.
  assert (Hc : cleanNumber (VString s)
               = cleanNumber (VString (filter (fun c => negb (isStripped c)) s)))
    by (unfold cleanNumber; now rewrite filter_kept_idem).
  rewrite Hc, (cleanNumber_kept _ Hk), HF. clear Hc Hk HF s.
  destruct (decimal_first ip fp Hne Hip) as [a [r [E Ha]]].
  destruct (decimal_last ip fp Hne Hip Hfp) as [y [z [E' Hz]]].
  destruct (digit_not_sign _ Ha) as [_ [Ha40 [Ha45 Ha8212]]].
  destruct (digit_not_sign _ Hz) as [Hz37 _].
  set (v := (sgn ++ unsignedDecimal ip fp ++ t)%list).
  assert (Hp : startsWith v (js "(") = false).
  { subst v. rewrite E. change (js "(") with [40%N].
    destruct (isSignText_cases _ Hsgn) as [->|[->| ->]]; cbn [app startsWith];
      [now rewrite Ha40|reflexivity|reflexivity]. }
  cbv zeta. rewrite Hp. cbn [andb].
  assert (Hpct : endsWith v (js "%") = endsWith t (js "%")).
  { subst v. change (js "%") with [37%N]. rewrite app_assoc.
    rewrite endsWith_app_char. destruct t as [|d t']; [|reflexivity].
    rewrite E', app_assoc, endsWith_last. rewrite Hz37. reflexivity. }
  assert (H1 : str_eqb v (js "-") = false).
  { apply str_eqb_neq. subst v. rewrite E. change (js "-") with [45%N].
    destruct (isSignText_cases _ Hsgn) as [->|[->| ->]]; cbn [app];
      intros H; try discriminate H.
    injection H as -> _. discriminate. }
  assert (H2 : str_eqb v (js "—") = false).
  { apply str_eqb_neq. subst v. rewrite E. change (js "—") with [8212%N].
    destruct (isSignText_cases _ Hsgn) as [->|[->| ->]]; cbn [app];
      intros H; try discriminate H.
    injection H as -> _. discriminate. }
  assert (H3 : str_eqb v [] = false).
  { apply str_eqb_neq. subst v. rewrite E.
    destruct sgn; discriminate. }
  rewrite Hpct, H1, H2, H3. cbn [orb]. subst v.
  rewrite (parseFloat_literal sgn ip fp t Hsgn Hne Hip Hfp Ht).
  now rewrite decimalToNumber_not_NaN.
Qed.

Lemma cleanNumber_reads_prefix_witness :
  cleanNumber (VString (js "¥ 1,234.5万元")) = Prim2SF 1234.5%float
  /\ cleanNumber (VString (js "-12.5%")) = Prim2SF (-0.125)%float.
Proof.
  split.
  - apply (cleanNumber_reads_prefix (js "¥ 1,234.5万元") [] (js "1234")
                                    (js "5") (js "万元"));
      try reflexivity; discriminate.
  - apply (cleanNumber_reads_prefix (js "-12.5%") (js "-") (js "12") (js "5")
                                    (js "%"));
      try reflexivity; discriminate.
Defined.

Lemma span_not_digit (c : char16) (r : jsstring) :
  isDigit c = false -> span isDigit (c :: r) = ([], c :: r).
Proof. intros H. simpl. now rewrite H. Qed.

(** X5: a sign inside a pair of parentheses is not understood. The
    parentheses become a minus sign, the text then starts with two signs and
    does not parse, and the result is zero, not the negative amount. *)
Theorem cleanNumber_sign_in_parentheses (s body : jsstring) (c : char16) :
  filter (fun c => negb (isStripped c)) s
  = (js "(" ++ c :: body ++ js ")")%list ->
  (c =? 45)%N || (c =? 43)%N = true ->
  endsWith (c :: body) (js "%") = false ->
  cleanNumber (VString s) = pos_zero.
Proof.
  intros HF Hc Hpct.
  pose proof (filter_all_kept s) as Hk.
  assert (E : cleanNumber (VString s)
              = cleanNumber (VString (filter (fun c => negb (isStripped c)) s)))
    by (unfold cleanNumber; now rewrite filter_kept_idem).
  rewrite E, (cleanNumber_kept _ Hk), HF. clear E Hk HF s.
  change (js "(") with [40%N]. change (js ")") with [41%N].
  change (js "-") with [45%N].
  cbn [app]. cbn [startsWith]. rewrite ?startsWith_nil.
  change ((40 =? 40)%N && true) with true.
  change (40%N :: c :: (body ++ [41%N])%list)
    with ((40%N :: c :: body) ++ [41%N])%list.
  rewrite endsWith_last. change ((41 =? 41)%N) with true. cbn [andb].
  cbn [app].
  change (c :: (body ++ [41%N])%list) with ((c :: body) ++ [41%N])%list.
  rewrite slice_inner. cbv zeta.
  change (45%N :: c :: body) with ([45%N] ++ c :: body)%list.
  change (js "%") with [37%N] in *.
  rewrite endsWith_app_char. cbv iota.
  match goal with
  | |- (if ?b then _ else _) = _ =>
    replace b with false by (symmetry; exact Hpct)
  end.
  cbn [app].
  assert (H1 : str_eqb (45%N :: c :: body) [45%N] = false)
    by (apply str_eqb_neq; discriminate).
  assert (H2 : str_eqb (45%N :: c :: body) (js "—") = false)
    by (apply str_eqb_neq; discriminate).
  assert (H3 : str_eqb (45%N :: c :: body) [] = false)
    by (apply str_eqb_neq; discriminate).
  rewrite H1, H2, H3. cbn [orb].
  assert (Hpf : parseFloat (45%N :: c :: body) = NaN).
  { unfold parseFloat. cbn [trimStart isWhiteSpace].
    change (isWhiteSpace 45%N) with false. cbv iota. cbn [takeSign].
    apply orb_true_iff in Hc.
    destruct Hc as [Hc|Hc]; apply N.eqb_eq in Hc; subst c; reflexivity. }
  now rewrite Hpf.
Qed.

Lemma cleanNumber_sign_in_parentheses_witness :
  cleanNumber (VString (js "(-500)")) = pos_zero.
Proof.
  apply (cleanNumber_sign_in_parentheses (js "(-500)") (js "500") 45%N);
    reflexivity.
Defined.

(** Dividing by a finite Number gives [NaN] only for [NaN]. *)
Lemma SF64div_by_finite (x : number) (m : Pos.t) (e : Z) :
  isNaN (SF64div x (S754_finite false m e)) = isNaN x.
Proof.
  destruct x as [sx| sx | | sx mx ex]; try reflexivity.
  unfold SF64div, SFdiv.
  pose proof (div_core_nonneg mx m ex e) as H.
  destruct (SFdiv_core_binary prec emax (Zpos mx) ex (Zpos m) e)
    as [[mz ez] lz].
  now apply binary_round_aux_not_NaN.
Qed.

(** [parseFloat] gives [NaN] exactly on the texts that do not begin with a
    numeric literal. *)
Lemma parseFloat_NaN (s : jsstring) :
  isNaN (parseFloat s) = negb (readsNumber s).
Proof.
  unfold parseFloat, readsNumber.
  destruct (takeSign (trimStart s)) as [neg u]. cbn [snd].
  destruct (startsWith u (js "Infinity")); [reflexivity|]. cbn [orb].
  destruct u as [|c r]; [reflexivity|].
  destruct (isDigit c) eqn:Hc.
  - simpl span. rewrite Hc. destruct (span isDigit r) as [a b].
    cbv beta iota zeta.
    destruct (match b with 46%N :: r0 => span isDigit r0 | _ => ([], b) end)
      as [fp r2].
    cbn [app orb negb]. apply decimalToNumber_not_NaN.
  - rewrite (span_not_digit _ _ Hc). cbv beta iota zeta. cbn [orb].
    destruct (N.eqb_spec c 46) as [->|Hne].
    + cbn [andb]. destruct r as [|d r']; [reflexivity|].
      simpl span. destruct (isDigit d) eqn:Hd.
      * destruct (span isDigit r') as [a b]. cbv beta iota zeta.
        cbn [app negb]. apply decimalToNumber_not_NaN.
      * reflexivity.
    + cbn [andb negb].
      destruct c as [|p]; [reflexivity|].
      do 6 (destruct p as [p|p|]; try reflexivity).
      exfalso. apply Hne. reflexivity.
Qed.

(** X6: the normaliser gives [NaN] on a text exactly when the text it hands
    to [parseFloat] ends in a percent sign and does not begin with a numeric
    literal; on every other text the result is a Number. *)
Theorem cleanNumber_NaN_exactly (s : jsstring) :
  isNaN (cleanNumber (VString s))
  = endsWith (cleanedText s) (js "%") && negb (readsNumber (cleanedText s)).
Proof.
  rewrite cleanNumber_cleanedText.
  destruct (endsWith (cleanedText s) (js "%")).
  - cbn [andb]. change (numberOfZ 100) with (S754_finite false 7036874417766400 (-46)).
    now rewrite SF64div_by_finite, parseFloat_NaN.
  - cbn [andb].
    destruct (str_eqb _ _ || str_eqb _ _ || str_eqb _ _); [reflexivity|].
    now destruct (parseFloat (cleanedText s)).
Qed.

(* ===================================================================== *)
(** ** More about metric identification *)
(* ===================================================================== *)

Lemma matchRules_not_composition (rules : RuleTable) (s : jsstring) :
  matchRules rules s <> Some BusinessComposition.
Proof.
  induction rules as [|[k r] rest IH]; simpl; [discriminate|].
  destruct (existsb _ (negative r)); [exact IH|].
  destruct (existsb _ (positive r)); [discriminate|exact IH].
Qed.

(** The loop over the rule table returns the key of the first rule that
    accepts the label. *)
Lemma matchRules_first (rules : RuleTable) (s : jsstring) (key : Key.t) :
  matchRules rules s = Some (Metric key) <->
  exists before r after,
    rules = (before ++ (key, r) :: after)%list
    /\ Forall (rulePassed s) before /\ ruleAccepts s r.
Proof.
  induction rules as [|[k r] rest IH].
  - split; [discriminate|].
    intros [before [r [after [E _]]]]. destruct before; discriminate.
  - cbn [matchRules]. fold (containsAny s (negative r)).
    fold (containsAny s (positive r)).
    destruct (containsAny s (negative r)) eqn:Hn.
    + rewrite IH. split.
      * intros [before [r' [after [E [Hb Ha]]]]].
        exists ((k, r) :: before), r', after. rewrite E.
        split; [reflexivity|]. split; [|exact Ha].
        constructor; [now left|exact Hb].
      * intros [before [r' [after [E [Hb Ha]]]]].
        destruct before as [|x before'].
        -- injection E as -> -> _. destruct Ha as [Ha _]. congruence.
        -- injection E as _ E. inversion Hb; subst.
           now exists before', r', after.
    + destruct (containsAny s (positive r)) eqn:Hp.
      * split.
        -- intros H. injection H as ->. exists [], r, rest.
           split; [reflexivity|]. split; [constructor|now split].
        -- intros [before [r' [after [E [Hb Ha]]]]].
           destruct before as [|x before'].
           ++ now injection E as -> _ _.
           ++ injection E as <- _. inversion Hb as [|? ? Hx _]; subst.
              destruct Hx as [Hx|Hx]; simpl in Hx; congruence.
      * rewrite IH. split.
        -- intros [before [r' [after [E [Hb Ha]]]]].
           exists ((k, r) :: before), r', after. rewrite E.
           split; [reflexivity|]. split; [|exact Ha].
           constructor; [now right|exact Hb].
        -- intros [before [r' [after [E [Hb Ha]]]]].
           destruct before as [|x before'].
           ++ injection E as -> -> _. destruct Ha as [_ Ha]. congruence.
           ++ injection E as _ E. inversion Hb; subst.
              now exists before', r', after.
Qed.

(** X7: a label resolves to a metric key exactly when it is not empty, its
    trimmed text holds neither business-composition phrase, and the key is
    that of the first rule, in table order, that accepts the trimmed text:
    none of the rule's negative key words occurs in it and one of its
    positive key words does. *)
Theorem identifyMetric_first_rule (RULES : RuleTable) (label : jsstring)
  (key : Key.t) :
  identifyMetric RULES label = Some (Metric key) <->
  label <> [] /\ isCompositionLabel (trim label) = false
  /\ exists before r after,
       RULES = (before ++ (key, r) :: after)%list
       /\ Forall (rulePassed (trim label)) before
       /\ ruleAccepts (trim label) r.
Proof.
  destruct label as [|c l].
  - split; [discriminate|]. intros [H _]. now contradiction H.
  - rewrite (identifyMetric_nonempty RULES (c :: l)) by discriminate.
    fold (isCompositionLabel (trim (c :: l))).
    destruct (isCompositionLabel (trim (c :: l))).
    + split; [discriminate|]. intros [_ [H _]]. discriminate.
    + rewrite matchRules_first. split.
      * intros H. split; [discriminate|]. split; [reflexivity|exact H].
      * intros [_ [_ H]]. exact H.
Qed.

(** X8: whatever the rule table holds, a label resolves to the composition
    marker exactly when it contains one of the two business-composition
    phrases. *)
Theorem identifyMetric_composition (RULES : RuleTable) (label : jsstring) :
  identifyMetric RULES label = Some BusinessComposition
  <-> isCompositionLabel label = true.
Proof.
  unfold isCompositionLabel.
  destruct label as [|c l].
  - split; discriminate.
  - rewrite (identifyMetric_nonempty RULES (c :: l)) by discriminate.
    rewrite !includes_trim by (vm_compute; reflexivity).
    destruct (includes (c :: l) (js "主营业务构成")
              || includes (c :: l) (js "Business Composition")).
    + split; reflexivity.
    + split; [|discriminate].
      intros H. now apply matchRules_not_composition in H.
Qed.



(* ===================================================================== *)
(** ** More about orientation detection *)
(* ===================================================================== *)

Lemma detectFrom_first (RULES : RuleTable) (rows : list Row) (r : nat)
  (s : Strategy) (i : nat) :
  detectFrom RULES rows r = Some (s, (r + i)%nat) <->
  (i < length rows)%nat
  /\ detectRow RULES (nth i rows []) = Some s
  /\ forall j, (j < i)%nat -> detectRow RULES (nth j rows []) = None.
Proof.
  revert r i. induction rows as [|row rest IH]; intros r i.
  - simpl. split; [discriminate|]. intros [H _]. lia.
  - destruct (detectRow RULES row) as [s0|] eqn:Hd.
    + rewrite (detectFrom_head RULES row rest r s0 Hd). split.
      * intros H. injection H as -> Hi.
        assert (i = 0)%nat by lia. subst i. simpl.
        split; [lia|]. split; [exact Hd|]. intros j Hj. lia.
      * intros [_ [Hi Hj]]. destruct i as [|i'].
        -- simpl in Hi. rewrite Hd in Hi. injection Hi as ->.
           now rewrite Nat.add_0_r.
        -- specialize (Hj 0%nat ltac:(lia)). simpl in Hj. congruence.
    + rewrite (detectFrom_skip RULES row rest r Hd). destruct i as [|i'].
      * split.
        -- intros H. exfalso. clear -H.
           assert (G : forall rows a b s, detectFrom RULES rows a = Some (s, b)
                                          -> (a <= b)%nat).
           { clear. induction rows as [|x xs IHx]; intros a b s; simpl;
               [discriminate|].
             destruct (detectRow RULES x).
             - intros H. injection H as _ ->. lia.
             - intros H. apply IHx in H. lia. }
           apply G in H. lia.
        -- intros [_ [Hi _]]. simpl in Hi. congruence.
      * replace (r + S i')%nat with (S r + i')%nat by lia.
        rewrite IH. simpl length. cbn [nth]. split.
        -- intros [Hl [Hi Hj]]. split; [lia|]. split; [exact Hi|].
           intros [|j'] Hlt; [exact Hd|]. apply Hj. lia.
        -- intros [Hl [Hi Hj]]. split; [lia|]. split; [exact Hi|].
           intros j Hlt. apply (Hj (S j)). lia.
Qed.

Lemma detectFrom_none (RULES : RuleTable) (rows : list Row) (r : nat) :
  detectFrom RULES rows r = None <->
  forall j, (j < length rows)%nat -> detectRow RULES (nth j rows []) = None.
Proof.
  revert r. induction rows as [|row rest IH]; intros r.
  - simpl. split; [intros _ j Hj; lia|reflexivity].
  - destruct (detectRow RULES row) as [s0|] eqn:Hd.
    + rewrite (detectFrom_head RULES row rest r s0 Hd). split; [discriminate|].
      intros H. specialize (H 0%nat ltac:(simpl; lia)). simpl in H. congruence.
    + rewrite (detectFrom_skip RULES row rest r Hd), IH. simpl length. split.
      * intros H [|j] Hj; [exact Hd|]. apply H. lia.
      * intros H j Hj. apply (H (S j)). lia.
Qed.

Lemma nth_firstn_below (A : Type) (n i : nat) (l : list A) (d : A) :
  (i < n)%nat -> nth i (firstn n l) d = nth i l d.
Proof.
  revert i l. induction n as [|n IH]; intros i l Hi; [lia|].
  destruct l as [|x l']; [reflexivity|]. destruct i as [|i']; [reflexivity|].
  simpl. apply IH. lia.
Qed.

(** X10: the header row of a sheet is the first of its first thirty rows
    that the detection accepts, with the orientation found on that row;
    a row from the thirty-first on is never a header, and a sheet none of
    whose first thirty rows is accepted has no orientation. *)
Theorem detectStrategy_first_header (RULES : RuleTable) (rows : Sheet) :
  (forall s i,
     detectStrategy RULES rows = Some (s, i) <->
     (i < 30)%nat /\ (i < length rows)%nat
     /\ detectRow RULES (nth i rows []) = Some s
     /\ forall j, (j < i)%nat -> detectRow RULES (nth j rows []) = None)
  /\ (detectStrategy RULES rows = None <->
      forall j, (j < 30)%nat -> (j < length rows)%nat ->
                detectRow RULES (nth j rows []) = None).
Proof.
  unfold detectStrategy. split.
  - intros s i.
    rewrite (detectFrom_first RULES (firstn 30 rows) 0 s i).
    rewrite length_firstn. split.
    + intros [Hl [Hi Hj]].
      assert (H30 : (i < 30)%nat) by lia.
      split; [exact H30|]. split; [lia|].
      rewrite nth_firstn_below in Hi by exact H30. split; [exact Hi|].
      intros j Hlt. rewrite <- (nth_firstn_below _ 30) by lia. now apply Hj.
    + intros [H30 [Hl [Hi Hj]]]. split; [lia|].
      rewrite nth_firstn_below by exact H30. split; [exact Hi|].
      intros j Hlt. rewrite nth_firstn_below by lia. now apply Hj.
  - rewrite detectFrom_none, length_firstn. split.
    + intros H j H30 Hl. rewrite <- (nth_firstn_below _ 30) by exact H30.
      apply H. lia.
    + intros H j Hj. rewrite nth_firstn_below by lia. apply H; lia.
Qed.

Lemma startsWithYear_match (s : jsstring) :
  startsWithYear s = true ->
  matchFourDigits s = Some (firstn 4 s)
  /\ includes s (js "20") || includes s (js "19") = true.
Proof.
  destruct s as [|a [|b [|c [|d r]]]]; try discriminate.
  unfold startsWithYear. intros H.
  apply andb_true_iff in H. destruct H as [H Hd].
  apply andb_true_iff in H. destruct H as [H Hc].
  apply orb_true_iff in H.
  destruct H as [H|H]; apply andb_true_iff in H; destruct H as [Ha Hb];
    apply N.eqb_eq in Ha, Hb; subst a b.
  - split.
    + cbn [matchFourDigits]. change (isDigit 50%N) with true.
      change (isDigit 48%N) with true. now rewrite Hc, Hd.
    + reflexivity.
  - split.
    + cbn [matchFourDigits]. change (isDigit 49%N) with true.
      change (isDigit 57%N) with true. now rewrite Hc, Hd.
    + change (js "20") with [50%N; 48%N]. change (js "19") with [49%N; 57%N].
      apply orb_true_iff. right. reflexivity.
Qed.

Lemma yearColumns_count (cells : Row) (idx : nat) :
  (length (filter (fun cell => startsWithYear (trim (String_ cell))) cells)
   <= length (yearColumns cells idx))%nat.
Proof.
  revert idx. induction cells as [|cell rest IH]; intros idx; [simpl; lia|].
  cbn [filter yearColumns]. cbv zeta.
  destruct (startsWithYear (trim (String_ cell))) eqn:Hy.
  - destruct (startsWithYear_match _ Hy) as [Hm Hi]. rewrite Hm, Hi.
    simpl length. specialize (IH (S idx)). lia.
  - specialize (IH (S idx)).
    destruct (matchFourDigits (trim (String_ cell))); [|exact IH].
    destruct (includes _ _ || includes _ _); [simpl length; lia|exact IH].
Qed.

Lemma metricColumns_count (RULES : RuleTable) (cells : Row) (idx : nat) :
  length (metricColumns RULES cells idx) = identifiedCount RULES cells.
Proof.
  unfold identifiedCount. revert idx.
  induction cells as [|cell rest IH]; intros idx; [reflexivity|].
  cbn [metricColumns map filter].
  destruct (identifyMetric RULES (trim (String_ cell))); cbn [isSome length];
    now rewrite IH.
Qed.

(** X11: detection and header parsing agree. A row detected as a horizontal
    header yields at least two year columns, and a row detected as a
    vertical header yields at least three metric columns, so a detected
    sheet never has an empty column map. *)
Theorem detected_header_columns (RULES : RuleTable) (row : Row) (idx : nat) :
  match detectRow RULES row with
  | Some HORIZONTAL => (2 <= length (yearColumns row idx))%nat
  | Some VERTICAL => (3 <= length (metricColumns RULES row idx))%nat
  | None => True
  end.
Proof.
  unfold detectRow. cbv zeta.
  pose proof (yearColumns_count row idx) as Hy.
  destruct (2 <=? _)%nat eqn:H2.
  - apply Nat.leb_le in H2. lia.
  - fold (identifiedCount RULES row).
    destruct (3 <=? identifiedCount RULES row)%nat eqn:H3; [|exact I].
    apply Nat.leb_le in H3. now rewrite metricColumns_count.
Qed.

(* ===================================================================== *)
(** ** Unreadable files *)
(* ===================================================================== *)

Lemma processFiles_error (RULES : RuleTable) (files : list File)
  (m : YearDataMap) (e : ExtractError) :
  processFiles RULES files m = inl e <->
  exists before f after,
    files = (before ++ f :: after)%list
    /\ readable before = true /\ workbook f = None
    /\ e = FailedToParseFile (fileName f).
Proof.
  revert m. induction files as [|f rest IH]; intros m.
  - simpl. split; [discriminate|].
    intros [before [f [after [E _]]]]. destruct before; discriminate.
  - cbn [processFiles]. destruct (workbook f) as [sheets|] eqn:Hw.
    + rewrite IH. split.
      * intros [before [f' [after [E [Hr [Hn He]]]]]].
        exists (f :: before), f', after. rewrite E.
        split; [reflexivity|]. split; [|now split].
        unfold readable in *. cbn [forallb]. now rewrite Hw, Hr.
      * intros [before [f' [after [E [Hr [Hn He]]]]]].
        destruct before as [|x before'].
        -- injection E as -> _. congruence.
        -- injection E as _ E. exists before', f', after.
           split; [exact E|]. split; [|now split].
           unfold readable in *. cbn [forallb] in Hr.
           now apply andb_true_iff in Hr.
    + split.
      * intros H. injection H as <-. exists [], f, rest.
        now repeat split.
      * intros [before [f' [after [E [Hr [Hn He]]]]]].
        destruct before as [|x before'].
        -- injection E as <- _. now rewrite He.
        -- injection E as <- _. unfold readable in Hr. cbn [forallb] in Hr.
           rewrite Hw in Hr. discriminate.
Qed.

(** X12: a call fails exactly when one of the files cannot be read as a
    workbook, and the error names the first such file; the figures read from
    the files before it are not returned. A call on files that can all be
    read returns a list. *)
Theorem extract_fails_on_first_unreadable (RULES : RuleTable)
  (files : list File) :
  (forall e,
     extractFinancialData RULES files = inl e <->
     exists before f after,
       files = (before ++ f :: after)%list
       /\ readable before = true /\ workbook f = None
       /\ e = FailedToParseFile (fileName f))
  /\ (readable files = true <->
      exists out, extractFinancialData RULES files = inr out).
Proof.
  split.
  - intros e. rewrite <- (processFiles_error RULES files [] e).
    unfold extractFinancialData.
    destruct (processFiles RULES files []); split; congruence.
  - split.
    + intros H. destruct (processFiles_total RULES files [] H) as [m' Hm].
      exists (finalize m'). unfold extractFinancialData. now rewrite Hm.
    + intros [out H]. unfold extractFinancialData in H.
      destruct (processFiles RULES files []) as [e|m'] eqn:Hp;
        [discriminate|].
      destruct (readable files) eqn:Hr; [reflexivity|]. exfalso.
      clear H out. revert Hp. generalize (@nil (jsstring * FinancialYearData)).
      induction files as [|f rest IH]; intros m0 Hp; [discriminate|].
      unfold readable in Hr. cbn [forallb] in Hr. cbn [processFiles] in Hp.
      destruct (workbook f); [|discriminate]. cbn [isSome andb] in Hr.
      exact (IH Hr _ Hp).
Qed.

(* ===================================================================== *)
(** ** What a data row writes *)
(* ===================================================================== *)

Lemma Key_eqb_eq (a b : Key.t) : Key.eqb a b = true <-> a = b.
Proof. destruct a, b; simpl; split; congruence. Qed.

Lemma Key_eqb_neq (a b : Key.t) : Key.eqb a b = false <-> a <> b.
Proof.
  rewrite <- Key_eqb_eq. destruct (Key.eqb a b); split; congruence.
Qed.

Lemma writeMetric_stored (y : jsstring) (key : Key.t) (v : number)
  (m : YearDataMap) :
  writeMetric y key v m = updateYear y (setMetric key (stored key v)) m.
Proof. now destruct key. Qed.

Lemma lookupYear_ensure_other (y k : jsstring) (m : YearDataMap) :
  str_eqb y k = false -> lookupYear k (ensureYear y m) = lookupYear k m.
Proof.
  intros H. unfold ensureYear. destruct (lookupYear y m); [reflexivity|].
  rewrite lookupYear_app. destruct (lookupYear k m); [reflexivity|].
  simpl. now rewrite H.
Qed.

(** The record of a year after the write of one cell. *)
Lemma write_lookup (y k : jsstring) (key : Key.t) (v : number)
  (m : YearDataMap) :
  lookupYear k (writeMetric y key v (ensureYear y m)) =
  if str_eqb y k
  then Some (setMetric key (stored key v)
                       (match lookupYear y m with
                        | Some d => d
                        | None => newYear y
                        end))
  else lookupYear k m.
Proof.
  rewrite writeMetric_stored, lookupYear_update.
  destruct (str_eqb y k) eqn:E.
  - apply str_eqb_eq in E. subst k. rewrite lookupYear_ensure.
    now destruct (lookupYear y m).
  - now apply lookupYear_ensure_other.
Qed.

Lemma write_metricAt (y k : jsstring) (key q : Key.t) (v : number)
  (m : YearDataMap) :
  metricAt q k (writeMetric y key v (ensureYear y m)) =
  if str_eqb y k && Key.eqb q key then Some (stored key v)
  else metricAt q k m.
Proof.
  unfold metricAt. rewrite write_lookup.
  destruct (str_eqb y k) eqn:E; [|reflexivity].
  apply str_eqb_eq in E. subst k. cbn [andb].
  rewrite getMetric_setMetric. destruct (Key.eqb q key); [reflexivity|].
  destruct (lookupYear y m); [reflexivity|]. now destruct q.
Qed.

Lemma write_compositionAt (y k : jsstring) (key : Key.t) (v : number)
  (m : YearDataMap) :
  compositionAt k (writeMetric y key v (ensureYear y m)) = compositionAt k m.
Proof.
  unfold compositionAt. rewrite write_lookup.
  destruct (str_eqb y k) eqn:E; [|reflexivity].
  apply str_eqb_eq in E. subst k. rewrite setMetric_composition.
  now destruct (lookupYear y m).
Qed.

Lemma horizontalRow_fold (RULES : RuleTable) (cols : list (nat * jsstring))
  (m : YearDataMap) (row : Row) (key : Key.t) :
  identifyMetric RULES (rowLabel row) = Some (Metric key) ->
  horizontalRow RULES cols m row = fold_left (horizontalCell row key) cols m.
Proof.
  intros H. unfold horizontalRow. fold (rowLabel row). rewrite H.
  revert m. induction cols as [|[i y] cols IH]; intros m; [reflexivity|].
  cbn [fold_left]. now rewrite IH.
Qed.

Lemma horizontalCells_other_metric (row : Row) (key q : Key.t)
  (cols : list (nat * jsstring)) (m : YearDataMap) (k : jsstring) :
  q <> key ->
  metricAt q k (fold_left (horizontalCell row key) cols m) = metricAt q k m.
Proof.
  intros Hq. apply Key_eqb_neq in Hq. revert m.
  induction cols as [|[i y] cols IH]; intros m; [reflexivity|].
  cbn [fold_left]. rewrite IH. unfold horizontalCell. cbn [fst snd].
  now rewrite write_metricAt, Hq, andb_false_r.
Qed.

Lemma horizontalCells_other_year (row : Row) (key : Key.t)
  (cols : list (nat * jsstring)) (m : YearDataMap) (k : jsstring) :
  ~ In k (map snd cols) ->
  lookupYear k (fold_left (horizontalCell row key) cols m) = lookupYear k m.
Proof.
  revert m. induction cols as [|[i y] cols IH]; intros m Hk; [reflexivity|].
  cbn [fold_left]. rewrite IH by (intros H; apply Hk; now right).
  unfold horizontalCell. cbn [fst snd]. rewrite write_lookup.
  destruct (str_eqb y k) eqn:E; [|reflexivity].
  apply str_eqb_eq in E. exfalso. apply Hk. now left.
Qed.

Lemma horizontalCells_composition (row : Row) (key : Key.t)
  (cols : list (nat * jsstring)) (m : YearDataMap) (k : jsstring) :
  compositionAt k (fold_left (horizontalCell row key) cols m)
  = compositionAt k m.
Proof.
  revert m. induction cols as [|[i y] cols IH]; intros m; [reflexivity|].
  cbn [fold_left]. rewrite IH. unfold horizontalCell. cbn [fst snd].
  apply write_compositionAt.
Qed.

(** X13: a data row of a horizontal sheet whose label resolves to a metric
    key writes, for every year of the header, the cleaned cell of the last
    column of that year (its magnitude for capital expenditure) under that
    key, and nothing else: the other metrics, the other years and the
    composition items are as before. *)
Theorem horizontalRow_writes (RULES : RuleTable)
  (cols : list (nat * jsstring)) (m : YearDataMap) (row : Row)
  (key : Key.t) :
  identifyMetric RULES (rowLabel row) = Some (Metric key) ->
  (forall pre i y post,
     cols = (pre ++ (i, y) :: post)%list -> ~ In y (map snd post) ->
     metricAt key y (horizontalRow RULES cols m row)
     = Some (stored key (cleanNumber (cellAt row i))))
  /\ (forall q y, q <> key ->
        metricAt q y (horizontalRow RULES cols m row) = metricAt q y m)
  /\ (forall y, ~ In y (map snd cols) ->
        lookupYear y (horizontalRow RULES cols m row) = lookupYear y m)
  /\ (forall y,
        compositionAt y (horizontalRow RULES cols m row) = compositionAt y m).
Proof.
  intros H. rewrite (horizontalRow_fold RULES cols m row key H).
  split; [|split; [|split]].
  - intros pre i y post -> Hpost.
    rewrite fold_left_app. cbn [fold_left].
    unfold metricAt. rewrite horizontalCells_other_year by exact Hpost.
    fold (metricAt key y (horizontalCell row key
                            (fold_left (horizontalCell row key) pre m) (i, y))).
    unfold horizontalCell at 1. cbn [fst snd]. rewrite write_metricAt.
    now rewrite str_eqb_refl, (proj2 (Key_eqb_eq key key) eq_refl).
  - intros q y Hq. now apply horizontalCells_other_metric.
  - intros y Hy. now apply horizontalCells_other_year.
  - intros y. apply horizontalCells_composition.
Qed.

Lemma horizontalRow_writes_witness :
  metricAt Key.capex (js "2021")
           (horizontalRow METRIC_RULES [(1%nat, js "2020"); (2%nat, js "2021")]
                          [] (textRow ["资本开支"; "(300)"; "-450"]))
  = Some (Prim2SF 450%float).
Proof.
  apply (proj1 (horizontalRow_writes METRIC_RULES
                  [(1%nat, js "2020"); (2%nat, js "2021")] []
                  (textRow ["资本开支"; "(300)"; "-450"]) Key.capex
                  ltac:(vm_compute; reflexivity))
               [(1%nat, js "2020")] 2%nat (js "2021") []).
  - reflexivity.
  - simpl. tauto.
Defined.

Lemma cellUpdate_metric (row : Row) (entry : nat * MetricId) (q : Key.t)
  (d : FinancialYearData) :
  getMetric q (cellUpdate row entry d) =
  match snd entry with
  | Metric key =>
    if Key.eqb q key
    then Some (stored key (cleanNumber (cellAt row (fst entry))))
    else getMetric q d
  | BusinessComposition => getMetric q d
  end.
Proof.
  destruct entry as [i [key|]]; unfold cellUpdate; cbn [fst snd].
  - destruct key; rewrite getMetric_setMetric; reflexivity.
  - now destruct q.
Qed.

Lemma cellUpdates_other_metric (row : Row) (q : Key.t)
  (cols : list (nat * MetricId)) (d : FinancialYearData) :
  (forall j, ~ In (j, Metric q) cols) ->
  getMetric q (fold_left (fun r e => cellUpdate row e r) cols d)
  = getMetric q d.
Proof.
  revert d. induction cols as [|[i id] cols IH]; intros d Hq; [reflexivity|].
  cbn [fold_left]. rewrite IH by (intros j H; apply (Hq j); now right).
  rewrite cellUpdate_metric. cbn [fst snd].
  destruct id as [key|]; [|reflexivity].
  destruct (Key.eqb q key) eqn:E; [|reflexivity].
  apply Key_eqb_eq in E. subst key. exfalso. apply (Hq i). now left.
Qed.

Lemma verticalCells_other_year (row : Row) (y k : jsstring)
  (cols : list (nat * MetricId)) (m : YearDataMap) :
  k <> y ->
  lookupYear k (fold_left (verticalCell row y) cols m) = lookupYear k m.
Proof.
  intros Hk. revert m.
  induction cols as [|e cols IH]; intros m; [reflexivity|].
  cbn [fold_left]. rewrite IH, verticalCell_lookup.
  destruct (str_eqb y k) eqn:E; [|reflexivity].
  apply str_eqb_eq in E. congruence.
Qed.

(** X14: a data row of a vertical sheet that begins with four digits writes
    into the record of that year, for every metric of the header, the
    cleaned cell of the last column of that metric (its magnitude for
    capital expenditure); the metrics the header does not name and the
    records of the other years are as before. *)
Theorem verticalRow_writes (cols : list (nat * MetricId)) (m : YearDataMap)
  (row : Row) (y : jsstring) :
  matchLeadingFourDigits (trim (String_ (cellAt row 0))) = Some y ->
  (forall pre i key post,
     cols = (pre ++ (i, Metric key) :: post)%list ->
     (forall j, ~ In (j, Metric key) post) ->
     metricAt key y (verticalRow cols m row)
     = Some (stored key (cleanNumber (cellAt row i))))
  /\ (forall q, (forall j, ~ In (j, Metric q) cols) ->
        metricAt q y (verticalRow cols m row) = metricAt q y m)
  /\ (forall k, k <> y ->
        lookupYear k (verticalRow cols m row) = lookupYear k m).
Proof.
  intros Hy. unfold verticalRow. cbv zeta. rewrite Hy.
  pose proof (lookupYear_ensure y m) as He.
  set (d0 := match lookupYear y m with Some d => d | None => newYear y end).
  assert (Hd0 : lookupYear y (ensureYear y m) = Some d0)
    by (rewrite He; unfold d0; now destruct (lookupYear y m)).
  split; [|split].
  - intros pre i key post -> Hpost. unfold metricAt.
    rewrite (verticalCells_lookup row y _ _ d0 Hd0).
    rewrite fold_left_app. cbn [fold_left].
    rewrite cellUpdates_other_metric by exact Hpost.
    rewrite cellUpdate_metric. cbn [fst snd].
    now rewrite (proj2 (Key_eqb_eq key key) eq_refl).
  - intros q Hq. unfold metricAt.
    rewrite (verticalCells_lookup row y _ _ d0 Hd0).
    rewrite cellUpdates_other_metric by exact Hq.
    unfold d0. destruct (lookupYear y m); [reflexivity|]. now destruct q.
  - intros k Hk. rewrite verticalCells_other_year by exact Hk.
    apply lookupYear_ensure_other. apply str_eqb_neq. congruence.
Qed.

Lemma verticalRow_writes_witness :
  metricAt Key.revenue (js "2020")
           (verticalRow [(1%nat, Metric Key.revenue);
                         (2%nat, Metric Key.revenue)]
                        [] (textRow ["2020年"; "800"; "1,000"]))
  = Some (Prim2SF 1000%float).
Proof.
  apply (proj1 (verticalRow_writes
                  [(1%nat, Metric Key.revenue); (2%nat, Metric Key.revenue)]
                  [] (textRow ["2020年"; "800"; "1,000"]) (js "2020")
                  ltac:(vm_compute; reflexivity))
               [(1%nat, Metric Key.revenue)] 2%nat Key.revenue []).
  - reflexivity.
  - intros j H. exact H.
Defined.

(* ===================================================================== *)
(** ** Figures are never lost *)
(* ===================================================================== *)

Lemma keepsFigures_refl (m : YearDataMap) : keepsFigures m m.
Proof. intros y key v H. now exists v. Qed.

Lemma keepsFigures_trans (m1 m2 m3 : YearDataMap) :
  keepsFigures m1 m2 -> keepsFigures m2 m3 -> keepsFigures m1 m3.
Proof.
  intros H12 H23 y key v H. destruct (H12 y key v H) as [v' H'].
  exact (H23 y key v' H').
Qed.

Lemma keepsFigures_horizontalRow (RULES : RuleTable)
  (cols : list (nat * jsstring)) (m : YearDataMap) (row : Row) :
  keepsFigures m (horizontalRow RULES cols m row).
Proof.
  destruct (identifyMetric RULES (rowLabel row)) as [[key|]|] eqn:H.
  - rewrite (horizontalRow_fold RULES cols m row key H).
    apply fold_left_invariant; [|apply keepsFigures_refl].
    intros a [i y] _ Ha. apply (keepsFigures_trans _ _ _ Ha).
    intros k q v Hv. unfold horizontalCell. cbn [fst snd].
    rewrite write_metricAt.
    destruct (str_eqb y k && Key.eqb q key); eauto.
  - unfold horizontalRow. fold (rowLabel row). rewrite H.
    apply keepsFigures_refl.
  - unfold horizontalRow. fold (rowLabel row). rewrite H.
    apply keepsFigures_refl.
Qed.

Lemma keepsFigures_ensure (y : jsstring) (m : YearDataMap) :
  keepsFigures m (ensureYear y m).
Proof.
  intros k q v H. exists v. unfold metricAt in *.
  destruct (str_eqb y k) eqn:E.
  - apply str_eqb_eq in E. subst k. rewrite lookupYear_ensure.
    destruct (lookupYear y m); [exact H|discriminate].
  - now rewrite lookupYear_ensure_other.
Qed.

Lemma keepsFigures_verticalCell (row : Row) (y : jsstring) (m : YearDataMap)
  (entry : nat * MetricId) :
  keepsFigures m (verticalCell row y m entry).
Proof.
  intros k q v H. unfold metricAt in *. rewrite verticalCell_lookup.
  destruct (str_eqb y k); [|now exists v].
  destruct (lookupYear k m) as [d|]; [|discriminate]. cbn [option_map].
  rewrite cellUpdate_metric. destruct (snd entry) as [key|]; [|now exists v].
  destruct (Key.eqb q key); eauto.
Qed.

Lemma keepsFigures_verticalRow (cols : list (nat * MetricId))
  (m : YearDataMap) (row : Row) :
  keepsFigures m (verticalRow cols m row).
Proof.
  unfold verticalRow. cbv zeta.
  destruct (matchLeadingFourDigits _) as [y|]; [|apply keepsFigures_refl].
  apply fold_left_invariant; [|apply keepsFigures_ensure].
  intros a e _ Ha. apply (keepsFigures_trans _ _ _ Ha).
  apply keepsFigures_verticalCell.
Qed.

Lemma keepsFigures_processSheet (RULES : RuleTable) (m : YearDataMap)
  (rows : Sheet) :
  keepsFigures m (processSheet RULES m rows).
Proof.
  unfold processSheet. destruct rows as [|r0 rs]; [apply keepsFigures_refl|].
  destruct (detectStrategy RULES (r0 :: rs)) as [[[|] h]|];
    [| |apply keepsFigures_refl].
  - cbv zeta. apply fold_left_invariant; [|apply keepsFigures_refl].
    intros a row _ Ha. apply (keepsFigures_trans _ _ _ Ha).
    apply keepsFigures_horizontalRow.
  - cbv zeta. apply fold_left_invariant; [|apply keepsFigures_refl].
    intros a row _ Ha. apply (keepsFigures_trans _ _ _ Ha).
    apply keepsFigures_verticalRow.
Qed.

Lemma keepsFigures_processFiles (RULES : RuleTable) (files : list File)
  (m m' : YearDataMap) :
  processFiles RULES files m = inr m' -> keepsFigures m m'.
Proof.
  revert m. induction files as [|f rest IH]; intros m H.
  - injection H as <-. apply keepsFigures_refl.
  - cbn [processFiles] in H. destruct (workbook f) as [sheets|];
      [|discriminate].
    apply IH in H. refine (keepsFigures_trans _ _ _ _ H).
    apply fold_left_invariant; [|apply keepsFigures_refl].
    intros a rows _ Ha. apply (keepsFigures_trans _ _ _ Ha).
    apply keepsFigures_processSheet.
Qed.

Lemma processFiles_app (RULES : RuleTable) (files more : list File)
  (m : YearDataMap) :
  processFiles RULES (files ++ more)%list m =
  match processFiles RULES files m with
  | inl e => inl e
  | inr m1 => processFiles RULES more m1
  end.
Proof.
  revert m. induction files as [|f rest IH]; intros m; [reflexivity|].
  cbn [app processFiles]. destruct (workbook f); [apply IH|reflexivity].
Qed.

Lemma getMetric_fillDefaults (key : Key.t) (p : FinancialYearData) :
  isSome (getMetric key (fillDefaults p))
  = isSome (getMetric key p)
    || (Key.eqb key Key.revenue || Key.eqb key Key.netProfitParent
        || Key.eqb key Key.totalAssets || Key.eqb key Key.equityParent).
Proof.
  destruct key; cbn [getMetric fillDefaults revenue netProfitParent
                     totalAssets equityParent operatingCashFlow capex
                     costOfRevenue salesExpenses managementExpenses
                     financialExpenses researchExpenses taxExpenses Key.eqb];
    rewrite ?orb_false_r;
    try reflexivity;
    match goal with
    | |- isSome (orZero ?o) = _ => destruct o; reflexivity
    end.
Qed.

Lemma isSome_true (A : Type) (o : option A) :
  isSome o = true <-> exists v, o = Some v.
Proof.
  destruct o; simpl; split; try discriminate; eauto.
  intros [v H]. discriminate.
Qed.

(** X15: uploading more files never loses a year or a figure. Every year
    returned for a list of files is returned for the list followed by
    further readable files, and every metric that is defined in the record
    of the year is defined there again (its value may have been
    overwritten). *)
Theorem more_files_keep_figures (RULES : RuleTable) (files more : list File)
  (out out' : list FinancialYearData) (d : FinancialYearData) :
  extractFinancialData RULES files = inr out ->
  extractFinancialData RULES (files ++ more)%list = inr out' ->
  In d out ->
  exists d', In d' out' /\ year d' = year d
    /\ forall key, isSome (getMetric key d) = true ->
                   isSome (getMetric key d') = true.
Proof.
  unfold extractFinancialData. rewrite processFiles_app.
  destruct (processFiles RULES files []) as [e|m1] eqn:H1; [discriminate|].
  destruct (processFiles RULES more m1) as [e|m2] eqn:H2; [discriminate|].
  intros E1 E2 Hd. injection E1 as <-. injection E2 as <-.
  pose proof (wellKeyed_processFiles RULES files [] m1 wellKeyed_nil H1) as W1.
  pose proof (wellKeyed_processFiles RULES more m1 m2 W1 H2) as W2.
  pose proof (keepsFigures_processFiles RULES more m1 m2 H2) as K.
  apply (finalize_In m1 d W1) in Hd. destruct Hd as [k [p [Hin [Hcore ->]]]].
  assert (L1 : lookupYear k m1 = Some p)
    by (apply lookupYear_unique; [exact (proj1 W1)|exact Hin]).
  assert (Hsome : exists key v, getMetric key p = Some v).
  { destruct Hcore as [H|[H|H]].
    - exists Key.revenue. destruct (revenue p) as [v|] eqn:E;
        [now exists v|contradiction].
    - exists Key.netProfitParent. destruct (netProfitParent p) as [v|] eqn:E;
        [exists v; exact E|contradiction].
    - exists Key.totalAssets. destruct (totalAssets p) as [v|] eqn:E;
        [exists v; exact E|contradiction]. }
  destruct Hsome as [key0 [v0 Hv0]].
  assert (M0 : metricAt key0 k m1 = Some v0)
    by (unfold metricAt; now rewrite L1).
  destruct (K k key0 v0 M0) as [v0' M0'].
  unfold metricAt in M0'.
  destruct (lookupYear k m2) as [p2|] eqn:L2; [|discriminate].
  pose proof (lookupYear_In _ _ _ L2) as Hin2.
  destruct (proj2 W1 k p Hin) as [Yp _].
  destruct (proj2 W2 k p2 Hin2) as [Yp2 _].
  assert (Hkeep : forall key, isSome (getMetric key p) = true ->
                              isSome (getMetric key p2) = true).
  { intros key Hk. apply isSome_true in Hk. destruct Hk as [v Hv].
    assert (M : metricAt key k m1 = Some v)
      by (unfold metricAt; now rewrite L1).
    destruct (K k key v M) as [v' M']. unfold metricAt in M'.
    rewrite L2 in M'. now rewrite M'. }
  exists (fillDefaults p2). split; [|split].
  - apply (finalize_In m2 _ W2). exists k, p2. split; [exact Hin2|].
    split; [|reflexivity].
    assert (C : forall key, isSome (getMetric key p) = true ->
                            getMetric key p2 <> None).
    { intros key Hk. specialize (Hkeep key Hk).
      destruct (getMetric key p2); [discriminate|discriminate]. }
    destruct Hcore as [H|[H|H]].
    + left. apply (C Key.revenue). simpl. now destruct (revenue p).
    + right. left. apply (C Key.netProfitParent). simpl.
      now destruct (netProfitParent p).
    + right. right. apply (C Key.totalAssets). simpl.
      now destruct (totalAssets p).
  - cbn [fillDefaults year]. congruence.
  - intros key. rewrite !getMetric_fillDefaults.
    destruct (isSome (getMetric key p)) eqn:E.
    + now rewrite (Hkeep key E).
    + cbn [orb]. intros H. rewrite H. apply orb_true_r.
Qed.

Lemma more_files_keep_figures_witness :
  exists d',
    In d' [ setMetric Key.costOfRevenue (numberOfZ 500)
              (coreRecord "2020" (numberOfZ 800) (numberOfZ 80)
                          pos_zero pos_zero);
            setMetric Key.costOfRevenue (numberOfZ 600)
              (coreRecord "2021" (numberOfZ 900) (numberOfZ 95)
                          (numberOfZ 5000) pos_zero);
            coreRecord "2022" (numberOfZ 1200) pos_zero (numberOfZ 5500)
                       pos_zero ]
    /\ year d' = js "2021"
    /\ forall key,
         isSome (getMetric key
                   (coreRecord "2021" (numberOfZ 1000) pos_zero
                               (numberOfZ 5000) pos_zero)) = true ->
         isSome (getMetric key d') = true.
Proof.
  apply (more_files_keep_figures METRIC_RULES
           [singleSheetFile (js "a.xlsx") scenarioA]
           [singleSheetFile (js "b.csv") scenarioB3]
           [ coreRecord "2021" (numberOfZ 1000) pos_zero (numberOfZ 5000)
                        pos_zero;
             coreRecord "2022" (numberOfZ 1200) pos_zero (numberOfZ 5500)
                        pos_zero ]
           [ setMetric Key.costOfRevenue (numberOfZ 500)
               (coreRecord "2020" (numberOfZ 800) (numberOfZ 80)
                           pos_zero pos_zero);
             setMetric Key.costOfRevenue (numberOfZ 600)
               (coreRecord "2021" (numberOfZ 900) (numberOfZ 95)
                           (numberOfZ 5000) pos_zero);
             coreRecord "2022" (numberOfZ 1200) pos_zero (numberOfZ 5500)
                        pos_zero ]
           (coreRecord "2021" (numberOfZ 1000) pos_zero (numberOfZ 5000)
                       pos_zero)).
  - vm_compute. reflexivity.
  - vm_compute. reflexivity.
  - left. reflexivity.
Defined.

(* ===================================================================== *)
(** ** Reading back the CSV export *)
(* ===================================================================== *)

Lemma filter_blanks (p : jsvalue -> bool) (w : nat) :
  p (VString []) = false -> filter p (blanks w) = [].
Proof.
  intros H. induction w as [|w IH]; [reflexivity|].
  unfold blanks in *. cbn [repeat filter]. now rewrite H.
Qed.

Lemma filter_map_blanks (p : jsstring -> bool) (w : nat) :
  p [] = false ->
  filter p (map (fun c => trim (String_ c)) (blanks w)) = [].
Proof.
  intros H. induction w as [|w IH]; [reflexivity|].
  unfold blanks in *. cbn [repeat map filter String_].
  change (trim []) with (@nil char16). now rewrite H.
Qed.

(** A row of at most two cells that are not blank, the first of them
    neither a year nor a metric label, is no header. *)
Lemma detectRow_info (label : jsstring) (v : jsvalue) (w : nat) :
  startsWithYear (trim label) = false ->
  identifyMetric METRIC_RULES (trim label) = None ->
  detectRow METRIC_RULES (VString label :: v :: blanks w) = None.
Proof.
  intros Hy Hi. unfold detectRow. cbv zeta.
  cbn [filter map String_]. rewrite Hy, Hi. cbn [isSome].
  rewrite (filter_blanks _ w eq_refl).
  rewrite (filter_map_blanks _ w eq_refl).
  destruct (startsWithYear (trim (String_ v)));
    destruct (isSome (identifyMetric METRIC_RULES (trim (String_ v))));
    reflexivity.
Qed.

Lemma detectRow_blank (w : nat) :
  detectRow METRIC_RULES (VString [] :: blanks w) = None.
Proof.
  unfold detectRow. cbv zeta. cbn [filter map String_].
  change (trim []) with (@nil char16).
  cbn [startsWithYear identifyMetric isSome].
  rewrite (filter_blanks _ w eq_refl).
  now rewrite (filter_map_blanks _ w eq_refl).
Qed.

Lemma trim_head (c : char16) (s : jsstring) :
  isWhiteSpace c = false -> exists r, trim (c :: s) = c :: r.
Proof.
  intros Hc. unfold trim. cbn [trimStart]. rewrite Hc.
  destruct (trimEnd_split (c :: s)) as [ws [E Hws]].
  destruct (trimEnd (c :: s)) as [|c' r].
  - cbn [app] in E. subst ws. cbn [forallb] in Hws.
    rewrite Hc in Hws. discriminate.
  - injection E as <- _. now exists r.
Qed.

(** A row of the valuation block does not begin with a year. *)
Lemma dcfRow_no_year (row : Row) :
  isDcfRow row = true ->
  matchLeadingFourDigits (trim (String_ (cellAt row 0))) = None.
Proof.
  destruct row as [|[| | | |s|] rest]; try discriminate.
  unfold isDcfRow. cbn [cellAt nth String_]. intros H.
  apply orb_true_iff in H. destruct H as [H|H].
  - apply orb_true_iff in H. destruct H as [H|H].
    + apply str_eqb_eq in H. now subst s.
    + apply existsb_exists in H. destruct H as [l [Hin Hl]].
      apply str_eqb_eq in Hl. subst l.
      repeat (destruct Hin as [<-|Hin]; [vm_compute; reflexivity|]).
      destruct Hin.
  - apply startsWith_spec in H. destruct H as [post ->].
    destruct (trim_head 89%N ([101; 97; 114; 32]%N ++ post)%list eq_refl)
      as [r Hr].
    enough (G : forall t, t = 89%N :: r -> matchLeadingFourDigits t = None)
      by (apply G; exact Hr).
    intros t ->. now destruct r as [|b [|c [|d r']]].
Qed.

Lemma verticalRows_dcf (cols : list (nat * MetricId)) (rows : list Row)
  (m : YearDataMap) :
  forallb isDcfRow rows = true -> fold_left (verticalRow cols) rows m = m.
Proof.
  induction rows as [|row rest IH]; intros H; [reflexivity|].
  cbn [forallb] in H. apply andb_true_iff in H. destruct H as [Hr Hrest].
  cbn [fold_left]. unfold verticalRow at 2. cbv zeta.
  rewrite (dcfRow_no_year row Hr). now apply IH.
Qed.

Lemma detectFrom_prefix (RULES : RuleTable) (info rest : list Row) (r : nat) :
  forallb (fun row => negb (isSome (detectRow RULES row))) info = true ->
  detectFrom RULES (info ++ rest)%list r
  = detectFrom RULES rest (r + length info)%nat.
Proof.
  revert r. induction info as [|row info IH]; intros r H.
  - cbn [app length]. now rewrite Nat.add_0_r.
  - cbn [forallb] in H. apply andb_true_iff in H. destruct H as [Hrow Hinfo].
    cbn [app length]. rewrite detectFrom_skip
      by (destruct (detectRow RULES row); [discriminate|reflexivity]).
    rewrite (IH (S r) Hinfo). f_equal. lia.
Qed.

(** The three information rows of the export are no header when the project
    name and the date fill one cell each, whatever the two cells hold. *)
Lemma infoRows_undetected (projectName exportDate : jsvalue)
  (w0 w1 w2 : nat) :
  forallb (fun row => negb (isSome (detectRow METRIC_RULES row)))
          (infoRows [projectName] [exportDate] w0 w1 w2) = true.
Proof.
  unfold infoRows. cbn [forallb app].
  rewrite !detectRow_info by (vm_compute; reflexivity).
  now rewrite detectRow_blank.
Qed.

(** A project name with commas fills several cells, and the first
    information row can then be taken as a header: the name [2023,2024]
    makes it a horizontal one. *)
Lemma infoRows_with_commas :
  detectRow METRIC_RULES
    (nth 0 (infoRows [VString (js "2023"); VString (js "2024")]
                     [VString (js "2024/5/1")] 16 17 18) [])
  = Some HORIZONTAL.
Proof. vm_compute. reflexivity. Qed.

(** X16: the importer reads back the historical table of the sheet that the
    dashboard exports, provided none of the rows before its header is itself
    taken as a header (there are fewer than thirty of them). This holds of
    the three information rows when the project name and the date fill one
    cell each; a name with commas can break it. The header of the table is
    then found as a vertical header; its thirteen columns of amounts and of
    composition items are read as the metrics they were written from, the
    five derived columns are not read; and the rows of the valuation block
    that follows the data write nothing. *)
Theorem exported_sheet_is_read_back (info data dcf : list Row)
  (m : YearDataMap) :
  (length info < 30)%nat ->
  forallb (fun row => negb (isSome (detectRow METRIC_RULES row))) info = true ->
  forallb isDcfRow dcf = true ->
  processSheet METRIC_RULES m (info ++ historicalHeaders :: data ++ dcf)%list
  = fold_left (verticalRow exportColumns) data m.
Proof.
  intros Hlen Hinfo Hdcf. unfold processSheet.
  assert (Hd : detectStrategy METRIC_RULES
                 (info ++ historicalHeaders :: data ++ dcf)%list
               = Some (VERTICAL, length info)).
  { unfold detectStrategy. rewrite firstn_app.
    rewrite (firstn_all2 info) by lia.
    destruct (30 - length info)%nat as [|k] eqn:E; [lia|].
    cbn [firstn]. rewrite (detectFrom_prefix _ _ _ _ Hinfo).
    apply detectFrom_head. vm_compute. reflexivity. }
  rewrite Hd.
  assert (Hnth : nth (length info)
                     (info ++ historicalHeaders :: data ++ dcf)%list []
                 = historicalHeaders) by apply nth_middle.
  assert (Hskip : skipn (S (length info))
                        (info ++ historicalHeaders :: data ++ dcf)%list
                  = (data ++ dcf)%list).
  { change (info ++ historicalHeaders :: data ++ dcf)%list
      with (info ++ [historicalHeaders] ++ data ++ dcf)%list.
    rewrite app_assoc.
    replace (S (length info)) with (length (info ++ [historicalHeaders])%list)
      by (rewrite length_app; simpl; lia).
    now rewrite skipn_app, skipn_all, Nat.sub_diag. }
  assert (Hc : metricColumns METRIC_RULES historicalHeaders 0 = exportColumns)
    by (vm_compute; reflexivity).
  destruct (info ++ historicalHeaders :: data ++ dcf)%list as [|r0 rs] eqn:E;
    [destruct info; discriminate|].
  rewrite <- E in *. cbv zeta.
  rewrite Hnth, Hskip, Hc, fold_left_app. now apply verticalRows_dcf.
Qed.

Lemma exported_sheet_is_read_back_witness :
  processSheet METRIC_RULES []
    (infoRows [VString (js "示例公司")] [VString (js "2024/5/1")] 17 17 18
     ++ historicalHeaders
        :: [textRow ["2023"; "1000"]]
        ++ [textRow ["参数"; "数值"]; textRow ["Year 1"; "5"; "4"]])%list
  = fold_left (verticalRow exportColumns) [textRow ["2023"; "1000"]] [].
Proof.
  apply (exported_sheet_is_read_back
           (infoRows [VString (js "示例公司")] [VString (js "2024/5/1")]
                     17 17 18)
           [textRow ["2023"; "1000"]]
           [textRow ["参数"; "数值"]; textRow ["Year 1"; "5"; "4"]] []).
  - simpl. lia.
  - vm_compute. reflexivity.
  - reflexivity.
Defined.

(* ===================================================================== *)
(** ** The upload handler *)
(* ===================================================================== *)

(** The final list is empty exactly when no year of the map has one of the
    three core metrics. *)
Lemma finalize_nonempty (m : YearDataMap) :
  wellKeyed m ->
  (finalize m <> [] <-> exists k p, In (k, p) m /\ hasCoreMetric p).
Proof.
  intros W. split.
  - intros H. destruct (finalize m) as [|d rest] eqn:E; [contradiction|].
    assert (Hd : In d (finalize m)) by (rewrite E; now left).
    apply (finalize_In m d W) in Hd. destruct Hd as [k [p [Hin [Hc _]]]].
    now exists k, p.
  - intros [k [p [Hin Hc]]] E.
    assert (Hd : In (fillDefaults p) (finalize m))
      by (apply (finalize_In m _ W); now exists k, p).
    rewrite E in Hd. destruct Hd.
Qed.

(** X17: an upload is accepted exactly when every file can be read and some
    year of the extracted map has revenue, net profit attributable to the
    parent or total assets. An upload that is not accepted ends in the
    error status with a message, and leaves the projects, the view and the
    selected project as they were. *)
Theorem upload_accepted_iff (st : App.State) (files : list File)
  (projectName freshId : jsstring) (now : number) :
  (App.status (App.handleAnalyzeComplete st files projectName freshId now)
   = App.SUCCESS
   <-> exists m, processFiles METRIC_RULES files [] = inr m
                 /\ exists k p, In (k, p) m /\ hasCoreMetric p)
  /\ (App.status (App.handleAnalyzeComplete st files projectName freshId now)
      <> App.SUCCESS ->
      App.status (App.handleAnalyzeComplete st files projectName freshId now)
      = App.ERROR
      /\ App.error (App.handleAnalyzeComplete st files projectName freshId now)
         <> None
      /\ App.projects (App.handleAnalyzeComplete st files projectName freshId now)
         = App.projects st
      /\ App.view (App.handleAnalyzeComplete st files projectName freshId now)
         = App.view st
      /\ App.activeProjectId
           (App.handleAnalyzeComplete st files projectName freshId now)
         = App.activeProjectId st).
Proof.
  unfold App.handleAnalyzeComplete, extractFinancialData.
  destruct (processFiles METRIC_RULES files []) as [e|m] eqn:Hp.
  - split.
    + split; [discriminate|]. intros [m [H _]]. discriminate.
    + intros _. cbn. repeat split. discriminate.
  - pose proof (wellKeyed_processFiles METRIC_RULES files [] m
                                       wellKeyed_nil Hp) as W.
    pose proof (finalize_nonempty m W) as Hne.
    destruct (finalize m) as [|d rest].
    + split.
      * split; [discriminate|]. intros [m' [E Hex]].
        injection E as <-. exfalso. now apply (proj2 Hne Hex).
      * intros _. cbn. repeat split. discriminate.
    + assert (Hex : exists k p, In (k, p) m /\ hasCoreMetric p)
        by (apply Hne; discriminate).
      split.
      * split.
        -- intros _. exists m. now split.
        -- intros _. now destruct (App.editingProjectId st) as [[|c r]|].
      * intros H. exfalso. apply H.
        now destruct (App.editingProjectId st) as [[|c r]|].
Qed.

(** X18: an accepted upload in edit mode replaces the name and the figures
    of the project being edited and nothing else: the projects are the same
    in number and order, each keeps its identifier, its creation time and
    its report, and every other project is unchanged. Outside edit mode one
    project with the fresh identifier is put in front of the unchanged
    list. *)
Theorem accepted_upload_updates_projects (st : App.State)
  (files : list File) (projectName freshId : jsstring) (now : number)
  (out : list FinancialYearData) :
  extractFinancialData METRIC_RULES files = inr out -> out <> [] ->
  match App.editingProjectId st with
  | Some (c :: r) =>
    Forall2 (fun p p' =>
               App.id p' = App.id p /\ App.createdAt p' = App.createdAt p
               /\ App.report p' = App.report p
               /\ if str_eqb (App.id p) (c :: r)
                  then App.name p' = projectName /\ App.data p' = out
                  else p' = p)
            (App.projects st)
            (App.projects
               (App.handleAnalyzeComplete st files projectName freshId now))
    /\ App.activeProjectId
         (App.handleAnalyzeComplete st files projectName freshId now)
       = Some (c :: r)
  | _ =>
    App.projects (App.handleAnalyzeComplete st files projectName freshId now)
    = {| App.id := freshId; App.name := projectName; App.createdAt := now;
         App.data := out; App.report := None |} :: App.projects st
    /\ App.activeProjectId
         (App.handleAnalyzeComplete st files projectName freshId now)
       = Some freshId
  end.
Proof.
  intros He Hne. unfold App.handleAnalyzeComplete. rewrite He.
  destruct out as [|d rest]; [contradiction|].
  destruct (App.editingProjectId st) as [[|c r]|]; cbn; try (now split).
  split; [|reflexivity].
  induction (App.projects st) as [|p ps IH]; [constructor|].
  cbn [map]. constructor; [|exact IH].
  destruct (str_eqb (App.id p) (c :: r)); cbn; repeat split.
Qed.

Lemma accepted_upload_updates_projects_witness :
  Forall2 (fun p p' =>
             App.id p' = App.id p /\ App.createdAt p' = App.createdAt p
             /\ App.report p' = App.report p
             /\ if str_eqb (App.id p) (js "p1")
                then App.name p' = js "新名称"
                     /\ App.data p'
                        = [ coreRecord "2021" (numberOfZ 1000) pos_zero
                                       (numberOfZ 5000) pos_zero;
                            coreRecord "2022" (numberOfZ 1200) pos_zero
                                       (numberOfZ 5500) pos_zero ]
                else p' = p)
          [ {| App.id := js "p0"; App.name := js "甲"; App.createdAt := numberOfZ 1;
               App.data := []; App.report := None |};
            {| App.id := js "p1"; App.name := js "乙"; App.createdAt := numberOfZ 2;
               App.data := []; App.report := None |} ]
          (App.projects
             (App.handleAnalyzeComplete
                {| App.projects :=
                     [ {| App.id := js "p0"; App.name := js "甲";
                          App.createdAt := numberOfZ 1;
                          App.data := []; App.report := None |};
                       {| App.id := js "p1"; App.name := js "乙";
                          App.createdAt := numberOfZ 2;
                          App.data := []; App.report := None |} ];
                   App.view := App.UPLOAD;
                   App.activeProjectId := Some (js "p1");
                   App.editingProjectId := Some (js "p1");
                   App.compareProjectIds := [];
                   App.status := App.IDLE; App.error := None |}
                [singleSheetFile (js "a.xlsx") scenarioA]
                (js "新名称") (js "p2") (numberOfZ 3))).
Proof.
  apply (proj1
    (accepted_upload_updates_projects
       {| App.projects :=
            [ {| App.id := js "p0"; App.name := js "甲";
                 App.createdAt := numberOfZ 1;
                 App.data := []; App.report := None |};
              {| App.id := js "p1"; App.name := js "乙";
                 App.createdAt := numberOfZ 2;
                 App.data := []; App.report := None |} ];
          App.view := App.UPLOAD;
          App.activeProjectId := Some (js "p1");
          App.editingProjectId := Some (js "p1");
          App.compareProjectIds := [];
          App.status := App.IDLE; App.error := None |}
       [singleSheetFile (js "a.xlsx") scenarioA]
       (js "新名称") (js "p2") (numberOfZ 3)
       [ coreRecord "2021" (numberOfZ 1000) pos_zero (numberOfZ 5000) pos_zero;
         coreRecord "2022" (numberOfZ 1200) pos_zero (numberOfZ 5500) pos_zero ]
       ltac:(vm_compute; reflexivity) ltac:(discriminate))).
Defined.

(* ===================================================================== *)
(** ** Invariants of the returned records *)
(* ===================================================================== *)

Section RecordInvariant.

Variable RULES : RuleTable.
Variable P : FinancialYearData -> Prop.
Hypothesis P_new : forall y, P (newYear y).
Hypothesis P_metric : forall key v d, P d -> P (setMetric key v d).
Hypothesis P_composition :
  forall s d, P d -> P (setComposition (parseBusinessComposition s) d).

Let holds (m : YearDataMap) : Prop := forall k d, In (k, d) m -> P d.

Lemma holds_update (y : jsstring)
  (f : FinancialYearData -> FinancialYearData) (m : YearDataMap) :
  (forall d, P d -> P (f d)) -> holds m -> holds (updateYear y f m).
Proof.
  intros Hf Hm k d' Hin. apply updateYear_In in Hin.
  destruct Hin as [d [Hd [->|[_ ->]]]]; [|apply Hf]; exact (Hm k d Hd).
Qed.

Lemma holds_ensure (y : jsstring) (m : YearDataMap) :
  holds m -> holds (ensureYear y m).
Proof.
  intros Hm. unfold ensureYear. destruct (lookupYear y m); [exact Hm|].
  intros k d Hin. apply in_app_or in Hin. destruct Hin as [Hin|[E|[]]].
  - exact (Hm k d Hin).
  - injection E as _ <-. apply P_new.
Qed.

Lemma holds_write (y : jsstring) (key : Key.t) (v : number)
  (m : YearDataMap) :
  holds m -> holds (writeMetric y key v m).
Proof.
  intros Hm. rewrite writeMetric_stored. apply holds_update; [|exact Hm].
  intros d. apply P_metric.
Qed.

Lemma holds_horizontalRow (cols : list (nat * jsstring)) (m : YearDataMap)
  (row : Row) :
  holds m -> holds (horizontalRow RULES cols m row).
Proof.
  intros Hm.
  destruct (identifyMetric RULES (rowLabel row)) as [[key|]|] eqn:H.
  - rewrite (horizontalRow_fold RULES cols m row key H).
    apply fold_left_invariant; [|exact Hm].
    intros a e _ Ha. unfold horizontalCell.
    apply holds_write, holds_ensure, Ha.
  - unfold horizontalRow. fold (rowLabel row). now rewrite H.
  - unfold horizontalRow. fold (rowLabel row). now rewrite H.
Qed.

Lemma holds_verticalRow (cols : list (nat * MetricId)) (m : YearDataMap)
  (row : Row) :
  holds m -> holds (verticalRow cols m row).
Proof.
  intros Hm. unfold verticalRow. cbv zeta.
  destruct (matchLeadingFourDigits _) as [y|]; [|exact Hm].
  apply fold_left_invariant; [|now apply holds_ensure].
  intros a [i [key|]] _ Ha; unfold verticalCell.
  - now apply holds_write.
  - apply holds_update; [|exact Ha]. intros d. apply P_composition.
Qed.

Lemma holds_processSheet (m : YearDataMap) (rows : Sheet) :
  holds m -> holds (processSheet RULES m rows).
Proof.
  intros Hm. unfold processSheet. destruct rows as [|r0 rs]; [exact Hm|].
  destruct (detectStrategy RULES (r0 :: rs)) as [[[|] h]|]; [| |exact Hm].
  - cbv zeta. apply fold_left_invariant; [|exact Hm].
    intros a row _. apply holds_horizontalRow.
  - cbv zeta. apply fold_left_invariant; [|exact Hm].
    intros a row _. apply holds_verticalRow.
Qed.

Lemma holds_processFiles (files : list File) (m m' : YearDataMap) :
  holds m -> processFiles RULES files m = inr m' -> holds m'.
Proof.
  revert m. induction files as [|f rest IH]; intros m Hm H.
  - now injection H as <-.
  - cbn [processFiles] in H.
    destruct (workbook f) as [sheets|]; [|discriminate].
    refine (IH _ _ H). apply fold_left_invariant; [|exact Hm].
    intros a rows _. apply holds_processSheet.
Qed.

(** A property of records that the empty record has and that the two
    writes keep holds of every record of the map a call builds. *)
Lemma records_invariant (files : list File) (m : YearDataMap)
  (k : jsstring) (d : FinancialYearData) :
  processFiles RULES files [] = inr m -> In (k, d) m -> P d.
Proof.
  intros H. apply (holds_processFiles files [] m); [|exact H].
  intros k' d' [].
Qed.

End RecordInvariant.

(** X19: whatever the sheets hold, every composition item of every returned
    record has a name that is not empty, is trimmed and holds no separator,
    and a value that is not [NaN]. *)
Theorem returned_items_are_wellformed (RULES : RuleTable)
  (files : list File) (out : list FinancialYearData)
  (d : FinancialYearData) (item : BusinessCompositionItem) :
  extractFinancialData RULES files = inr out ->
  In d out -> In item (businessComposition d) ->
  name item <> [] /\ trim (name item) = name item
  /\ forallb notSeparator (name item) = true
  /\ isNaN (value item) = false.
Proof.
  unfold extractFinancialData.
  destruct (processFiles RULES files []) as [e|m] eqn:Hp; [discriminate|].
  intros H Hd Hitem. injection H as <-.
  pose proof (wellKeyed_processFiles RULES files [] m wellKeyed_nil Hp) as Hm.
  apply (finalize_In m d Hm) in Hd. destruct Hd as [k [p [Hin [_ ->]]]].
  cbn [fillDefaults businessComposition] in Hitem.
  assert (Hall : Forall wellFormedItem (businessComposition p)).
  { apply (records_invariant RULES
             (fun r => Forall wellFormedItem (businessComposition r)))
      with (files := files) (m := m) (k := k).
    - intros y. constructor.
    - intros key v r Hr. now rewrite setMetric_composition.
    - intros s r _. apply wellFormed_items.
    - exact Hp.
    - exact Hin. }
  exact (proj1 (Forall_forall _ _) Hall item Hitem).
Qed.

Lemma returned_items_are_wellformed_witness :
  name {| name := js "云服务"; value := numberOfZ 40 |} <> []
  /\ trim (name {| name := js "云服务"; value := numberOfZ 40 |})
     = js "云服务"
  /\ forallb notSeparator (name {| name := js "云服务"; value := numberOfZ 40 |})
     = true
  /\ isNaN (value {| name := js "云服务"; value := numberOfZ 40 |}) = false.
Proof.
  apply (returned_items_are_wellformed METRIC_RULES
           [singleSheetFile (js "c.xlsx") compositionSheet]
           [ {| year := js "2020";
                businessComposition :=
                  [ {| name := js "手机"; value := numberOfZ 60 |};
                    {| name := js "云服务"; value := numberOfZ 40 |} ];
                revenue := Some (numberOfZ 100);
                netProfitParent := Some (numberOfZ 10);
                totalAssets := Some (numberOfZ 200);
                equityParent := Some pos_zero;
                operatingCashFlow := None; capex := None;
                costOfRevenue := None; salesExpenses := None;
                managementExpenses := None; financialExpenses := None;
                researchExpenses := None; taxExpenses := None |} ]
           {| year := js "2020";
              businessComposition :=
                [ {| name := js "手机"; value := numberOfZ 60 |};
                  {| name := js "云服务"; value := numberOfZ 40 |} ];
              revenue := Some (numberOfZ 100);
              netProfitParent := Some (numberOfZ 10);
              totalAssets := Some (numberOfZ 200);
              equityParent := Some pos_zero;
              operatingCashFlow := None; capex := None;
              costOfRevenue := None; salesExpenses := None;
              managementExpenses := None; financialExpenses := None;
              researchExpenses := None; taxExpenses := None |}
           {| name := js "云服务"; value := numberOfZ 40 |}).
  - vm_compute. reflexivity.
  - left. reflexivity.
  - right. left. reflexivity.
Defined.

Lemma capex_is_magnitude_witness :
  Math_abs (numberOfZ 450) = numberOfZ 450
  /\ SFltb (numberOfZ 450) pos_zero = false
  /\ (isNaN (numberOfZ 450) = true \/ SFleb pos_zero (numberOfZ 450) = true).
Proof.
  apply (capex_is_magnitude METRIC_RULES
           [singleSheetFile (js "d.xlsx") capexSheet]
           [ setMetric Key.capex (numberOfZ 300)
               (coreRecord "2021" (numberOfZ 1000) pos_zero pos_zero pos_zero);
             setMetric Key.capex (numberOfZ 450)
               (coreRecord "2022" (numberOfZ 1200) pos_zero pos_zero
                           pos_zero) ]
           (setMetric Key.capex (numberOfZ 450)
              (coreRecord "2022" (numberOfZ 1200) pos_zero pos_zero pos_zero))
           (numberOfZ 450)).
  - vm_compute. reflexivity.
  - right. left. reflexivity.
  - reflexivity.
Defined.

(* ===================================================================== *)
(** ** The valuation inputs *)
(* ===================================================================== *)

Lemma binary_round_aux_not_below_zero (m e : Z) (l : location) :
  0 <= m -> SFltb (binary_round_aux prec emax false m e l) pos_zero = false.
Proof.
  intros Hm. unfold binary_round_aux.
  pose proof (shr_fexp_nonneg m e l Hm) as H1.
  destruct (shr_fexp prec emax m e l) as [mrs' e1]. cbn [fst] in H1.
  pose proof (round_nearest_even_nonneg _ (loc_of_shr_record mrs') H1) as Hr.
  pose proof (shr_fexp_nonneg _ e1 loc_Exact Hr) as H2.
  destruct (shr_fexp prec emax _ e1 loc_Exact) as [mrs2 e2]. cbn [fst] in H2.
  destruct (shr_m mrs2) as [|q|q]; [reflexivity| |lia].
  now destruct (e2 <=? emax - prec).
Qed.

Lemma orNumber0_not_NaN (o : option number) :
  isNaN (Dashboard.orNumber0 o) = false.
Proof. destruct o as [[s|s| |s m e]|]; reflexivity. Qed.

Lemma magnitude_over_finite (x : number) (m : Pos.t) (e : Z) :
  SFltb (SF64div (Math_abs x) (S754_finite false m e)) pos_zero = false.
Proof.
  destruct x as [s|s| |s mx ex]; try reflexivity.
  unfold Math_abs, SFabs, SF64div, SFdiv. cbn [xorb].
  pose proof (div_core_nonneg mx m ex e) as H.
  destruct (SFdiv_core_binary prec emax (Zpos mx) ex (Zpos m) e)
    as [[mz ez] lz].
  now apply binary_round_aux_not_below_zero.
Qed.

(** X21: the two cash inputs of the valuation, loaded from the latest year,
    are never [NaN], and the capital expenditure input is never below zero,
    whatever the record holds (an undefined, zero or [NaN] figure counts as
    zero); the five other inputs are left as they were. *)
Theorem loaded_inputs_are_numbers (data : list FinancialYearData)
  (prev : Dashboard.DCFParams) :
  data <> [] ->
  isNaN (Dashboard.ocfInBillions (Dashboard.loadParams data prev)) = false
  /\ isNaN (Dashboard.capexInBillions (Dashboard.loadParams data prev)) = false
  /\ SFltb (Dashboard.capexInBillions (Dashboard.loadParams data prev))
           pos_zero = false
  /\ Dashboard.growthPeriod (Dashboard.loadParams data prev)
     = Dashboard.growthPeriod prev
  /\ Dashboard.growthRate (Dashboard.loadParams data prev)
     = Dashboard.growthRate prev
  /\ Dashboard.terminalRate (Dashboard.loadParams data prev)
     = Dashboard.terminalRate prev
  /\ Dashboard.discountRate (Dashboard.loadParams data prev)
     = Dashboard.discountRate prev
  /\ Dashboard.shareCountInBillions (Dashboard.loadParams data prev)
     = Dashboard.shareCountInBillions prev.
Proof.
  intros Hne. unfold Dashboard.loadParams.
  destruct (rev data) as [|latest rest] eqn:E.
  - exfalso. apply Hne. rewrite <- (rev_involutive data), E. reflexivity.
  - cbn [Dashboard.ocfInBillions Dashboard.capexInBillions
         Dashboard.growthPeriod Dashboard.growthRate Dashboard.terminalRate
         Dashboard.discountRate Dashboard.shareCountInBillions].
    assert (H8 : exists m e, numberOfZ 100000000 = S754_finite false m e)
      by (vm_compute; eauto).
    destruct H8 as [m [e ->]].
    rewrite !SF64div_by_finite.
    split; [apply orNumber0_not_NaN|].
    split.
    + pose proof (orNumber0_not_NaN (capex latest)) as H.
      now destruct (Dashboard.orNumber0 (capex latest)).
    + split; [|now repeat split].
      apply magnitude_over_finite.
Qed.

Lemma loaded_inputs_are_numbers_witness :
  isNaN (Dashboard.capexInBillions
           (Dashboard.loadParams
              [ setMetric Key.capex NaN
                  (coreRecord "2020" (numberOfZ 100) pos_zero (numberOfZ 200)
                              pos_zero) ]
              Dashboard.initialParams)) = false.
Proof.
  apply (loaded_inputs_are_numbers
           [ setMetric Key.capex NaN
               (coreRecord "2020" (numberOfZ 100) pos_zero (numberOfZ 200)
                           pos_zero) ]
           Dashboard.initialParams).
  discriminate.
Defined.
